(** * A shallow embedding of the arena-shooter match engine

    The engine is the TypeScript code under [src/engine]: [Health], [Weapon],
    [Player], [Bot], [InputManager] and [GameManager].  This development
    embeds those classes as Rocq functions and proves (or refutes) the testable
    properties the specification states about them, and further properties
    the code has.  Of the user interface it embeds what is a function of the
    engine: the timer text of the HUD and the visibility of the pause and end
    screens.

    Conventions of the embedding.
    - A JavaScript [number] is an exact rational ([Q]); rounding, [NaN] and the
      sign of zero are outside the model.  The one place where the code
      produces [Infinity] ([hit.distance || Infinity]) has its own type.
    - A reading of [Date.now()] is an integer number of milliseconds ([Z]).
      Every call of [Date.now()] in the source is a separate argument of the
      embedded function, so nothing is assumed about how the clock moves
      between two calls.
    - Counters that the code only increments from zero are integers ([Z]).
    - A callback list becomes a list of emitted events; the subscribers the
      engine registers itself (the death handlers of [Player] and
      [GameManager]) are run where the event is emitted, in registration
      order.
    - The host (Babylon vector algebra, [Math] functions, collision response)
      is an interface, [Host]; ray casts, input state and [Math.random()]
      draws are per-call arguments.
    - The two [async] methods await the pointer lock; its outcome is an
      argument, and the code after the [await] runs before any other method
      of the manager. *)

From Stdlib Require Import ZArith QArith Qabs Qround Bool List Ascii String Lia Lqa.
From Stdlib Require DecimalString DecimalZ DecimalPos.
Import ListNotations.
Open Scope Q_scope.

(** ** Numbers *)

Definition Qlt_bool (x y : Q) : bool := negb (Qle_bool y x).

(** [Math.max(a, b)] and [Math.min(a, b)]. *)
Definition Math_max (a b : Q) : Q := if Qle_bool a b then b else a.
Definition Math_min (a b : Q) : Q := if Qle_bool a b then a else b.

(** ** constants.ts *)

Module GAME_CONSTANTS.
Definition MOVE_SPEED : Q := 6.5.
Definition JUMP_FORCE : Q := 7.5.
Definition BODY_DAMAGE : Q := 20.
Definition HEADSHOT_DAMAGE : Q := 30.
Definition FIRE_INTERVAL : Q := 0.2.
Definition MAX_HEALTH : Q := 100.
Definition RESPAWN_DELAY : Q := 2.
Definition WIN_CONDITION_KILLS : Z := 10.
Definition MATCH_TIME_LIMIT : Q := 5 * 60.
Definition BOT_CHASE_DISTANCE : Q := 20.
Definition BOT_STRAFE_MIN : Q := 6.
Definition BOT_STRAFE_MAX : Q := 10.
Definition BOT_REACTION_DELAY : Q := 250.
Definition BOT_ACCURACY : Q := 0.4.
Definition ARENA_SIZE : Q := 30.
End GAME_CONSTANTS.

(** ** health.ts: class [Health] *)

Module Health.

Record t : Type := mk { health : Q; maxHealth : Q }.

(** What the two callback lists are told. *)
Inductive Event : Type :=
| HealthChange (h : Q)   (* notifyHealthChange: every callback gets this.health *)
| Death.                 (* notifyDeath *)

(** [constructor(maxHealth = GAME_CONSTANTS.MAX_HEALTH)] *)
Definition new (maxHealth : Q) : t := mk maxHealth maxHealth.
Definition create : t := new GAME_CONSTANTS.MAX_HEALTH.

Definition getHealth (h : t) : Q := health h.
Definition getMaxHealth (h : t) : Q := maxHealth h.

Definition isDead (h : t) : bool := Qle_bool (health h) 0.

Definition takeDamage (amount : Q) (_isHeadshot : bool) (h : t) : t * list Event :=
  if Qle_bool (health h) 0 then (h, [])
  else
    let h' := mk (Math_max 0 (health h - amount)) (maxHealth h) in
    (h', HealthChange (health h') :: (if Qle_bool (health h') 0 then [Death] else [])).

Definition reset (h : t) : t * list Event :=
  let h' := mk (maxHealth h) (maxHealth h) in
  (h', [HealthChange (health h')]).

(** Sequences of calls on one instance. *)
Inductive Call : Type :=
| TakeDamage (amount : Q) (isHeadshot : bool)
| Reset.

Definition call (c : Call) (h : t) : t * list Event :=
  match c with
  | TakeDamage amount isHeadshot => takeDamage amount isHeadshot h
  | Reset => reset h
  end.

(** The instance after the calls [cs], and everything the callbacks were told. *)
Fixpoint calls (cs : list Call) (h : t) : t * list Event :=
  match cs with
  | [] => (h, [])
  | c :: cs' =>
    let (h1, e1) := call c h in
    let (h2, e2) := calls cs' h1 in
    (h2, e1 ++ e2)
  end.

(** The instance after each call of [cs], oldest first. *)
Fixpoint history (cs : list Call) (h : t) : list t :=
  match cs with
  | [] => []
  | c :: cs' => fst (call c h) :: history cs' (fst (call c h))
  end.

Definition isTakeDamage (c : Call) : Prop :=
  match c with TakeDamage _ _ => True | Reset => False end.

Definition nonNegativeDamage (c : Call) : Prop :=
  match c with TakeDamage amount _ => 0 <= amount | Reset => True end.

Definition inRange (h : t) : Prop := 0 <= health h /\ health h <= maxHealth h.

Definition isDeath (e : Event) : bool :=
  match e with Death => true | HealthChange _ => false end.

Definition deaths (es : list Event) : nat := List.length (filter isDeath es).

End Health.

(** ** The host: Babylon and [Math] *)

Module Vector3.

Record t : Type := mk { x : Q; y : Q; z : Q }.

Definition add (a b : t) : t := mk (x a + x b) (y a + y b) (z a + z b).
Definition subtract (a b : t) : t := mk (x a - x b) (y a - y b) (z a - z b).
Definition scale (k : Q) (a : t) : t := mk (x a * k) (y a * k) (z a * k).
Definition lengthSquared (a : t) : Q := x a * x a + y a * y a + z a * z a.
Definition set_y (v : Q) (a : t) : t := mk (x a) v (z a).

End Vector3.

(** What the engine takes from its host and does not implement itself.  The
    properties below hold for every host. *)
Class Host : Type := {
  Math_sqrt : Q -> Q;
  Math_cos : Q -> Q;
  Math_sin : Q -> Q;
  Math_atan2 : Q -> Q -> Q;
  Math_PI : Q;
  (* mesh.moveWithCollisions(displacement): the position the mesh ends at *)
  moveWithCollisions : Vector3.t -> Vector3.t -> Vector3.t
}.

Section VectorLength.
Context {host : Host}.

(** [v.length()] *)
Definition Vector3_length (a : Vector3.t) : Q := Math_sqrt (Vector3.lengthSquared a).

(** [Vector3.Distance(a, b)] *)
Definition Distance (a b : Vector3.t) : Q := Vector3_length (Vector3.subtract a b).

(** [v.normalize()]: a vector of length zero is left as it is. *)
Definition normalize (a : Vector3.t) : Vector3.t :=
  if Qeq_bool (Vector3_length a) 0 then a else Vector3.scale (1 / Vector3_length a) a.

End VectorLength.

Module Mesh.

(** A mesh is an object: [uniqueId] is its identity (what [===] compares). *)
Record t : Type := mk { uniqueId : nat; name : string; position : Vector3.t }.

Definition same (a b : t) : bool := Nat.eqb (uniqueId a) (uniqueId b).
Definition set_position (p : Vector3.t) (m : t) : t := mk (uniqueId m) (name m) p.

End Mesh.

(** The result of [scene.pickWithRay(ray)] when it is not [null]. *)
Module PickingInfo.
Record t : Type := mk { hit : bool; distance : Q; pickedMesh : option Mesh.t }.
End PickingInfo.

(** A number or [Infinity]. *)
Inductive Num : Type :=
| Finite (q : Q)
| Infinity.

(** [d || Infinity] *)
Definition orInfinity (d : Q) : Num := if Qeq_bool d 0 then Infinity else Finite d.

(** [Math.abs(a - b) < tol] *)
Definition absDiffLt (a : Num) (b tol : Q) : bool :=
  match a with
  | Finite a => Qlt_bool (Qabs (a - b)) tol
  | Infinity => false
  end.

(** [a <= b] *)
Definition numLe (a : Num) (b : Q) : bool :=
  match a with
  | Finite a => Qle_bool a b
  | Infinity => false
  end.

(** ** input.ts: what the engine reads from [InputManager] during one frame *)

Module InputManager.
Record t : Type := mk {
  isKeyPressed : string -> bool;
  isMouseButtonPressed : Z -> bool;
  isPointerLocked : bool;
  getMouseDelta : Q * Q
}.
End InputManager.

(** ** weapon.ts: class [Weapon] *)

Module Weapon.

(** [IDamageable] as [fire] reads it.  [getHeadPosition] and [getHeadCollider]
    are optional methods; [getHeadCollider] may also return [null]. *)
Record IDamageable : Type := mkDamageable {
  getPosition : Vector3.t;
  getHeadPosition : option Vector3.t;
  getHeadCollider : option (option Mesh.t)
}.

Record t : Type := mk { lastFireTime : Z; fireInterval : Q }.

Definition new : t := mk 0 (GAME_CONSTANTS.FIRE_INTERVAL * 1000).

(** [canFire()], with [now] the reading of [Date.now()]. *)
Definition canFire (now : Z) (w : t) : bool :=
  Qle_bool (fireInterval w) (inject_Z (now - lastFireTime w)).

Definition reset (w : t) : t := mk 0 (fireInterval w).

(** How a call of [fire] ends.  [Hit damage isHeadshot] stands for
    [damageable.takeDamage(damage, isHeadshot)], then [onHit(isHeadshot)] when a
    callback was passed, then [return true]; the other three return [false]. *)
Inductive Outcome : Type :=
| RateLimited                          (* !this.canFire() *)
| NoTarget                             (* !damageable *)
| Missed                               (* nothing picked, or not the target *)
| Hit (damage : Q) (isHeadshot : bool).

Definition returned (o : Outcome) : bool :=
  match o with Hit _ _ => true | _ => false end.

Section Fire.
Context {host : Host}.

(** The part of [fire] after the ray cast found a mesh: [Some isHeadshot] when
    [hitTarget] ends up true. *)
Definition resolveHit (origin : Vector3.t) (hitDistance : Num) (pickedMesh : Mesh.t)
    (damageable : IDamageable) : option bool :=
  let targetPos := getPosition damageable in
  let distanceToTarget := Distance origin targetPos in
  (* First check head collider *)
  let '(hitTarget, isHeadshot) :=
    match getHeadCollider damageable with
    | Some (Some headCollider) =>
      if Mesh.same pickedMesh headCollider then (true, true) else (false, false)
    | _ => (false, false)
    end in
  (* Check body collider or bot mesh *)
  let hitTarget :=
    if negb hitTarget then
      let hitTarget :=
        if String.eqb (Mesh.name pickedMesh) "bot"
        then (if absDiffLt hitDistance distanceToTarget 2.0 then true else hitTarget)
        else hitTarget in
      if negb hitTarget && String.eqb (Mesh.name pickedMesh) "playerBody"
      then (if absDiffLt hitDistance distanceToTarget 1.5 then true else hitTarget)
      else hitTarget
    else hitTarget in
  if hitTarget then
    let isHeadshot :=
      if negb isHeadshot then
        match getHeadPosition damageable with
        | Some headPos =>
          let headDistance := Distance origin headPos in
          if absDiffLt hitDistance headDistance 0.3 && numLe hitDistance (headDistance + 0.2)
          then true else isHeadshot
        | None => isHeadshot
        end
      else isHeadshot in
    Some isHeadshot
  else None.

(** [fire(origin, direction, damageable, onHit)].  [nowCanFire] is the clock
    read by [canFire()], [nowStamp] the one stored in [lastFireTime]; [hit] is
    what [scene.pickWithRay(new Ray(origin, direction))] returns. *)
Definition fire (nowCanFire nowStamp : Z) (origin : Vector3.t)
    (hit : option PickingInfo.t) (damageable : option IDamageable) (w : t) : t * Outcome :=
  if negb (canFire nowCanFire w) then (w, RateLimited)
  else
    let w := mk nowStamp (fireInterval w) in
    match damageable with
    | None => (w, NoTarget)
    | Some damageable =>
      match hit with
      | None => (w, Missed)
      | Some hit =>
        match PickingInfo.hit hit, PickingInfo.pickedMesh hit with
        | true, Some pickedMesh =>
          let hitDistance := orInfinity (PickingInfo.distance hit) in
          match resolveHit origin hitDistance pickedMesh damageable with
          | Some isHeadshot =>
            let damage :=
              if isHeadshot then GAME_CONSTANTS.HEADSHOT_DAMAGE
              else GAME_CONSTANTS.BODY_DAMAGE in
            (w, Hit damage isHeadshot)
          | None => (w, Missed)
          end
        | _, _ => (w, Missed)
        end
      end
    end.

End Fire.

End Weapon.

(** ** scene.ts: the two spawn points of [GameScene] *)

Module GameScene.
Definition playerSpawn : Vector3.t :=
  Vector3.mk (- GAME_CONSTANTS.ARENA_SIZE / 2 + 2) 2 0.
Definition botSpawn : Vector3.t :=
  Vector3.mk (GAME_CONSTANTS.ARENA_SIZE / 2 - 2) 2 0.
End GameScene.

(** ** player.ts: class [Player]

    [weapon] is the object [GameManager] holds as [playerWeapon]; it is kept
    there, and [GameManager] performs the [this.weapon.reset()] of [respawn].
    The camera is the player's; only the fields the engine touches are kept,
    and what Babylon does to the camera between two frames (gravity,
    collisions) is not engine code. *)

Module Player.

Record t : Type := mk {
  camera_position : Vector3.t;
  camera_rotation_x : Q;
  camera_rotation_y : Q;
  camera_cameraDirection_y : Q;
  health : Health.t;
  isDead : bool;
  canControl : bool;
  headCollider : option Mesh.t;
  bodyCollider : option Mesh.t;
  isOnGround : bool;
  lastGroundCheck : Z;
  currentRotationY : Q;
  currentRotationX : Q
}.

Definition set_camera_position (v : Vector3.t) (r : t) : t :=
  mk v (camera_rotation_x r) (camera_rotation_y r) (camera_cameraDirection_y r) (health r)
     (isDead r) (canControl r) (headCollider r) (bodyCollider r) (isOnGround r)
     (lastGroundCheck r) (currentRotationY r) (currentRotationX r).
Definition set_camera_rotation_x (v : Q) (r : t) : t :=
  mk (camera_position r) v (camera_rotation_y r) (camera_cameraDirection_y r) (health r)
     (isDead r) (canControl r) (headCollider r) (bodyCollider r) (isOnGround r)
     (lastGroundCheck r) (currentRotationY r) (currentRotationX r).
Definition set_camera_rotation_y (v : Q) (r : t) : t :=
  mk (camera_position r) (camera_rotation_x r) v (camera_cameraDirection_y r) (health r)
     (isDead r) (canControl r) (headCollider r) (bodyCollider r) (isOnGround r)
     (lastGroundCheck r) (currentRotationY r) (currentRotationX r).
Definition set_camera_cameraDirection_y (v : Q) (r : t) : t :=
  mk (camera_position r) (camera_rotation_x r) (camera_rotation_y r) v (health r) (isDead r)
     (canControl r) (headCollider r) (bodyCollider r) (isOnGround r) (lastGroundCheck r)
     (currentRotationY r) (currentRotationX r).
Definition set_health (v : Health.t) (r : t) : t :=
  mk (camera_position r) (camera_rotation_x r) (camera_rotation_y r)
     (camera_cameraDirection_y r) v (isDead r) (canControl r) (headCollider r)
     (bodyCollider r) (isOnGround r) (lastGroundCheck r) (currentRotationY r)
     (currentRotationX r).
Definition set_isDead (v : bool) (r : t) : t :=
  mk (camera_position r) (camera_rotation_x r) (camera_rotation_y r)
     (camera_cameraDirection_y r) (health r) v (canControl r) (headCollider r)
     (bodyCollider r) (isOnGround r) (lastGroundCheck r) (currentRotationY r)
     (currentRotationX r).
Definition set_canControl (v : bool) (r : t) : t :=
  mk (camera_position r) (camera_rotation_x r) (camera_rotation_y r)
     (camera_cameraDirection_y r) (health r) (isDead r) v (headCollider r) (bodyCollider r)
     (isOnGround r) (lastGroundCheck r) (currentRotationY r) (currentRotationX r).
Definition set_headCollider (v : option Mesh.t) (r : t) : t :=
  mk (camera_position r) (camera_rotation_x r) (camera_rotation_y r)
     (camera_cameraDirection_y r) (health r) (isDead r) (canControl r) v (bodyCollider r)
     (isOnGround r) (lastGroundCheck r) (currentRotationY r) (currentRotationX r).
Definition set_bodyCollider (v : option Mesh.t) (r : t) : t :=
  mk (camera_position r) (camera_rotation_x r) (camera_rotation_y r)
     (camera_cameraDirection_y r) (health r) (isDead r) (canControl r) (headCollider r) v
     (isOnGround r) (lastGroundCheck r) (currentRotationY r) (currentRotationX r).
Definition set_isOnGround (v : bool) (r : t) : t :=
  mk (camera_position r) (camera_rotation_x r) (camera_rotation_y r)
     (camera_cameraDirection_y r) (health r) (isDead r) (canControl r) (headCollider r)
     (bodyCollider r) v (lastGroundCheck r) (currentRotationY r) (currentRotationX r).
Definition set_lastGroundCheck (v : Z) (r : t) : t :=
  mk (camera_position r) (camera_rotation_x r) (camera_rotation_y r)
     (camera_cameraDirection_y r) (health r) (isDead r) (canControl r) (headCollider r)
     (bodyCollider r) (isOnGround r) v (currentRotationY r) (currentRotationX r).
Definition set_currentRotationY (v : Q) (r : t) : t :=
  mk (camera_position r) (camera_rotation_x r) (camera_rotation_y r)
     (camera_cameraDirection_y r) (health r) (isDead r) (canControl r) (headCollider r)
     (bodyCollider r) (isOnGround r) (lastGroundCheck r) v (currentRotationX r).
Definition set_currentRotationX (v : Q) (r : t) : t :=
  mk (camera_position r) (camera_rotation_x r) (camera_rotation_y r)
     (camera_cameraDirection_y r) (health r) (isDead r) (canControl r) (headCollider r)
     (bodyCollider r) (isOnGround r) (lastGroundCheck r) (currentRotationY r) v.

(** The state the constructor leaves, for a camera at [cameraPos]; the two
    colliders exist when the camera has a scene. *)
Definition new (cameraPos : Vector3.t) (headId bodyId : nat) : t :=
  mk cameraPos 0 0 0 Health.create false true
     (Some (Mesh.mk headId "playerHead" (Vector3.add cameraPos (Vector3.mk 0 0.5 0))))
     (Some (Mesh.mk bodyId "playerBody" (Vector3.add cameraPos (Vector3.mk 0 (-0.5) 0))))
     false 0%Z 0 0.

(** The death callback the constructor registers on [health]. *)
Definition onDeath (p : t) : t := set_canControl false (set_isDead true p).

Definition updateHeadColliderPosition (p : t) : t :=
  match headCollider p with
  | None => p
  | Some c =>
    let headOffset := Vector3.mk 0 0.5 0 in
    set_headCollider (Some (Mesh.set_position (Vector3.add (camera_position p) headOffset) c)) p
  end.

Definition updateBodyColliderPosition (p : t) : t :=
  match bodyCollider p with
  | None => p
  | Some c =>
    let bodyOffset := Vector3.mk 0 (-0.5) 0 in
    set_bodyCollider (Some (Mesh.set_position (Vector3.add (camera_position p) bodyOffset) c)) p
  end.

Definition getPosition (p : t) : Vector3.t := camera_position p.

Definition getHeadPosition (p : t) : Vector3.t :=
  Vector3.add (camera_position p) (Vector3.mk 0 0.5 0).

Definition getHeadCollider (p : t) : option Mesh.t := headCollider p.

Definition asDamageable (p : t) : Weapon.IDamageable :=
  Weapon.mkDamageable (getPosition p) (Some (getHeadPosition p)) (Some (getHeadCollider p)).

Definition setCanControl (canControl : bool) (p : t) : t := set_canControl canControl p.

(** [respawn(spawnPoint)], but for [this.weapon.reset()]. *)
Definition respawn (spawnPoint : Vector3.t) (p : t) : t :=
  let cameraPos := Vector3.set_y 1.8 spawnPoint in
  let p := set_camera_position cameraPos p in
  let p := set_currentRotationY 0 p in
  let p := set_currentRotationX 0 p in
  let p := set_camera_rotation_y 0 p in
  let p := set_camera_rotation_x 0 p in
  let p := set_health (fst (Health.reset (health p))) p in
  let p := set_isDead false p in
  set_canControl true p.

Section Update.
Context {host : Host}.

(** [update(deltaTime)].  [now] is the clock read for the ground check and
    [groundHit] the downward ray cast made when the check runs. *)
Definition update (deltaTime : Q) (input : InputManager.t) (now : Z)
    (groundHit : option PickingInfo.t) (p : t) : t :=
  if negb (canControl p) then p
  else
    (* Update collider positions *)
    let p := updateHeadColliderPosition p in
    let p := updateBodyColliderPosition p in
    (* Handle mouse look *)
    let p :=
      if InputManager.isPointerLocked input then
        let mouseDelta := InputManager.getMouseDelta input in
        let sensitivity := 0.002 in
        let p :=
          if negb (Qeq_bool (fst mouseDelta) 0) || negb (Qeq_bool (snd mouseDelta) 0) then
            let p := set_currentRotationY (currentRotationY p + fst mouseDelta * sensitivity) p in
            let p := set_currentRotationX (currentRotationX p + snd mouseDelta * sensitivity) p in
            set_currentRotationX
              (Math_max (- Math_PI / 2) (Math_min (Math_PI / 2) (currentRotationX p))) p
          else p in
        let p := set_camera_rotation_y (currentRotationY p) p in
        set_camera_rotation_x (currentRotationX p) p
      else p in
    (* Handle movement *)
    let moveVector := Vector3.mk 0 0 0 in
    let moveVector :=
      if InputManager.isKeyPressed input "w"
      then Vector3.mk (Vector3.x moveVector) (Vector3.y moveVector) (Vector3.z moveVector + 1)
      else moveVector in
    let moveVector :=
      if InputManager.isKeyPressed input "s"
      then Vector3.mk (Vector3.x moveVector) (Vector3.y moveVector) (Vector3.z moveVector - 1)
      else moveVector in
    let moveVector :=
      if InputManager.isKeyPressed input "a"
      then Vector3.mk (Vector3.x moveVector - 1) (Vector3.y moveVector) (Vector3.z moveVector)
      else moveVector in
    let moveVector :=
      if InputManager.isKeyPressed input "d"
      then Vector3.mk (Vector3.x moveVector + 1) (Vector3.y moveVector) (Vector3.z moveVector)
      else moveVector in
    let p :=
      if Qlt_bool 0 (Vector3_length moveVector) then
        let moveVector := normalize moveVector in
        let yaw := camera_rotation_y p in
        let cosY := Math_cos yaw in
        let sinY := Math_sin yaw in
        let forward := Vector3.mk sinY 0 cosY in
        let right := Vector3.mk cosY 0 (- sinY) in
        let moveDirection :=
          normalize (Vector3.add (Vector3.scale (Vector3.z moveVector) forward)
                                 (Vector3.scale (Vector3.x moveVector) right)) in
        let moveDistance := GAME_CONSTANTS.MOVE_SPEED * deltaTime in
        let moveDelta := Vector3.scale moveDistance moveDirection in
        set_camera_position (Vector3.add (camera_position p) moveDelta) p
      else p in
    (* Check if on ground *)
    let p :=
      if (50 <? now - lastGroundCheck p)%Z then
        let onGround :=
          match groundHit with
          | Some hit => PickingInfo.hit hit && Qlt_bool (PickingInfo.distance hit) 1.2
          | None => false
          end in
        set_lastGroundCheck now (set_isOnGround onGround p)
      else p in
    (* Handle jump *)
    if InputManager.isKeyPressed input " " && isOnGround p
    then set_camera_cameraDirection_y GAME_CONSTANTS.JUMP_FORCE p
    else p.

End Update.

End Player.

(** ** bot.ts: class [Bot]

    As for [Player], [weapon] is the [botWeapon] of [GameManager]. *)

Module Bot.

Inductive State : Type := idle | chasing | attacking.

Record t : Type := mk {
  mesh : Mesh.t;
  mesh_rotation_y : Q;
  health : Health.t;
  headCollider : Mesh.t;
  lastShotTime : Z;
  reactionDelay : Q;
  strafeDirection : Q;
  strafeChangeTime : Z;
  state : State
}.

Definition set_mesh (v : Mesh.t) (r : t) : t :=
  mk v (mesh_rotation_y r) (health r) (headCollider r) (lastShotTime r) (reactionDelay r)
     (strafeDirection r) (strafeChangeTime r) (state r).
Definition set_mesh_rotation_y (v : Q) (r : t) : t :=
  mk (mesh r) v (health r) (headCollider r) (lastShotTime r) (reactionDelay r)
     (strafeDirection r) (strafeChangeTime r) (state r).
Definition set_health (v : Health.t) (r : t) : t :=
  mk (mesh r) (mesh_rotation_y r) v (headCollider r) (lastShotTime r) (reactionDelay r)
     (strafeDirection r) (strafeChangeTime r) (state r).
Definition set_headCollider (v : Mesh.t) (r : t) : t :=
  mk (mesh r) (mesh_rotation_y r) (health r) v (lastShotTime r) (reactionDelay r)
     (strafeDirection r) (strafeChangeTime r) (state r).
Definition set_lastShotTime (v : Z) (r : t) : t :=
  mk (mesh r) (mesh_rotation_y r) (health r) (headCollider r) v (reactionDelay r)
     (strafeDirection r) (strafeChangeTime r) (state r).
Definition set_reactionDelay (v : Q) (r : t) : t :=
  mk (mesh r) (mesh_rotation_y r) (health r) (headCollider r) (lastShotTime r) v
     (strafeDirection r) (strafeChangeTime r) (state r).
Definition set_strafeDirection (v : Q) (r : t) : t :=
  mk (mesh r) (mesh_rotation_y r) (health r) (headCollider r) (lastShotTime r)
     (reactionDelay r) v (strafeChangeTime r) (state r).
Definition set_strafeChangeTime (v : Z) (r : t) : t :=
  mk (mesh r) (mesh_rotation_y r) (health r) (headCollider r) (lastShotTime r)
     (reactionDelay r) (strafeDirection r) v (state r).
Definition set_state (v : State) (r : t) : t :=
  mk (mesh r) (mesh_rotation_y r) (health r) (headCollider r) (lastShotTime r)
     (reactionDelay r) (strafeDirection r) (strafeChangeTime r) v.

(** What one [update] reads from outside: the clock of the strafe timer, the
    clock of the shot timer, and its two [Math.random()] draws. *)
Record Env : Type := mkEnv {
  now : Z;
  nowTime : Z;
  randomFlip : Q;
  randomStrafe : Q
}.

Definition updateHeadColliderPosition (b : t) : t :=
  let headOffset := Vector3.mk 0 2 0 in
  set_headCollider
    (Mesh.set_position (Vector3.add (Mesh.position (mesh b)) headOffset) (headCollider b)) b.

(** The state the constructor leaves. *)
Definition new (spawnPoint : Vector3.t) (meshId headId : nat) : t :=
  updateHeadColliderPosition
    (mk (Mesh.mk meshId "bot" (Vector3.set_y 1 spawnPoint)) 0 Health.create
        (Mesh.mk headId "botHead" (Vector3.mk 0 0 0))
        0%Z GAME_CONSTANTS.BOT_REACTION_DELAY 1 0%Z idle).

Definition getPosition (b : t) : Vector3.t := Mesh.position (mesh b).

Definition getHeadPosition (b : t) : Vector3.t :=
  Vector3.add (Mesh.position (mesh b)) (Vector3.mk 0 2 0).

Definition getHeadCollider (b : t) : Mesh.t := headCollider b.

Definition asDamageable (b : t) : Weapon.IDamageable :=
  Weapon.mkDamageable (getPosition b) (Some (getHeadPosition b)) (Some (Some (getHeadCollider b))).

(** [respawn(spawnPoint)], but for [this.weapon.reset()]. *)
Definition respawn (spawnPoint : Vector3.t) (b : t) : t :=
  let b := set_mesh (Mesh.set_position spawnPoint (mesh b)) b in
  let b := set_health (fst (Health.reset (health b))) b in
  let b := set_lastShotTime 0%Z b in
  set_state idle b.

Section Update.
Context {host : Host}.

Definition faceTarget (target : Vector3.t) (b : t) : t :=
  let direction := Vector3.subtract target (Mesh.position (mesh b)) in
  let direction := normalize (Vector3.set_y 0 direction) in
  if Qlt_bool 0 (Vector3_length direction)
  then set_mesh_rotation_y (Math_atan2 (Vector3.x direction) (Vector3.z direction)) b
  else b.

(** The strafe step shared by [chasePlayer] and [attackPlayer]: the direction
    flips when more than [period] ms have passed since the last flip. *)
Definition strafe (period : Z) (env : Env) (b : t) : t :=
  if (period <? now env - strafeChangeTime b)%Z
  then set_strafeChangeTime (now env)
         (set_strafeDirection (if Qlt_bool 0.5 (randomFlip env) then 1 else - (1)) b)
  else b.

Definition strafeVector (direction : Vector3.t) (deltaTime : Q) (env : Env) (b : t) : Vector3.t :=
  let strafeAmount :=
    (randomStrafe env * (GAME_CONSTANTS.BOT_STRAFE_MAX - GAME_CONSTANTS.BOT_STRAFE_MIN)
     + GAME_CONSTANTS.BOT_STRAFE_MIN) * strafeDirection b in
  Vector3.scale (strafeAmount * deltaTime)
    (normalize (Vector3.mk (- Vector3.z direction) 0 (Vector3.x direction))).

Definition chasePlayer (playerPosition : Vector3.t) (deltaTime : Q) (env : Env) (b : t) : t :=
  let direction := Vector3.subtract playerPosition (Mesh.position (mesh b)) in
  let direction := normalize (Vector3.set_y 0 direction) in
  let b := strafe 2000 env b in
  let moveVector :=
    Vector3.add (Vector3.scale (GAME_CONSTANTS.MOVE_SPEED * deltaTime) direction)
                (strafeVector direction deltaTime env b) in
  let b := set_mesh (Mesh.set_position (moveWithCollisions (Mesh.position (mesh b)) moveVector)
                                       (mesh b)) b in
  faceTarget playerPosition b.

(** [shootAtPlayer] computes an aim direction and drops it: the shot itself is
    fired by [GameManager].  Only the timer of [attackPlayer] changes. *)
Definition attackPlayer (playerPosition : Vector3.t) (deltaTime : Q) (env : Env) (b : t) : t :=
  let direction := Vector3.subtract playerPosition (Mesh.position (mesh b)) in
  let direction := normalize (Vector3.set_y 0 direction) in
  let b := strafe 1500 env b in
  let b := set_mesh (Mesh.set_position
                       (moveWithCollisions (Mesh.position (mesh b))
                                           (strafeVector direction deltaTime env b))
                       (mesh b)) b in
  let b := faceTarget playerPosition b in
  if Qle_bool (reactionDelay b) (inject_Z (nowTime env - lastShotTime b))
  then set_lastShotTime (nowTime env) b
  else b.

Definition update (deltaTime : Q) (playerPosition : Vector3.t) (env : Env) (b : t) : t :=
  if Health.isDead (health b) then b
  else
    let b := updateHeadColliderPosition b in
    let distanceToPlayer := Distance (Mesh.position (mesh b)) playerPosition in
    let b :=
      if Qle_bool distanceToPlayer GAME_CONSTANTS.BOT_CHASE_DISTANCE
      then set_state attacking b
      else set_state chasing b in
    match state b with
    | chasing => chasePlayer playerPosition deltaTime env b
    | attacking => attackPlayer playerPosition deltaTime env b
    | idle => b
    end.

End Update.

End Bot.

(** ** gameManager.ts: class [GameManager] *)

Module GameStats.

Record t : Type := mk {
  playerKills : Z;
  botKills : Z;
  shotsFired : Z;
  shotsHit : Z;
  headshots : Z;
  playerAccuracy : Q;
  botAccuracy : Q;
  averageLifeDuration : Q
}.

Definition set_playerKills (v : Z) (r : t) : t :=
  mk v (botKills r) (shotsFired r) (shotsHit r) (headshots r) (playerAccuracy r)
     (botAccuracy r) (averageLifeDuration r).
Definition set_botKills (v : Z) (r : t) : t :=
  mk (playerKills r) v (shotsFired r) (shotsHit r) (headshots r) (playerAccuracy r)
     (botAccuracy r) (averageLifeDuration r).
Definition set_shotsFired (v : Z) (r : t) : t :=
  mk (playerKills r) (botKills r) v (shotsHit r) (headshots r) (playerAccuracy r)
     (botAccuracy r) (averageLifeDuration r).
Definition set_shotsHit (v : Z) (r : t) : t :=
  mk (playerKills r) (botKills r) (shotsFired r) v (headshots r) (playerAccuracy r)
     (botAccuracy r) (averageLifeDuration r).
Definition set_headshots (v : Z) (r : t) : t :=
  mk (playerKills r) (botKills r) (shotsFired r) (shotsHit r) v (playerAccuracy r)
     (botAccuracy r) (averageLifeDuration r).
Definition set_playerAccuracy (v : Q) (r : t) : t :=
  mk (playerKills r) (botKills r) (shotsFired r) (shotsHit r) (headshots r) v
     (botAccuracy r) (averageLifeDuration r).
Definition set_botAccuracy (v : Q) (r : t) : t :=
  mk (playerKills r) (botKills r) (shotsFired r) (shotsHit r) (headshots r)
     (playerAccuracy r) v (averageLifeDuration r).
Definition set_averageLifeDuration (v : Q) (r : t) : t :=
  mk (playerKills r) (botKills r) (shotsFired r) (shotsHit r) (headshots r)
     (playerAccuracy r) (botAccuracy r) v.

Definition zero : t := mk 0 0 0 0 0 0 0 0.

End GameStats.

Module GameManager.

Inductive GameState : Type := waiting | playing | respawning | matchEnded | paused.

(** ['player' | 'bot'] *)
Inductive Entity : Type := thePlayer | theBot.

(** The fields of the class, then the two variables of [gameLoop]: [lastTime],
    and [loopScheduled], true while a [requestAnimationFrame(loop)] is
    pending. *)
Record t : Type := mk {
  player : Player.t;
  bot : Bot.t;
  playerWeapon : Weapon.t;
  botWeapon : Weapon.t;
  state : GameState;
  matchStartTime : Z;
  matchTimeRemaining : Q;
  playerKills : Z;
  botKills : Z;
  respawnTimer : Q;
  respawningEntity : option Entity;
  stats : GameStats.t;
  lifeStartTime : Z;
  gameStartTime : Z;
  lifeDurations : list Q;
  playerShotsFired : Z;
  playerShotsHit : Z;
  botShotsFired : Z;
  botShotsHit : Z;
  lastTime : Q;
  loopScheduled : bool
}.

Definition set_player (v : Player.t) (r : t) : t :=
  mk v (bot r) (playerWeapon r) (botWeapon r) (state r) (matchStartTime r)
     (matchTimeRemaining r) (playerKills r) (botKills r) (respawnTimer r)
     (respawningEntity r) (stats r) (lifeStartTime r) (gameStartTime r) (lifeDurations r)
     (playerShotsFired r) (playerShotsHit r) (botShotsFired r) (botShotsHit r) (lastTime r)
     (loopScheduled r).
Definition set_bot (v : Bot.t) (r : t) : t :=
  mk (player r) v (playerWeapon r) (botWeapon r) (state r) (matchStartTime r)
     (matchTimeRemaining r) (playerKills r) (botKills r) (respawnTimer r)
     (respawningEntity r) (stats r) (lifeStartTime r) (gameStartTime r) (lifeDurations r)
     (playerShotsFired r) (playerShotsHit r) (botShotsFired r) (botShotsHit r) (lastTime r)
     (loopScheduled r).
Definition set_playerWeapon (v : Weapon.t) (r : t) : t :=
  mk (player r) (bot r) v (botWeapon r) (state r) (matchStartTime r) (matchTimeRemaining r)
     (playerKills r) (botKills r) (respawnTimer r) (respawningEntity r) (stats r)
     (lifeStartTime r) (gameStartTime r) (lifeDurations r) (playerShotsFired r)
     (playerShotsHit r) (botShotsFired r) (botShotsHit r) (lastTime r) (loopScheduled r).
Definition set_botWeapon (v : Weapon.t) (r : t) : t :=
  mk (player r) (bot r) (playerWeapon r) v (state r) (matchStartTime r)
     (matchTimeRemaining r) (playerKills r) (botKills r) (respawnTimer r)
     (respawningEntity r) (stats r) (lifeStartTime r) (gameStartTime r) (lifeDurations r)
     (playerShotsFired r) (playerShotsHit r) (botShotsFired r) (botShotsHit r) (lastTime r)
     (loopScheduled r).
Definition set_state (v : GameState) (r : t) : t :=
  mk (player r) (bot r) (playerWeapon r) (botWeapon r) v (matchStartTime r)
     (matchTimeRemaining r) (playerKills r) (botKills r) (respawnTimer r)
     (respawningEntity r) (stats r) (lifeStartTime r) (gameStartTime r) (lifeDurations r)
     (playerShotsFired r) (playerShotsHit r) (botShotsFired r) (botShotsHit r) (lastTime r)
     (loopScheduled r).
Definition set_matchStartTime (v : Z) (r : t) : t :=
  mk (player r) (bot r) (playerWeapon r) (botWeapon r) (state r) v (matchTimeRemaining r)
     (playerKills r) (botKills r) (respawnTimer r) (respawningEntity r) (stats r)
     (lifeStartTime r) (gameStartTime r) (lifeDurations r) (playerShotsFired r)
     (playerShotsHit r) (botShotsFired r) (botShotsHit r) (lastTime r) (loopScheduled r).
Definition set_matchTimeRemaining (v : Q) (r : t) : t :=
  mk (player r) (bot r) (playerWeapon r) (botWeapon r) (state r) (matchStartTime r) v
     (playerKills r) (botKills r) (respawnTimer r) (respawningEntity r) (stats r)
     (lifeStartTime r) (gameStartTime r) (lifeDurations r) (playerShotsFired r)
     (playerShotsHit r) (botShotsFired r) (botShotsHit r) (lastTime r) (loopScheduled r).
Definition set_playerKills (v : Z) (r : t) : t :=
  mk (player r) (bot r) (playerWeapon r) (botWeapon r) (state r) (matchStartTime r)
     (matchTimeRemaining r) v (botKills r) (respawnTimer r) (respawningEntity r) (stats r)
     (lifeStartTime r) (gameStartTime r) (lifeDurations r) (playerShotsFired r)
     (playerShotsHit r) (botShotsFired r) (botShotsHit r) (lastTime r) (loopScheduled r).
Definition set_botKills (v : Z) (r : t) : t :=
  mk (player r) (bot r) (playerWeapon r) (botWeapon r) (state r) (matchStartTime r)
     (matchTimeRemaining r) (playerKills r) v (respawnTimer r) (respawningEntity r)
     (stats r) (lifeStartTime r) (gameStartTime r) (lifeDurations r) (playerShotsFired r)
     (playerShotsHit r) (botShotsFired r) (botShotsHit r) (lastTime r) (loopScheduled r).
Definition set_respawnTimer (v : Q) (r : t) : t :=
  mk (player r) (bot r) (playerWeapon r) (botWeapon r) (state r) (matchStartTime r)
     (matchTimeRemaining r) (playerKills r) (botKills r) v (respawningEntity r) (stats r)
     (lifeStartTime r) (gameStartTime r) (lifeDurations r) (playerShotsFired r)
     (playerShotsHit r) (botShotsFired r) (botShotsHit r) (lastTime r) (loopScheduled r).
Definition set_respawningEntity (v : option Entity) (r : t) : t :=
  mk (player r) (bot r) (playerWeapon r) (botWeapon r) (state r) (matchStartTime r)
     (matchTimeRemaining r) (playerKills r) (botKills r) (respawnTimer r) v (stats r)
     (lifeStartTime r) (gameStartTime r) (lifeDurations r) (playerShotsFired r)
     (playerShotsHit r) (botShotsFired r) (botShotsHit r) (lastTime r) (loopScheduled r).
Definition set_stats (v : GameStats.t) (r : t) : t :=
  mk (player r) (bot r) (playerWeapon r) (botWeapon r) (state r) (matchStartTime r)
     (matchTimeRemaining r) (playerKills r) (botKills r) (respawnTimer r)
     (respawningEntity r) v (lifeStartTime r) (gameStartTime r) (lifeDurations r)
     (playerShotsFired r) (playerShotsHit r) (botShotsFired r) (botShotsHit r) (lastTime r)
     (loopScheduled r).
Definition set_lifeStartTime (v : Z) (r : t) : t :=
  mk (player r) (bot r) (playerWeapon r) (botWeapon r) (state r) (matchStartTime r)
     (matchTimeRemaining r) (playerKills r) (botKills r) (respawnTimer r)
     (respawningEntity r) (stats r) v (gameStartTime r) (lifeDurations r)
     (playerShotsFired r) (playerShotsHit r) (botShotsFired r) (botShotsHit r) (lastTime r)
     (loopScheduled r).
Definition set_gameStartTime (v : Z) (r : t) : t :=
  mk (player r) (bot r) (playerWeapon r) (botWeapon r) (state r) (matchStartTime r)
     (matchTimeRemaining r) (playerKills r) (botKills r) (respawnTimer r)
     (respawningEntity r) (stats r) (lifeStartTime r) v (lifeDurations r)
     (playerShotsFired r) (playerShotsHit r) (botShotsFired r) (botShotsHit r) (lastTime r)
     (loopScheduled r).
Definition set_lifeDurations (v : list Q) (r : t) : t :=
  mk (player r) (bot r) (playerWeapon r) (botWeapon r) (state r) (matchStartTime r)
     (matchTimeRemaining r) (playerKills r) (botKills r) (respawnTimer r)
     (respawningEntity r) (stats r) (lifeStartTime r) (gameStartTime r) v
     (playerShotsFired r) (playerShotsHit r) (botShotsFired r) (botShotsHit r) (lastTime r)
     (loopScheduled r).
Definition set_playerShotsFired (v : Z) (r : t) : t :=
  mk (player r) (bot r) (playerWeapon r) (botWeapon r) (state r) (matchStartTime r)
     (matchTimeRemaining r) (playerKills r) (botKills r) (respawnTimer r)
     (respawningEntity r) (stats r) (lifeStartTime r) (gameStartTime r) (lifeDurations r) v
     (playerShotsHit r) (botShotsFired r) (botShotsHit r) (lastTime r) (loopScheduled r).
Definition set_playerShotsHit (v : Z) (r : t) : t :=
  mk (player r) (bot r) (playerWeapon r) (botWeapon r) (state r) (matchStartTime r)
     (matchTimeRemaining r) (playerKills r) (botKills r) (respawnTimer r)
     (respawningEntity r) (stats r) (lifeStartTime r) (gameStartTime r) (lifeDurations r)
     (playerShotsFired r) v (botShotsFired r) (botShotsHit r) (lastTime r) (loopScheduled r).
Definition set_botShotsFired (v : Z) (r : t) : t :=
  mk (player r) (bot r) (playerWeapon r) (botWeapon r) (state r) (matchStartTime r)
     (matchTimeRemaining r) (playerKills r) (botKills r) (respawnTimer r)
     (respawningEntity r) (stats r) (lifeStartTime r) (gameStartTime r) (lifeDurations r)
     (playerShotsFired r) (playerShotsHit r) v (botShotsHit r) (lastTime r)
     (loopScheduled r).
Definition set_botShotsHit (v : Z) (r : t) : t :=
  mk (player r) (bot r) (playerWeapon r) (botWeapon r) (state r) (matchStartTime r)
     (matchTimeRemaining r) (playerKills r) (botKills r) (respawnTimer r)
     (respawningEntity r) (stats r) (lifeStartTime r) (gameStartTime r) (lifeDurations r)
     (playerShotsFired r) (playerShotsHit r) (botShotsFired r) v (lastTime r)
     (loopScheduled r).
Definition set_lastTime (v : Q) (r : t) : t :=
  mk (player r) (bot r) (playerWeapon r) (botWeapon r) (state r) (matchStartTime r)
     (matchTimeRemaining r) (playerKills r) (botKills r) (respawnTimer r)
     (respawningEntity r) (stats r) (lifeStartTime r) (gameStartTime r) (lifeDurations r)
     (playerShotsFired r) (playerShotsHit r) (botShotsFired r) (botShotsHit r) v
     (loopScheduled r).
Definition set_loopScheduled (v : bool) (r : t) : t :=
  mk (player r) (bot r) (playerWeapon r) (botWeapon r) (state r) (matchStartTime r)
     (matchTimeRemaining r) (playerKills r) (botKills r) (respawnTimer r)
     (respawningEntity r) (stats r) (lifeStartTime r) (gameStartTime r) (lifeDurations r)
     (playerShotsFired r) (playerShotsHit r) (botShotsFired r) (botShotsHit r) (lastTime r)
     v.

(** What the manager tells its three callback lists, and the calls it makes on
    its collaborators (recorded so that a property can say a call was, or was
    not, made). *)
Inductive Event : Type :=
| StateChange (s : GameState)        (* notifyStateChange *)
| StatsUpdate (s : GameStats.t)      (* notifyStatsUpdate *)
| HitScored                          (* notifyHit *)
| PlayerUpdateCall                   (* this.player.update(deltaTime) *)
| BotUpdateCall                      (* this.bot.update(deltaTime, ...) *)
| PlayerFireCall                     (* this.playerWeapon.fire(...) *)
| BotFireCall                        (* this.botWeapon.fire(...) *)
| ReleasePointerLock                 (* this.input.releasePointerLock() *)
| UnpauseCall.                       (* this.unpause(), from the loop *)

(** Everything one run of the animation-frame callback reads from outside. *)
Record Frame : Type := mkFrame {
  currentTime : Q;                        (* the callback's argument *)
  now : Z;                                (* const now = Date.now() *)
  input : InputManager.t;
  groundNow : Z;                          (* Date.now() in Player.update *)
  groundHit : option PickingInfo.t;       (* the ground ray cast of Player.update *)
  botEnv : Bot.Env;                       (* clocks and draws of Bot.update *)
  playerCanFireNow : Z;                   (* Date.now() of playerWeapon.canFire() *)
  playerFireNow : Z;                      (* Date.now() of canFire() inside fire *)
  playerStampNow : Z;                     (* Date.now() stored by fire *)
  playerPick : option PickingInfo.t;      (* the ray cast of playerWeapon.fire *)
  botCanFireNow : Z;
  botFireNow : Z;
  botStampNow : Z;
  botPick : option PickingInfo.t;
  deathNow : Z;                           (* Date.now() in handlePlayerDeath *)
  respawnNow : Z                          (* Date.now() after player.respawn *)
}.

(** A method body: the manager after it, and what was emitted on the way. *)
Definition Action : Type := t -> t * list Event.

Definition skip : Action := fun gm => (gm, []).
(** an assignment to fields of [this] *)
Definition modify (f : t -> t) : Action := fun gm => (f gm, []).
(** a notification, or a call on a collaborator *)
Definition emit (e : t -> Event) : Action := fun gm => (gm, [e gm]).
(** [a; b] *)
Definition seq (a b : Action) : Action :=
  fun gm => let (gm1, e1) := a gm in let (gm2, e2) := b gm1 in (gm2, e1 ++ e2).
(** [const x = r; k] *)
Definition bind {A : Type} (r : t -> A) (k : A -> Action) : Action :=
  fun gm => k (r gm) gm.
(** [if (c) a else b] *)
Definition cond (c : t -> bool) (a b : Action) : Action :=
  fun gm => if c gm then a gm else b gm.
(** [if (c) a] *)
Definition when (c : t -> bool) (a : Action) : Action := cond c a skip.

Declare Scope action_scope.
Delimit Scope action_scope with action.
Bind Scope action_scope with Action.
Notation "a ;; b" := (seq a b) (at level 61, right associativity) : action_scope.
Local Open Scope action_scope.

Definition notifyStateChange : Action := emit (fun gm => StateChange (state gm)).
Definition notifyStatsUpdate : Action := emit (fun gm => StatsUpdate (stats gm)).
Definition notifyHit : Action := emit (fun _ => HitScored).

(** [new GameManager(canvas)]: the instance once the constructor returns.
    [t1] and [t2] are its two [Date.now()] readings, [t0] the
    [performance.now()] of [gameLoop]; the four naturals are the identities of
    the collider meshes. *)
Definition new (t1 t2 : Z) (t0 : Q) (playerHead playerBody botMesh botHead : nat) : t :=
  set_lifeStartTime t2 (set_matchStartTime t1 (mk
     (Player.new (Vector3.set_y 1.8 GameScene.playerSpawn) playerHead playerBody)
     (Bot.new GameScene.botSpawn botMesh botHead)
     Weapon.new Weapon.new
     waiting 0%Z GAME_CONSTANTS.MATCH_TIME_LIMIT 0 0 0 None GameStats.zero
     0%Z 0%Z [] 0 0 0 0 t0 true)).

(** [startGame()].  [locked] tells whether [requestPointerLock()] resolved; the
    code after the [await] runs before any other method of the manager. *)
Definition startGame (locked : bool) (t1 t2 t3 : Z) : Action :=
  bind state (fun s =>
    match s with
    | waiting =>
      if locked then
        modify (set_state playing) ;;
        modify (set_matchStartTime t1) ;;
        modify (set_lifeStartTime t2) ;;
        modify (set_gameStartTime t3) ;;
        notifyStateChange
      else skip
    | _ => skip
    end).

Definition startRespawn (entity : Entity) : Action :=
  modify (set_state respawning) ;;
  modify (set_respawningEntity (Some entity)) ;;
  modify (set_respawnTimer GAME_CONSTANTS.RESPAWN_DELAY) ;;
  notifyStateChange.

Definition handlePlayerDeath (now : Z) : Action :=
  modify (fun gm =>
    let lifeDuration := inject_Z (now - lifeStartTime gm) / 1000 in
    set_lifeDurations (lifeDurations gm ++ [lifeDuration]) gm) ;;
  modify (fun gm => set_botKills (botKills gm + 1)%Z gm) ;;
  modify (fun gm => set_stats (GameStats.set_botKills (botKills gm) (stats gm)) gm) ;;
  startRespawn thePlayer.

Definition handleBotDeath : Action :=
  modify (fun gm => set_playerKills (playerKills gm + 1)%Z gm) ;;
  modify (fun gm => set_stats (GameStats.set_playerKills (playerKills gm) (stats gm)) gm) ;;
  startRespawn theBot.

(** [hit / fired * 100], or 0 when nothing was fired *)
Definition accuracy (hit fired : Z) : Q :=
  if (0 <? fired)%Z then inject_Z hit / inject_Z fired * 100 else 0.

Definition updateStats : Action :=
  modify (fun gm =>
    set_stats (GameStats.set_playerAccuracy
      (accuracy (playerShotsHit gm) (playerShotsFired gm)) (stats gm)) gm) ;;
  modify (fun gm =>
    set_stats (GameStats.set_botAccuracy
      (accuracy (botShotsHit gm) (botShotsFired gm)) (stats gm)) gm) ;;
  when (fun gm => (0 <? List.length (lifeDurations gm))%nat)
    (modify (fun gm =>
      let sum := fold_left Qplus (lifeDurations gm) 0 in
      set_stats (GameStats.set_averageLifeDuration
        (sum / inject_Z (Z.of_nat (List.length (lifeDurations gm)))) (stats gm)) gm)) ;;
  notifyStatsUpdate.

Definition endMatch : Action :=
  modify (set_state matchEnded) ;;
  modify (fun gm => set_player (Player.setCanControl false (player gm)) gm) ;;
  updateStats ;;
  notifyStateChange.

Definition pause : Action :=
  modify (set_state paused) ;;
  modify (fun gm => set_player (Player.setCanControl false (player gm)) gm) ;;
  emit (fun _ => ReleasePointerLock) ;;
  notifyStateChange.

(** [unpause()], with [locked] as in [startGame]. *)
Definition unpause (locked : bool) : Action :=
  bind state (fun s =>
    match s with
    | paused =>
      if locked then
        modify (set_state playing) ;;
        modify (fun gm => set_player (Player.setCanControl true (player gm)) gm) ;;
        notifyStateChange
      else skip
    | _ => skip
    end).

(** [this.player.respawn(spawn)] and [this.bot.respawn(spawn)]: the entity, and
    the weapon it shares with the manager. *)
Definition respawnPlayer : Action :=
  modify (fun gm => set_player (Player.respawn GameScene.playerSpawn (player gm)) gm) ;;
  modify (fun gm => set_playerWeapon (Weapon.reset (playerWeapon gm)) gm).

Definition respawnBot : Action :=
  modify (fun gm => set_bot (Bot.respawn GameScene.botSpawn (bot gm)) gm) ;;
  modify (fun gm => set_botWeapon (Weapon.reset (botWeapon gm)) gm).

(** [restart()], with its two [Date.now()] readings. *)
Definition restart (t1 t2 : Z) : Action :=
  modify (set_state waiting) ;;
  modify (set_matchStartTime t1) ;;
  modify (set_matchTimeRemaining GAME_CONSTANTS.MATCH_TIME_LIMIT) ;;
  modify (set_playerKills 0) ;;
  modify (set_botKills 0) ;;
  modify (set_respawnTimer 0) ;;
  modify (set_respawningEntity None) ;;
  modify (set_stats GameStats.zero) ;;
  modify (set_lifeStartTime t2) ;;
  modify (set_lifeDurations []) ;;
  modify (set_playerShotsFired 0) ;;
  modify (set_playerShotsHit 0) ;;
  modify (set_botShotsFired 0) ;;
  modify (set_botShotsHit 0) ;;
  respawnPlayer ;;
  respawnBot ;;
  notifyStateChange ;;
  notifyStatsUpdate.

(** [this.bot.takeDamage(amount, isHeadshot)]: the bot's health, then its death
    callbacks in registration order (the bot's own does nothing). *)
Definition botTakeDamage (amount : Q) (isHeadshot : bool) : Action :=
  bind (fun gm => Health.takeDamage amount isHeadshot (Bot.health (bot gm))) (fun r =>
    modify (fun gm => set_bot (Bot.set_health (fst r) (bot gm)) gm) ;;
    if existsb Health.isDeath (snd r) then handleBotDeath else skip).

(** [this.player.takeDamage(amount, isHeadshot)]: the player's health, then the
    death callbacks of [Player] and of the manager. *)
Definition playerTakeDamage (amount : Q) (isHeadshot : bool) (deathNow : Z) : Action :=
  bind (fun gm => Health.takeDamage amount isHeadshot (Player.health (player gm))) (fun r =>
    modify (fun gm => set_player (Player.set_health (fst r) (player gm)) gm) ;;
    if existsb Health.isDeath (snd r)
    then modify (fun gm => set_player (Player.onDeath (player gm)) gm) ;;
         handlePlayerDeath deathNow
    else skip).

Section Loop.
Context {host : Host}.

(** The callback the loop passes to [playerWeapon.fire]. *)
Definition playerOnHit (isHeadshot : bool) : Action :=
  when (fun _ => isHeadshot)
    (modify (fun gm =>
      set_stats (GameStats.set_headshots (GameStats.headshots (stats gm) + 1)%Z (stats gm)) gm)) ;;
  modify (fun gm => set_playerShotsHit (playerShotsHit gm + 1)%Z gm) ;;
  modify (fun gm =>
    set_stats (GameStats.set_shotsHit (GameStats.shotsHit (stats gm) + 1)%Z (stats gm)) gm) ;;
  notifyHit.

(** The callback the loop passes to [botWeapon.fire]. *)
Definition botOnHit : Action :=
  modify (fun gm => set_botShotsHit (botShotsHit gm + 1)%Z gm).

(** [void this.playerWeapon.fire(this.player.getPosition(), forward, this.bot, onHit)];
    [fire] calls [onHit(isHeadshot)] after [damageable.takeDamage]. *)
Definition playerFireWith (onHit : bool -> Action) (f : Frame) : Action :=
  emit (fun _ => PlayerFireCall) ;;
  bind (fun gm =>
          Weapon.fire (playerFireNow f) (playerStampNow f) (Player.getPosition (player gm))
                      (playerPick f) (Some (Bot.asDamageable (bot gm))) (playerWeapon gm))
       (fun r =>
          modify (set_playerWeapon (fst r)) ;;
          match snd r with
          | Weapon.Hit damage isHeadshot =>
            botTakeDamage damage isHeadshot ;; onHit isHeadshot
          | _ => skip
          end).

(** The call as the loop makes it, with its own callback. *)
Definition playerFire (f : Frame) : Action := playerFireWith playerOnHit f.

(** [void this.botWeapon.fire(this.bot.getPosition(), direction, this.player, onHit)] *)
Definition botFireWith (onHit : bool -> Action) (f : Frame) : Action :=
  emit (fun _ => BotFireCall) ;;
  bind (fun gm =>
          Weapon.fire (botFireNow f) (botStampNow f) (Bot.getPosition (bot gm))
                      (botPick f) (Some (Player.asDamageable (player gm))) (botWeapon gm))
       (fun r =>
          modify (set_botWeapon (fst r)) ;;
          match snd r with
          | Weapon.Hit damage isHeadshot =>
            playerTakeDamage damage isHeadshot (deathNow f) ;; onHit isHeadshot
          | _ => skip
          end).

(** The call as the loop makes it; its callback takes no argument. *)
Definition botFire (f : Frame) : Action := botFireWith (fun _ => botOnHit) f.

(** Handle player shooting; [onHit] is the callback handed to [fire]. *)
Definition playerShootingWith (onHit : bool -> Action) (f : Frame) : Action :=
  when (fun gm => InputManager.isMouseButtonPressed (input f) 0%Z
                  && Weapon.canFire (playerCanFireNow f) (playerWeapon gm))
    (modify (fun gm => set_playerShotsFired (playerShotsFired gm + 1)%Z gm) ;;
     modify (fun gm =>
       set_stats (GameStats.set_shotsFired (GameStats.shotsFired (stats gm) + 1)%Z (stats gm)) gm) ;;
     playerFireWith onHit f).

Definition playerShooting (f : Frame) : Action := playerShootingWith playerOnHit f.

(** The outer guard of the bot's shot. *)
Definition botMayShoot (f : Frame) (gm : t) : bool :=
  let timeSinceStart := inject_Z (now f - gameStartTime gm) / 1000 in
  let gracePeriod := 2 in
  Weapon.canFire (botCanFireNow f) (botWeapon gm)
  && negb (Health.isDead (Bot.health (bot gm)))
  && negb (Health.isDead (Player.health (player gm)))
  && Qle_bool gracePeriod timeSinceStart.

(** The inner guard of the bot's shot. *)
Definition botInRange (gm : t) : bool :=
  let distance :=
    Vector3_length (Vector3.subtract (Bot.getPosition (bot gm)) (Player.getPosition (player gm))) in
  Qle_bool distance GAME_CONSTANTS.BOT_CHASE_DISTANCE.

(** Handle bot shooting; [onHit] is the callback handed to [fire]. *)
Definition botShootingWith (onHit : bool -> Action) (f : Frame) : Action :=
  when (botMayShoot f)
    (when botInRange
      (modify (fun gm => set_botShotsFired (botShotsFired gm + 1)%Z gm) ;;
       botFireWith onHit f)).

Definition botShooting (f : Frame) : Action := botShootingWith (fun _ => botOnHit) f.

(** Update entities *)
Definition updateEntities (deltaTime : Q) (f : Frame) : Action :=
  emit (fun _ => PlayerUpdateCall) ;;
  modify (fun gm =>
    set_player (Player.update deltaTime (input f) (groundNow f) (groundHit f) (player gm)) gm) ;;
  emit (fun _ => BotUpdateCall) ;;
  modify (fun gm =>
    set_bot (Bot.update deltaTime (Player.getPosition (player gm)) (botEnv f) (bot gm)) gm).

(** [return] leaves the callback before its [requestAnimationFrame(loop)]. *)
Definition returnFromLoop : Action := modify (set_loopScheduled false).

(** Update match timer *)
Definition updateMatchTimer (f : Frame) : Action :=
  modify (fun gm =>
    let elapsed := inject_Z (now f - matchStartTime gm) / 1000 in
    set_matchTimeRemaining (Math_max 0 (GAME_CONSTANTS.MATCH_TIME_LIMIT - elapsed)) gm).

(** The branch [if (this.state === 'playing')]. *)
Definition playingFrame (deltaTime : Q) (f : Frame) : Action :=
  updateMatchTimer f ;;
  (* Check win conditions *)
  cond (fun gm => (GAME_CONSTANTS.WIN_CONDITION_KILLS <=? playerKills gm)%Z)
    (endMatch ;; returnFromLoop)
    (cond (fun gm => (GAME_CONSTANTS.WIN_CONDITION_KILLS <=? botKills gm)%Z)
       (endMatch ;; returnFromLoop)
       (cond (fun gm => Qle_bool (matchTimeRemaining gm) 0)
          (endMatch ;; returnFromLoop)
          (updateEntities deltaTime f ;;
           playerShooting f ;;
           botShooting f ;;
           updateStats))).

(** The branch [else if (this.state === 'respawning')]. *)
Definition respawningFrame (deltaTime : Q) (f : Frame) : Action :=
  modify (fun gm => set_respawnTimer (respawnTimer gm - deltaTime) gm) ;;
  when (fun gm => Qle_bool (respawnTimer gm) 0)
    (bind respawningEntity (fun entity =>
       match entity with
       | Some thePlayer => respawnPlayer ;; modify (set_lifeStartTime (respawnNow f))
       | Some theBot => respawnBot
       | None => skip
       end) ;;
     modify (set_state playing) ;;
     modify (set_respawningEntity None) ;;
     notifyStateChange).

(** Handle pause/unpause with Esc key.  [this.unpause()] only gets as far as
    its [await] here; what it does next is the method [unpause]. *)
Definition handleEscape (f : Frame) : Action :=
  when (fun _ => InputManager.isKeyPressed (input f) "escape")
    (bind state (fun s =>
       match s with
       | playing => pause
       | paused => emit (fun _ => UnpauseCall)
       | _ => skip
       end)).

(** One run of [loop(currentTime)]; nothing runs once the loop has returned
    without scheduling itself again. *)
Definition loop (f : Frame) : Action :=
  cond (fun gm => negb (loopScheduled gm)) skip
    (bind (fun gm => Math_min ((currentTime f - lastTime gm) / 1000) 0.1) (fun deltaTime =>
       modify (set_lastTime (currentTime f)) ;;
       handleEscape f ;;
       bind state (fun s =>
         match s with
         | playing => playingFrame deltaTime f
         | paused => skip
         | respawning => respawningFrame deltaTime f
         | _ => skip
         end))).

(** What can happen to a manager, one operation at a time. *)
Inductive Op : Type :=
| StartGame (locked : bool) (t1 t2 t3 : Z)
| Unpause (locked : bool)
| Restart (t1 t2 : Z)
| AnimationFrame (f : Frame).

Definition step (op : Op) : Action :=
  match op with
  | StartGame locked t1 t2 t3 => startGame locked t1 t2 t3
  | Unpause locked => unpause locked
  | Restart t1 t2 => restart t1 t2
  | AnimationFrame f => loop f
  end.

(** The manager after the operations [ops], with what each of them emitted. *)
Fixpoint run (ops : list Op) (gm : t) : t * list (list Event) :=
  match ops with
  | [] => (gm, [])
  | op :: ops' =>
    let (gm1, e) := step op gm in
    let (gm2, es) := run ops' gm1 in
    (gm2, e :: es)
  end.

End Loop.

(** The edges of the state machine the specification lists. *)
Definition edge (a b : GameState) : bool :=
  match a, b with
  | waiting, playing
  | playing, paused
  | paused, playing
  | playing, respawning
  | respawning, playing
  | playing, matchEnded
  | matchEnded, waiting => true
  | _, _ => false
  end.

(** The win conditions, as the loop tests them once [matchTimeRemaining] is
    refreshed. *)
Definition winCondition (gm : t) : bool :=
  (GAME_CONSTANTS.WIN_CONDITION_KILLS <=? playerKills gm)%Z
  || (GAME_CONSTANTS.WIN_CONDITION_KILLS <=? botKills gm)%Z
  || Qle_bool (matchTimeRemaining gm) 0.

End GameManager.

(** ** Predicates and sample values used to state the properties *)

(** The secondary head-distance check of [fire] as the specification words
    it, for a finite hit distance [h]: the target has a head position, [h] is
    within 0.3 of the distance to it and does not exceed that distance by more
    than 0.2. *)
Definition headReclassifies {host : Host} (origin : Vector3.t) (h : Q)
    (d : Weapon.IDamageable) : Prop :=
  exists headPos, Weapon.getHeadPosition d = Some headPos
    /\ Qabs (h - Distance origin headPos) < 0.3
    /\ h <= Distance origin headPos + 0.2.

(** The same check as the code computes it. *)
Definition headCheck {host : Host} (origin : Vector3.t) (h : Q) (d : Weapon.IDamageable) : bool :=
  match Weapon.getHeadPosition d with
  | Some headPos =>
    absDiffLt (Finite h) (Distance origin headPos) 0.3
    && numLe (Finite h) (Distance origin headPos + 0.2)
  | None => false
  end.

(** The picked mesh is not the head collider of the target. *)
Definition notHeadOf (m : Mesh.t) (d : Weapon.IDamageable) : Prop :=
  forall headCollider,
    Weapon.getHeadCollider d = Some (Some headCollider) -> Mesh.same m headCollider = false.

(** A host to compute with: square roots rounded down to an integer, the
    trigonometry of yaw 0, and an arena without obstacles. *)
Definition sampleHost : Host := {|
  Math_sqrt := fun q => inject_Z (Z.sqrt (Qfloor q));
  Math_cos := fun _ => 1;
  Math_sin := fun _ => 0;
  Math_atan2 := fun _ _ => 0;
  Math_PI := 3.1416;
  moveWithCollisions := Vector3.add
|}.

(** The calls used to instantiate the properties of [Health]: a headshot, a
    killing blow, a hit on the dead instance, a reset and a body hit. *)
Definition sampleCalls : list Health.Call :=
  [Health.TakeDamage 30 true; Health.TakeDamage 80 false; Health.TakeDamage 20 false;
   Health.Reset; Health.TakeDamage 20 false].

(** A bot standing ten units in front of the origin, and two ray casts that
    end on it: one on its body mesh, one on its head collider. *)
Definition sampleOrigin : Vector3.t := Vector3.mk 0 0 0.
Definition sampleBot : Bot.t := Bot.new (Vector3.mk 10 0 0) 3 4.
Definition sampleTarget : Weapon.IDamageable := Bot.asDamageable sampleBot.
Definition sampleBodyPick : PickingInfo.t :=
  PickingInfo.mk true 10 (Some (Bot.mesh sampleBot)).
Definition sampleHeadPick : PickingInfo.t :=
  PickingInfo.mk true 10 (Some (Bot.headCollider sampleBot)).

(** A second bot, two units away, whose head is farther from the origin than
    its body is, and a ray cast that ends on its body mesh. *)
Definition nearBot : Bot.t := Bot.new (Vector3.mk 2 0 0) 3 4.
Definition nearTarget : Weapon.IDamageable := Bot.asDamageable nearBot.
Definition nearBodyPick : PickingInfo.t :=
  PickingInfo.mk true 2 (Some (Bot.mesh nearBot)).

(** ** Assertions on method bodies

    [triple P a Q E]: from a manager that satisfies [P], the action [a] ends in
    one that satisfies [Q], and everything it emits satisfies [E]. *)

Module GM := GameManager.

Definition triple (P : GM.t -> Prop) (a : GM.Action) (Q : GM.t -> Prop)
    (E : GM.Event -> Prop) : Prop :=
  forall gm, P gm -> Q (fst (a gm)) /\ Forall E (snd (a gm)).

(** [I] is an invariant of [a]. *)
Definition preserves (I : GM.t -> Prop) (E : GM.Event -> Prop) (a : GM.Action) : Prop :=
  triple I a I E.

Definition anyEvent (e : GM.Event) : Prop := True.

(** The state is the one the action started in, or one of [reached]. *)
Definition stateIn (s0 : GM.GameState) (reached : list GM.GameState) (gm : GM.t) : Prop :=
  GM.state gm = s0 \/ In (GM.state gm) reached.

(** An operation other than [restart]. *)
Definition notRestart (op : GM.Op) : Prop :=
  match op with GM.Restart _ _ => False | _ => True end.

(** An operation other than [startGame]. *)
Definition notStartGame (op : GM.Op) : Prop :=
  match op with GM.StartGame _ _ _ _ => False | _ => True end.

(** An event that is not a call of [update] or [fire] on a combatant. *)
Definition notCombat (e : GM.Event) : Prop :=
  match e with
  | GM.PlayerUpdateCall | GM.BotUpdateCall | GM.PlayerFireCall | GM.BotFireCall
  | GM.HitScored => False
  | _ => True
  end.

Definition notBotFire (e : GM.Event) : Prop := e <> GM.BotFireCall.

(** A win condition holds for the frame [f]: either side has 10 kills, or at
    the frame's clock the 300 seconds of the match are used up. *)
Definition winConditionHolds (f : GM.Frame) (gm : GM.t) : Prop :=
  (10 <= GM.playerKills gm)%Z \/ (10 <= GM.botKills gm)%Z
  \/ GAME_CONSTANTS.MATCH_TIME_LIMIT - inject_Z (GM.now f - GM.matchStartTime gm) / 1000 <= 0.

(** The counters of one side: hits are counted, and at least [pending] shots
    are fired that have not been counted as hits. *)
Definition countersOk (pending hit fired : Z) : Prop :=
  (0 <= hit /\ hit + pending <= fired)%Z.

Definition percentage (q : Q) : Prop := 0 <= q /\ q <= 100.

(** The statistics invariant; [dp] and [db] are the shots of the player and of
    the bot that are in flight. *)
Definition statsOk (dp db : Z) (gm : GM.t) : Prop :=
  countersOk dp (GM.playerShotsHit gm) (GM.playerShotsFired gm)
  /\ countersOk db (GM.botShotsHit gm) (GM.botShotsFired gm)
  /\ percentage (GameStats.playerAccuracy (GM.stats gm))
  /\ percentage (GameStats.botAccuracy (GM.stats gm))
  /\ (GM.playerShotsFired gm = 0%Z -> GameStats.playerAccuracy (GM.stats gm) == 0)
  /\ (GM.botShotsFired gm = 0%Z -> GameStats.botAccuracy (GM.stats gm) == 0).

(** A statistics snapshot handed to the callbacks has both accuracies in
    [0, 100]. *)
Definition reportsPercentages (e : GM.Event) : Prop :=
  match e with
  | GM.StatsUpdate s =>
    percentage (GameStats.playerAccuracy s) /\ percentage (GameStats.botAccuracy s)
  | _ => True
  end.

(** The manager where the loop tests the guards of the bot's shot: the frame
    so far has refreshed the timer, updated both entities and handled the
    player's shot. *)
Definition atBotShooting {host : Host} (f : GM.Frame) (gm : GM.t) : GM.t :=
  let deltaTime := Math_min ((GM.currentTime f - GM.lastTime gm) / 1000) 0.1 in
  fst (GM.seq (GM.updateMatchTimer f)
         (GM.seq (GM.updateEntities deltaTime f) (GM.playerShooting f))
         (GM.set_lastTime (GM.currentTime f) gm)).

(** ** Sample managers and frames *)

Definition sampleManager : GM.t := GM.new 1000 1000 0 1 2 3 4.

(** A match started at 5000 ms. *)
Definition startedManager : GM.t :=
  fst (GM.startGame true 5000 5000 5000 sampleManager).

(** The same match once the bot has its tenth kill. *)
Definition wonManager : GM.t := GM.set_botKills 10 startedManager.

Definition noKeys : InputManager.t :=
  InputManager.mk (fun _ => false) (fun _ => false) true (0, 0).

Definition escapeKey : InputManager.t :=
  InputManager.mk (fun key => String.eqb key "escape") (fun _ => false) true (0, 0).

Definition sampleEnv (now : Z) : Bot.Env := Bot.mkEnv now now 0.7 0.5.

(** A frame at [now] ms in which no ray cast hits anything. *)
Definition frameAt (now : Z) (input : InputManager.t) : GM.Frame :=
  GM.mkFrame (inject_Z now) now input now None (sampleEnv now)
             now now now None now now now None now now.

(** The combatants, weapons, kill counts and shot counters of [gm'] are those
    of [gm], but that the player of [gm'] cannot be controlled. *)
Definition frozen (gm gm' : GM.t) : Prop :=
  GM.bot gm' = GM.bot gm
  /\ GM.player gm' = Player.setCanControl false (GM.player gm)
  /\ GM.playerWeapon gm' = GM.playerWeapon gm
  /\ GM.botWeapon gm' = GM.botWeapon gm
  /\ GM.playerKills gm' = GM.playerKills gm
  /\ GM.botKills gm' = GM.botKills gm
  /\ GM.playerShotsFired gm' = GM.playerShotsFired gm
  /\ GM.playerShotsHit gm' = GM.playerShotsHit gm
  /\ GM.botShotsFired gm' = GM.botShotsFired gm
  /\ GM.botShotsHit gm' = GM.botShotsHit gm.

(** What a frame with clock below [start + 2000] ms, or any other operation,
    must not have emitted: a call of [botWeapon.fire]. *)
Definition holdsFire (start : Z) (op : GM.Op) (events : list GM.Event) : Prop :=
  match op with
  | GM.AnimationFrame f => (GM.now f < start + 2000)%Z -> ~ In GM.BotFireCall events
  | _ => ~ In GM.BotFireCall events
  end.

Definition startedAt (start : Z) (gm : GM.t) : Prop := GM.gameStartTime gm = start.

(** A manager in a started match whose bot stands 13 units from the player,
    and the operations of a short session. *)
Definition closeManager : GM.t :=
  GM.set_bot (Bot.new (Vector3.mk 0 1 0) 3 4) startedManager.

Definition sampleOps : list GM.Op :=
  [GM.AnimationFrame (frameAt 6000 noKeys);
   GM.AnimationFrame (frameAt 6016 escapeKey);
   GM.Unpause true;
   GM.AnimationFrame (frameAt 6500 noKeys);
   GM.Restart 6600 6600;
   GM.AnimationFrame (frameAt 6616 noKeys)].

(** The shot counters of the player, and of the bot. *)
Definition playerCounters (fired hit : Z) (gm : GM.t) : Prop :=
  GM.playerShotsFired gm = fired /\ GM.playerShotsHit gm = hit.

Definition botCounters (fired hit : Z) (gm : GM.t) : Prop :=
  GM.botShotsFired gm = fired /\ GM.botShotsHit gm = hit.

(** One shot at most was counted between [gm] and [gm'], and one hit at most
    for it. *)
Definition oneShotAtMost (counters : Z -> Z -> GM.t -> Prop) (fired hit : Z) (gm' : GM.t) : Prop :=
  counters fired hit gm'
  \/ counters (fired + 1)%Z hit gm'
  \/ counters (fired + 1)%Z (hit + 1)%Z gm'.

(** ** input.ts: class [InputManager], its state and its listeners

    [InputManager.t] above is what one frame reads; this is the object behind
    it.  A [Set] is a list without repetition, in insertion order.  The
    listeners take what they read from the DOM event as arguments;
    [toLowerCase] is the host's [String.prototype.toLowerCase]. *)

Module Input.

Record t : Type := mk {
  keys : list string;
  mouseButtons : list Z;
  mouseDeltaX : Q;
  mouseDeltaY : Q;
  pointerLocked : bool
}.

Definition new : t := mk [] [] 0 0 false.

(** [set.has(x)], [set.add(x)] and [set.delete(x)] *)
Definition has {A : Type} (eqb : A -> A -> bool) (x : A) (set : list A) : bool :=
  existsb (eqb x) set.
Definition add {A : Type} (eqb : A -> A -> bool) (x : A) (set : list A) : list A :=
  if has eqb x set then set else set ++ [x].
Definition delete {A : Type} (eqb : A -> A -> bool) (x : A) (set : list A) : list A :=
  filter (fun y => negb (eqb x y)) set.

Definition set_keys (v : list string) (s : t) : t :=
  mk v (mouseButtons s) (mouseDeltaX s) (mouseDeltaY s) (pointerLocked s).
Definition set_mouseButtons (v : list Z) (s : t) : t :=
  mk (keys s) v (mouseDeltaX s) (mouseDeltaY s) (pointerLocked s).
Definition set_mouseDelta (dx dy : Q) (s : t) : t :=
  mk (keys s) (mouseButtons s) dx dy (pointerLocked s).
Definition set_pointerLocked (v : bool) (s : t) : t :=
  mk (keys s) (mouseButtons s) (mouseDeltaX s) (mouseDeltaY s) v.

Section Listeners.
Variable toLowerCase : string -> string.

(** [window.addEventListener('keydown', ...)] and ['keyup'] *)
Definition keydown (key : string) (s : t) : t :=
  set_keys (add String.eqb (toLowerCase key) (keys s)) s.
Definition keyup (key : string) (s : t) : t :=
  set_keys (delete String.eqb (toLowerCase key) (keys s)) s.

(** ['mousedown'] and ['mouseup'] *)
Definition mousedown (button : Z) (s : t) : t :=
  set_mouseButtons (add Z.eqb button (mouseButtons s)) s.
Definition mouseup (button : Z) (s : t) : t :=
  set_mouseButtons (delete Z.eqb button (mouseButtons s)) s.

(** ['pointerlockchange']; [hasLockElement] is
    [document.pointerLockElement !== null]. *)
Definition pointerlockchange (hasLockElement : bool) (s : t) : t :=
  let wasLocked := pointerLocked s in
  let s := set_pointerLocked hasLockElement s in
  (* Reset mouse delta when pointer lock changes *)
  if negb wasLocked && pointerLocked s then set_mouseDelta 0 0 s else s.

(** ['mousemove'], with [e.movementX] and [e.movementY] *)
Definition mousemove (movementX movementY : Q) (s : t) : t :=
  if pointerLocked s then
    let deltaX := movementX in
    let deltaY := movementY in
    (* Only accumulate if there's actual movement *)
    if negb (Qeq_bool deltaX 0) || negb (Qeq_bool deltaY 0)
    then set_mouseDelta (mouseDeltaX s + deltaX) (mouseDeltaY s + deltaY) s
    else s
  else
    (* Reset deltas when pointer is not locked *)
    set_mouseDelta 0 0 s.

Definition isKeyPressed (key : string) (s : t) : bool :=
  has String.eqb (toLowerCase key) (keys s).

Definition isMouseButtonPressed (button : Z) (s : t) : bool :=
  has Z.eqb button (mouseButtons s).

(** [getMouseDelta()]: return and reset mouse delta *)
Definition getMouseDelta (s : t) : (Q * Q) * t :=
  ((mouseDeltaX s, mouseDeltaY s), set_mouseDelta 0 0 s).

Definition isPointerLocked (s : t) : bool := pointerLocked s.

Definition dispose (s : t) : t := set_mouseButtons [] (set_keys [] s).

(** A run of [mousemove] events. *)
Definition mousemoves (moves : list (Q * Q)) (s : t) : t :=
  fold_left (fun s m => mousemove (fst m) (snd m) s) moves s.

End Listeners.

End Input.

(** The sum of the movements of a run of [mousemove] events. *)
Definition totalX (moves : list (Q * Q)) : Q := fold_right (fun m acc => fst m + acc) 0 moves.
Definition totalY (moves : list (Q * Q)) : Q := fold_right (fun m acc => snd m + acc) 0 moves.

(** ** gameManager.ts: [getMatchWinner] *)

Inductive Winner : Type := playerWins | botWins | tie.

Definition getMatchWinner (gm : GM.t) : Winner :=
  if (GM.botKills gm <? GM.playerKills gm)%Z then playerWins
  else if (GM.playerKills gm <? GM.botKills gm)%Z then botWins
  else tie.

(** ** The parts of [Player.update], in the order the method runs them *)

Section PlayerParts.
Context {host : Host}.

(** Handle mouse look *)
Definition Player_look (input : InputManager.t) (p : Player.t) : Player.t :=
  if InputManager.isPointerLocked input then
    let mouseDelta := InputManager.getMouseDelta input in
    let sensitivity := 0.002 in
    let p :=
      if negb (Qeq_bool (fst mouseDelta) 0) || negb (Qeq_bool (snd mouseDelta) 0) then
        let p :=
          Player.set_currentRotationY (Player.currentRotationY p + fst mouseDelta * sensitivity) p in
        let p :=
          Player.set_currentRotationX (Player.currentRotationX p + snd mouseDelta * sensitivity) p in
        Player.set_currentRotationX
          (Math_max (- Math_PI / 2) (Math_min (Math_PI / 2) (Player.currentRotationX p))) p
      else p in
    let p := Player.set_camera_rotation_y (Player.currentRotationY p) p in
    Player.set_camera_rotation_x (Player.currentRotationX p) p
  else p.

(** The input vector of the four movement keys. *)
Definition Player_moveVector (input : InputManager.t) : Vector3.t :=
  let moveVector := Vector3.mk 0 0 0 in
  let moveVector :=
    if InputManager.isKeyPressed input "w"
    then Vector3.mk (Vector3.x moveVector) (Vector3.y moveVector) (Vector3.z moveVector + 1)
    else moveVector in
  let moveVector :=
    if InputManager.isKeyPressed input "s"
    then Vector3.mk (Vector3.x moveVector) (Vector3.y moveVector) (Vector3.z moveVector - 1)
    else moveVector in
  let moveVector :=
    if InputManager.isKeyPressed input "a"
    then Vector3.mk (Vector3.x moveVector - 1) (Vector3.y moveVector) (Vector3.z moveVector)
    else moveVector in
  if InputManager.isKeyPressed input "d"
  then Vector3.mk (Vector3.x moveVector + 1) (Vector3.y moveVector) (Vector3.z moveVector)
  else moveVector.

(** Handle movement *)
Definition Player_move (deltaTime : Q) (input : InputManager.t) (p : Player.t) : Player.t :=
  let moveVector := Player_moveVector input in
  if Qlt_bool 0 (Vector3_length moveVector) then
    let moveVector := normalize moveVector in
    let yaw := Player.camera_rotation_y p in
    let cosY := Math_cos yaw in
    let sinY := Math_sin yaw in
    let forward := Vector3.mk sinY 0 cosY in
    let right := Vector3.mk cosY 0 (- sinY) in
    let moveDirection :=
      normalize (Vector3.add (Vector3.scale (Vector3.z moveVector) forward)
                             (Vector3.scale (Vector3.x moveVector) right)) in
    let moveDistance := GAME_CONSTANTS.MOVE_SPEED * deltaTime in
    let moveDelta := Vector3.scale moveDistance moveDirection in
    Player.set_camera_position (Vector3.add (Player.camera_position p) moveDelta) p
  else p.

(** Check if on ground *)
Definition Player_ground (now : Z) (groundHit : option PickingInfo.t) (p : Player.t) : Player.t :=
  if (50 <? now - Player.lastGroundCheck p)%Z then
    let onGround :=
      match groundHit with
      | Some hit => PickingInfo.hit hit && Qlt_bool (PickingInfo.distance hit) 1.2
      | None => false
      end in
    Player.set_lastGroundCheck now (Player.set_isOnGround onGround p)
  else p.

(** Handle jump *)
Definition Player_jump (input : InputManager.t) (p : Player.t) : Player.t :=
  if InputManager.isKeyPressed input " " && Player.isOnGround p
  then Player.set_camera_cameraDirection_y GAME_CONSTANTS.JUMP_FORCE p
  else p.

End PlayerParts.

(** The pitch, stored and on the camera, is within a quarter turn of level. *)
Definition pitchOk {host : Host} (p : Player.t) : Prop :=
  (- Math_PI / 2 <= Player.currentRotationX p /\ Player.currentRotationX p <= Math_PI / 2)
  /\ (- Math_PI / 2 <= Player.camera_rotation_x p /\ Player.camera_rotation_x p <= Math_PI / 2).

(** What can happen to a player between two shots. *)
Inductive PlayerCall : Type :=
| PlayerUpdate (deltaTime : Q) (input : InputManager.t) (now : Z)
               (groundHit : option PickingInfo.t)
| PlayerRespawn (spawnPoint : Vector3.t)
| PlayerDies.

Definition playerCall {host : Host} (c : PlayerCall) (p : Player.t) : Player.t :=
  match c with
  | PlayerUpdate deltaTime input now groundHit => Player.update deltaTime input now groundHit p
  | PlayerRespawn spawnPoint => Player.respawn spawnPoint p
  | PlayerDies => Player.onDeath p
  end.

Definition playerCalls {host : Host} (cs : list PlayerCall) (p : Player.t) : Player.t :=
  fold_left (fun p c => playerCall c p) cs p.

(** An input with the pointer locked, the mouse moved and some keys down. *)
Definition busyInput : InputManager.t :=
  InputManager.mk (fun key => String.eqb key "w" || String.eqb key "d" || String.eqb key " ")%bool
                  (fun _ => false) true (900, -2000).

(** An input with opposite keys down. *)
Definition tornInput : InputManager.t :=
  InputManager.mk (fun key => String.eqb key "w" || String.eqb key "s")%bool
                  (fun _ => false) true (0, 0).

Definition samplePlayer : Player.t := GM.player sampleManager.

(** ** The bot between two shots *)

(** [strafeAmount], as [chasePlayer] and [attackPlayer] compute it. *)
Definition Bot_strafeAmount (env : Bot.Env) (b : Bot.t) : Q :=
  (Bot.randomStrafe env * (GAME_CONSTANTS.BOT_STRAFE_MAX - GAME_CONSTANTS.BOT_STRAFE_MIN)
   + GAME_CONSTANTS.BOT_STRAFE_MIN) * Bot.strafeDirection b.

(** [takeDamage(amount, isHeadshot)] of the bot. *)
Definition Bot_takeDamage (amount : Q) (isHeadshot : bool) (b : Bot.t) : Bot.t :=
  Bot.set_health (fst (Health.takeDamage amount isHeadshot (Bot.health b))) b.

Inductive BotCall : Type :=
| BotUpdate (deltaTime : Q) (playerPosition : Vector3.t) (env : Bot.Env)
| BotRespawn (spawnPoint : Vector3.t)
| BotTakeDamage (amount : Q) (isHeadshot : bool).

Definition botCall {host : Host} (c : BotCall) (b : Bot.t) : Bot.t :=
  match c with
  | BotUpdate deltaTime playerPosition env => Bot.update deltaTime playerPosition env b
  | BotRespawn spawnPoint => Bot.respawn spawnPoint b
  | BotTakeDamage amount isHeadshot => Bot_takeDamage amount isHeadshot b
  end.

Definition botCalls {host : Host} (cs : list BotCall) (b : Bot.t) : Bot.t :=
  fold_left (fun b c => botCall c b) cs b.

Definition strafeOk (b : Bot.t) : Prop :=
  Bot.strafeDirection b = 1 \/ Bot.strafeDirection b = - (1).

(** The clocks and draws of a bot frame in which the strafe direction flips. *)
Definition flipEnv (now : Z) : Bot.Env := Bot.mkEnv now now 0.2 0.5.

(** ** Sessions of the manager *)

(** The match has left [waiting], and its clock was started at [start]. *)
Definition clockFrom (start : Z) (gm : GM.t) : Prop :=
  GM.state gm <> GM.waiting /\ GM.matchStartTime gm = start.

(** The time a match started at [start] ms has left at [now] ms. *)
Definition timeLeftAt (now start : Z) : Q :=
  Math_max 0 (GAME_CONSTANTS.MATCH_TIME_LIMIT - inject_Z (now - start) / 1000).

Definition isFrame (op : GM.Op) : bool :=
  match op with GM.AnimationFrame _ => true | _ => false end.

(** The number of animation frames among [ops]. *)
Definition frames (ops : list GM.Op) : nat := List.length (filter isFrame ops).

(** The operations of [ops] that are not animation frames. *)
Definition calls (ops : list GM.Op) : list GM.Op := filter (fun op => negb (isFrame op)) ops.

Definition unscheduled (gm : GM.t) : Prop := GM.loopScheduled gm = false.

(** The started match just after the bot was killed. *)
Definition botDownManager : GM.t := fst (GM.handleBotDeath startedManager).

(** ** Who is alive in which state *)

Definition isEntity (e : GM.Entity) (o : option GM.Entity) : bool :=
  match o, e with
  | Some GM.thePlayer, GM.thePlayer => true
  | Some GM.theBot, GM.theBot => true
  | _, _ => false
  end.

(** The state of the manager and the lives of the combatants agree: an entity
    is respawning exactly in the state [respawning], it is the one that is
    dead, and the player is in control when it is alive and the match is
    neither paused nor over. *)
Definition lifeOk (gm : GM.t) : Prop :=
  0 < Health.maxHealth (Player.health (GM.player gm))
  /\ 0 < Health.maxHealth (Bot.health (GM.bot gm))
  /\ (GM.state gm = GM.respawning <-> GM.respawningEntity gm <> None)
  /\ Health.isDead (Player.health (GM.player gm))
     = isEntity GM.thePlayer (GM.respawningEntity gm)
  /\ Health.isDead (Bot.health (GM.bot gm)) = isEntity GM.theBot (GM.respawningEntity gm)
  /\ Player.isDead (GM.player gm) = Health.isDead (Player.health (GM.player gm))
  /\ Player.canControl (GM.player gm)
     = match GM.state gm with
       | GM.paused | GM.matchEnded => false
       | _ => negb (Player.isDead (GM.player gm))
       end.

Definition score (a b : Z) (gm : GM.t) : Prop :=
  GM.playerKills gm = a /\ GM.botKills gm = b.

Definition atPlaying (a b : Z) (gm : GM.t) : Prop :=
  lifeOk gm /\ GM.state gm = GM.playing /\ score a b gm.

(** [e] has just been killed: the score is [a] to [b] and the respawn delay
    starts. *)
Definition atDown (e : GM.Entity) (a b : Z) (gm : GM.t) : Prop :=
  lifeOk gm /\ GM.state gm = GM.respawning /\ GM.respawningEntity gm = Some e
  /\ GM.respawnTimer gm = GAME_CONSTANTS.RESPAWN_DELAY /\ score a b gm.

(** What one operation can make of a score of [a] to [b]: nothing, or one kill
    for one side, scored below the win condition and followed by the respawn
    of the victim. *)
Definition oneKillAtMost (a b : Z) (gm : GM.t) : Prop :=
  score a b gm
  \/ ((a < GAME_CONSTANTS.WIN_CONDITION_KILLS)%Z /\ (b < GAME_CONSTANTS.WIN_CONDITION_KILLS)%Z
      /\ (atDown GM.theBot (a + 1) b gm \/ atDown GM.thePlayer a (b + 1) gm)).

(** The kill counts are within the win condition, and not both at it. *)
Definition killsOk (gm : GM.t) : Prop :=
  (0 <= GM.playerKills gm <= GAME_CONSTANTS.WIN_CONDITION_KILLS)%Z
  /\ (0 <= GM.botKills gm <= GAME_CONSTANTS.WIN_CONDITION_KILLS)%Z
  /\ (GM.playerKills gm + GM.botKills gm < 2 * GAME_CONSTANTS.WIN_CONDITION_KILLS)%Z.

(** The left mouse button held down, and a frame in which the player's ray
    ends on the head collider of the bot. *)
Definition firing : InputManager.t :=
  InputManager.mk (fun _ => false) (fun button => (button =? 0)%Z) true (0, 0).

Definition headshotFrame (now : Z) : GM.Frame :=
  GM.mkFrame (inject_Z now) now firing now None (sampleEnv now)
             now now now
             (Some (PickingInfo.mk true 26 (Some (Bot.headCollider (GM.bot startedManager)))))
             now now now None now now.

(** The started match with the bot one headshot from death. *)
Definition woundedManager : GM.t :=
  GM.set_bot (Bot.set_health (Health.mk 30 100) (GM.bot startedManager)) startedManager.

(** ** The statistics and the counters *)

(** [averageLifeDuration] as [updateStats] computes it; 0 while nobody died. *)
Definition averageOf (lifeDurations : list Q) : Q :=
  if (0 <? List.length lifeDurations)%nat
  then fold_left Qplus lifeDurations 0 / inject_Z (Z.of_nat (List.length lifeDurations))
  else 0.

(** The fields of [stats] that are written together with a counter agree with
    that counter. *)
Definition mirrorOk (gm : GM.t) : Prop :=
  GameStats.playerKills (GM.stats gm) = GM.playerKills gm
  /\ GameStats.botKills (GM.stats gm) = GM.botKills gm
  /\ GameStats.shotsFired (GM.stats gm) = GM.playerShotsFired gm
  /\ GameStats.shotsHit (GM.stats gm) = GM.playerShotsHit gm
  /\ (0 <= GameStats.headshots (GM.stats gm) <= GameStats.shotsHit (GM.stats gm))%Z
  /\ Z.of_nat (List.length (GM.lifeDurations gm)) = GM.botKills gm
  /\ (GM.lifeDurations gm = [] -> GameStats.averageLifeDuration (GM.stats gm) = 0).

(** The fields of [stats] that [updateStats] computes are up to date. *)
Definition freshOk (gm : GM.t) : Prop :=
  GameStats.playerAccuracy (GM.stats gm)
  = GM.accuracy (GM.playerShotsHit gm) (GM.playerShotsFired gm)
  /\ GameStats.botAccuracy (GM.stats gm)
     = GM.accuracy (GM.botShotsHit gm) (GM.botShotsFired gm)
  /\ GameStats.averageLifeDuration (GM.stats gm) = averageOf (GM.lifeDurations gm).

Definition statsAgree (gm : GM.t) : Prop := mirrorOk gm /\ freshOk gm.

(** ** What the state-change callbacks were told *)

(** The state last announced by [events], or [s] when they announce none. *)
Definition announced (s : GM.GameState) (events : list GM.Event) : GM.GameState :=
  fold_left (fun s e => match e with GM.StateChange s' => s' | _ => s end) events s.

(** [a] neither changes the state nor announces one. *)
Definition quiet (a : GM.Action) : Prop :=
  forall gm, GM.state (fst (a gm)) = GM.state gm
             /\ forall s, announced s (snd (a gm)) = s.

(** [a] ends with the state it leaves announced. *)
Definition resync (a : GM.Action) : Prop :=
  forall gm s, announced s (snd (a gm)) = GM.state (fst (a gm)).

(** If the state was announced before [a], the state is announced after it. *)
Definition insync (a : GM.Action) : Prop :=
  forall gm, announced (GM.state gm) (snd (a gm)) = GM.state (fst (a gm)).

Definition notStateChange (e : GM.Event) : Prop :=
  match e with GM.StateChange _ => False | _ => True end.

(** ** Frames that come slowly *)

(** Each frame of [fs] comes at least 100 ms after the one before it, the
    first at least 100 ms after [t]: the step of every one is the cap. *)
Fixpoint slowFrames (t : Q) (fs : list GM.Frame) : Prop :=
  match fs with
  | [] => True
  | f :: fs' => 100 <= GM.currentTime f - t /\ slowFrames (GM.currentTime f) fs'
  end.

(** Nineteen frames 100 ms apart, from 6100 ms on. *)
Definition nineteenFrames : list GM.Frame :=
  map (fun n => frameAt (6000 + 100 * Z.of_nat n) noKeys) (seq 1 19).

(** The match just after the headshot that kills the wounded bot. *)
Definition killedManager : GM.t :=
  fst (GM.loop (host := sampleHost) (headshotFrame 6000) woundedManager).

(** ** PauseScreen.tsx and EndScreen.tsx: when the screens show

    Each screen keeps a flag [visible], false at first, that its state-change
    callback sets from the state it is handed. *)

Definition isPaused (s : GM.GameState) : bool :=
  match s with GM.paused => true | _ => false end.

Definition isMatchEnded (s : GM.GameState) : bool :=
  match s with GM.matchEnded => true | _ => false end.

(** [visible] after the callbacks [handleStateChange] of the screen ran on
    [events]; [shows] is the screen's test of the state. *)
Definition visibleAfter (shows : GM.GameState -> bool) (visible : bool)
    (events : list GM.Event) : bool :=
  fold_left (fun visible e => match e with GM.StateChange s => shows s | _ => visible end)
            events visible.

Definition PauseScreen_visible (events : list GM.Event) : bool :=
  visibleAfter isPaused false events.

Definition EndScreen_visible (events : list GM.Event) : bool :=
  visibleAfter isMatchEnded false events.

(** ** HUD.tsx: [formatTime]

    The timer of the HUD shows [Math.ceil] of the time remaining, a whole
    number of seconds. *)

Module HUD.

(** [String(n)] for an integer [n] *)
Definition toString (n : Z) : string :=
  DecimalString.NilZero.string_of_int (Z.to_int n).

(** [s.padStart(targetLength, pad)] for a one-character [pad] *)
Definition padStart (targetLength : nat) (pad : Ascii.ascii) (s : string) : string :=
  String.append
    (string_of_list_ascii (repeat pad (targetLength - String.length s)))
    s.

Definition formatTime (seconds : Z) : string :=
  let mins := (seconds / 60)%Z in            (* Math.floor(seconds / 60) *)
  let secs := Z.rem seconds 60 in            (* seconds % 60 *)
  String.append (toString mins) (String.append ":" (padStart 2 "0"%char (toString secs))).

End HUD.

(** The seconds [0 .. 59]. *)
Definition sixty : list Z := map Z.of_nat (seq 0 60).

(** ** Whole numbers

    [safeWhole]: a whole number small enough that the sums and differences
    [takeDamage] makes of three of them stay within 2^53.  [heldExactly]: a
    whole number of magnitude at most 2^53, which a double holds exactly; where
    every result is one, the arithmetic of the source is the exact arithmetic
    of the model. *)
Definition safeWhole (q : Q) : Prop :=
  exists n : Z, q = inject_Z n /\ (Z.abs n <= 2 ^ 51)%Z.

Definition heldExactly (q : Q) : Prop :=
  exists n : Z, q == inject_Z n /\ (Z.abs n <= 2 ^ 53)%Z.

(** ** What a shot does to its target *)

(** The [Health] of the target after a call of [fire] that ended in [o]:
    [fire] calls [damageable.takeDamage(damage, isHeadshot)] once when it hits,
    and never otherwise. *)
Definition damageDealt (o : Weapon.Outcome) (h : Health.t) : Health.t :=
  match o with
  | Weapon.Hit damage isHeadshot => fst (Health.takeDamage damage isHeadshot h)
  | _ => h
  end.

(** What [playerWeapon.fire] and [botWeapon.fire] return in the frame [f]. *)
Definition playerShot {host : Host} (f : GM.Frame) (gm : GM.t) : Weapon.t * Weapon.Outcome :=
  Weapon.fire (GM.playerFireNow f) (GM.playerStampNow f) (Player.getPosition (GM.player gm))
              (GM.playerPick f) (Some (Bot.asDamageable (GM.bot gm))) (GM.playerWeapon gm).

Definition botShot {host : Host} (f : GM.Frame) (gm : GM.t) : Weapon.t * Weapon.Outcome :=
  Weapon.fire (GM.botFireNow f) (GM.botStampNow f) (Bot.getPosition (GM.bot gm))
              (GM.botPick f) (Some (Player.asDamageable (GM.player gm))) (GM.botWeapon gm).

(** A bot one unit from the origin, and a ray cast that ends on its body mesh
    at distance 0. *)
Definition touchingBot : Bot.t := Bot.new (Vector3.mk 1 0 0) 3 4.
Definition touchingTarget : Weapon.IDamageable := Bot.asDamageable touchingBot.
Definition touchingPick : PickingInfo.t :=
  PickingInfo.mk true 0 (Some (Bot.mesh touchingBot)).

(** ** Sessions to compute with *)

Definition Vector3_reduced (a : Vector3.t) : Vector3.t :=
  Vector3.mk (Qred (Vector3.x a)) (Qred (Vector3.y a)) (Qred (Vector3.z a)).

(** [sampleHost], with the position a move ends at written in lowest terms:
    the same arena, and sessions of many frames stay small enough to run. *)
Definition openHost : Host := {|
  Math_sqrt := fun q => inject_Z (Z.sqrt (Qfloor q));
  Math_cos := fun _ => 1;
  Math_sin := fun _ => 0;
  Math_atan2 := fun _ _ => 0;
  Math_PI := 3.1416;
  moveWithCollisions := fun position displacement =>
    Vector3_reduced (Vector3.add position displacement)
|}.

(** Four headshots on the bot, 300 ms apart from [t] on, then the twenty
    frames of its respawn. *)
Definition killRound (t : Z) : list GM.Op :=
  map (fun n => GM.AnimationFrame (headshotFrame (t + 300 * Z.of_nat n))) (seq 0 4)
  ++ map (fun n => GM.AnimationFrame (frameAt (t + 1000 + 100 * Z.of_nat n) noKeys)) (seq 0 20).

(** A match from the constructor on in which the player kills the bot ten
    times, and the manager it leaves: [playing], the tenth respawn over, the
    win check of the next frame still to come. *)
Definition tenKills : list GM.Op :=
  GM.StartGame true 5000 5000 5000
  :: List.concat (map (fun k => killRound (5100 + 3000 * Z.of_nat k)) (seq 0 10)).

Definition tenKillsManager : GM.t := fst (GM.run (host := openHost) tenKills sampleManager).

(** ** After a win *)

(** A frame whose clock is not before that of [f]; any other operation. *)
Definition notEarlier (f : GM.Frame) (op : GM.Op) : Prop :=
  match op with
  | GM.AnimationFrame f' => (GM.now f <= GM.now f')%Z
  | _ => True
  end.

(** A win on kills. *)
Definition killsWin (gm : GM.t) : Prop :=
  (10 <= GM.playerKills gm)%Z \/ (10 <= GM.botKills gm)%Z.

(** The combatants, weapons, kill counts and shot counters of [gm'] are those
    of [gm], but for whether the player can be controlled. *)
Definition still (gm gm' : GM.t) : Prop :=
  GM.bot gm' = GM.bot gm
  /\ Player.setCanControl false (GM.player gm') = Player.setCanControl false (GM.player gm)
  /\ GM.playerWeapon gm' = GM.playerWeapon gm
  /\ GM.botWeapon gm' = GM.botWeapon gm
  /\ GM.playerKills gm' = GM.playerKills gm
  /\ GM.botKills gm' = GM.botKills gm
  /\ GM.playerShotsFired gm' = GM.playerShotsFired gm
  /\ GM.playerShotsHit gm' = GM.playerShotsHit gm
  /\ GM.botShotsFired gm' = GM.botShotsFired gm
  /\ GM.botShotsHit gm' = GM.botShotsHit gm.

(** Where a match that started from [gm] can be once a win condition holds:
    nothing of the fight has changed, the match clock still runs from the same
    start, and the state is [paused] or [playing] with the loop scheduled, or
    [matchEnded] with the loop stopped. *)
Definition wonOver (gm g : GM.t) : Prop :=
  still gm g
  /\ GM.matchStartTime g = GM.matchStartTime gm
  /\ ((GM.loopScheduled g = true /\ (GM.state g = GM.paused \/ GM.state g = GM.playing))
      \/ (GM.loopScheduled g = false /\ GM.state g = GM.matchEnded)).

(** What follows the frame of a win in which the pause key was down: the
    player resumes, and holds the trigger on the bot's head in the next
    frame, 300 ms later than [t]. *)
Definition resumeAndFire (t : Z) : list GM.Op :=
  [GM.Unpause true; GM.AnimationFrame (headshotFrame (t + 300))].

(** ** The shot and its hit callback *)

(** What a shooting step did to [gm], where [fired] and [hit] are the
    shooter's counters in [gm], [call] is the call of [fire] and [onHit] the
    callback handed to it: nothing; or it counted the shot and then called
    [fire], and [g] is the manager with one more shot fired and as many hits
    as before that [fire] left or, on a hit, that [onHit] found: the step
    either ended there, or ran [onHit] once, on [g], as the last thing it
    did. *)
Definition countsThenCalls (counters : Z -> Z -> GM.t -> Prop) (fired hit : Z)
    (call : GM.Event) (onHit : bool -> GM.Action) (gm : GM.t)
    (result : GM.t * list GM.Event) : Prop :=
  result = (gm, [])
  \/ exists g,
       counters (fired + 1)%Z hit g
       /\ (result = (g, [call])
           \/ exists isHeadshot events,
                result = (fst (onHit isHeadshot g),
                          call :: events ++ snd (onHit isHeadshot g))).

(** [a / b] where it is a number of the model: a division by 0 gives
    [Infinity] or [NaN]. *)
Definition divide (a b : Q) : option Q := if Qeq_bool b 0 then None else Some (a / b).

(** The accuracy expression of [updateStats],
    [fired > 0 ? (hit / fired) * 100 : 0], over that division. *)
Definition accuracyChecked (hit fired : Z) : option Q :=
  if (0 <? fired)%Z
  then option_map (fun q => q * 100) (divide (inject_Z hit) (inject_Z fired))
  else Some 0.

(** A frame in which both sides hold the trigger and both rays end on the
    head collider of the other. *)
Definition duelFrame (now : Z) : GM.Frame :=
  GM.mkFrame (inject_Z now) now firing now None (sampleEnv now)
             now now now
             (Some (PickingInfo.mk true 20 (Some (Bot.headCollider (GM.bot startedManager)))))
             now now now
             (Some (PickingInfo.mk true 20 (Player.headCollider (GM.player startedManager))))
             now now.

(** A match from the constructor on: ten frames in which the bot closes in to
    20 units, a frame in which both sides fire and hit, and one in which both
    fire and miss. *)
Definition duel : list GM.Op :=
  GM.StartGame true 5000 5000 5000
  :: map (fun n => GM.AnimationFrame (frameAt (5000 + 100 * Z.of_nat n) noKeys)) (seq 1 10)
  ++ [GM.AnimationFrame (duelFrame 7100); GM.AnimationFrame (frameAt 7400 firing)].

(** * Properties *)

(** ** Numbers *)

Lemma Qlt_bool_iff (x y : Q) : Qlt_bool x y = true <-> x < y.
Proof.
  unfold Qlt_bool. rewrite negb_true_iff.
  split; intro H.
  - apply Qnot_le_lt. intro L. apply Qle_bool_iff in L. congruence.
  - destruct (Qle_bool y x) eqn:E; [|reflexivity].
    apply Qle_bool_iff in E. exfalso. apply (Qlt_not_le _ _ H E).
Qed.

Lemma Qle_bool_false (x y : Q) : Qle_bool x y = false <-> y < x.
Proof.
  rewrite <- Qlt_bool_iff. unfold Qlt_bool.
  destruct (Qle_bool x y); simpl; intuition congruence.
Qed.

Lemma Math_max_spec (a b : Q) :
  (a <= b /\ Math_max a b = b) \/ (b < a /\ Math_max a b = a).
Proof.
  unfold Math_max. destruct (Qle_bool a b) eqn:E.
  - left. split; [now apply Qle_bool_iff | reflexivity].
  - right. split; [now apply Qle_bool_false | reflexivity].
Qed.

(** ** Health *)

Lemma takeDamage_dead (h : Health.t) (amount : Q) (isHeadshot : bool) :
  Health.health h <= 0 -> Health.takeDamage amount isHeadshot h = (h, []).
Proof.
  intro H. unfold Health.takeDamage.
  apply Qle_bool_iff in H. now rewrite H.
Qed.

Lemma takeDamage_maxHealth (h : Health.t) (amount : Q) (isHeadshot : bool) :
  Health.maxHealth (fst (Health.takeDamage amount isHeadshot h)) = Health.maxHealth h.
Proof. unfold Health.takeDamage. now destruct (Qle_bool (Health.health h) 0). Qed.

Lemma takeDamage_inRange (h : Health.t) (amount : Q) (isHeadshot : bool) :
  0 <= amount -> Health.inRange h ->
  Health.inRange (fst (Health.takeDamage amount isHeadshot h)).
Proof.
  intros Ha [H0 H1]. unfold Health.takeDamage.
  destruct (Qle_bool (Health.health h) 0); [now split|].
  unfold Health.inRange; simpl.
  destruct (Math_max_spec 0 (Health.health h - amount)) as [[L ->]|[L ->]]; split; lra.
Qed.

Lemma call_keeps_range (c : Health.Call) (h : Health.t) :
  Health.nonNegativeDamage c ->
  Health.inRange h /\ Health.maxHealth h = 100 ->
  Health.inRange (fst (Health.call c h)) /\ Health.maxHealth (fst (Health.call c h)) = 100.
Proof.
  intros Hc [Hr Hm]. destruct c as [amount isHeadshot|]; simpl in *.
  - split; [now apply takeDamage_inRange | now rewrite takeDamage_maxHealth].
  - split; [|exact Hm]. unfold Health.inRange; simpl. rewrite Hm. split; lra.
Qed.

Lemma history_keeps_range (cs : list Health.Call) :
  Forall Health.nonNegativeDamage cs ->
  forall h, Health.inRange h /\ Health.maxHealth h = 100 ->
  Forall (fun h' => Health.inRange h' /\ Health.maxHealth h' = 100) (Health.history cs h).
Proof.
  induction 1 as [|c cs Hc _ IH]; intros h Hh; simpl; constructor.
  - now apply call_keeps_range.
  - apply IH. now apply call_keeps_range.
Qed.

Lemma calls_app (cs1 cs2 : list Health.Call) (h : Health.t) :
  Health.calls (cs1 ++ cs2) h =
  (fst (Health.calls cs2 (fst (Health.calls cs1 h))),
   snd (Health.calls cs1 h) ++ snd (Health.calls cs2 (fst (Health.calls cs1 h)))).
Proof.
  revert h. induction cs1 as [|c cs1 IH]; intro h; simpl.
  - now destruct (Health.calls cs2 h).
  - destruct (Health.call c h) as [h1 e1]. rewrite IH.
    destruct (Health.calls cs1 h1) as [h2 e2]; simpl.
    now rewrite app_assoc.
Qed.

Lemma calls_on_dead (cs : list Health.Call) (h : Health.t) :
  Forall Health.isTakeDamage cs -> Health.health h <= 0 -> Health.calls cs h = (h, []).
Proof.
  induction 1 as [|c cs Hc _ IH]; intro Hd; simpl; [reflexivity|].
  destruct c as [amount isHeadshot|]; [|contradiction]. simpl.
  rewrite (takeDamage_dead _ _ _ Hd). now rewrite (IH Hd).
Qed.

Lemma deaths_of_one_life (cs : list Health.Call) :
  Forall Health.isTakeDamage cs ->
  forall h, 0 < Health.health h ->
  Health.deaths (snd (Health.calls cs h)) =
  if Health.isDead (fst (Health.calls cs h)) then 1%nat else 0%nat.
Proof.
  induction 1 as [|c cs Hc Hcs IH]; intros h Hh; simpl.
  - unfold Health.isDead. apply Qle_bool_false in Hh. now rewrite Hh.
  - destruct c as [amount isHeadshot|]; [|contradiction]. simpl.
    unfold Health.takeDamage.
    pose proof Hh as Hh'. apply Qle_bool_false in Hh'. rewrite Hh'.
    set (h' := Health.mk _ _).
    destruct (Qle_bool (Health.health h') 0) eqn:E.
    + apply Qle_bool_iff in E. rewrite (calls_on_dead cs h' Hcs E). simpl.
      unfold Health.isDead. apply Qle_bool_iff in E. now rewrite E.
    + apply Qle_bool_false in E. specialize (IH h' E).
      destruct (Health.calls cs h') as [h2 e2]. simpl in *. exact IH.
Qed.

(** C1, as the code has it.  From a [Health] constructed with maximum 100, after
    every call of a sequence of [takeDamage] and [reset] calls whose damage
    amounts are not negative, [0 <= health <= maxHealth = 100]; and whatever the
    amounts, once [health] is at most 0 no further [takeDamage] changes the
    instance: it stays there until [reset]. *)
Theorem C1_health_stays_in_range :
  (forall cs, Forall Health.nonNegativeDamage cs ->
     Forall (fun h => Health.inRange h /\ Health.maxHealth h = 100)
            (Health.history cs (Health.new 100)))
  /\
  (forall cs1 cs2, Forall Health.isTakeDamage cs2 ->
     Health.health (fst (Health.calls cs1 (Health.new 100))) <= 0 ->
     fst (Health.calls (cs1 ++ cs2) (Health.new 100)) = fst (Health.calls cs1 (Health.new 100))).
Proof.
  split.
  - intros cs Hcs. apply history_keeps_range; [exact Hcs|].
    split; [|reflexivity]. unfold Health.inRange; simpl. split; lra.
  - intros cs1 cs2 Hcs Hd. rewrite calls_app. simpl.
    now rewrite (calls_on_dead cs2 _ Hcs Hd).
Qed.

(** C1 on the sample calls: every state of the history is in range, and the
    hit on the dead instance changes nothing. *)
Lemma C1_health_stays_in_range_witness :
  Forall (fun h => Health.inRange h /\ Health.maxHealth h = 100)
         (Health.history sampleCalls (Health.new 100))
  /\ fst (Health.calls ([Health.TakeDamage 30 true; Health.TakeDamage 80 false]
                        ++ [Health.TakeDamage 20 false]) (Health.new 100))
     = fst (Health.calls [Health.TakeDamage 30 true; Health.TakeDamage 80 false] (Health.new 100)).
Proof.
  split.
  - apply (proj1 C1_health_stays_in_range sampleCalls).
    repeat constructor; simpl; unfold Qle; simpl; lia.
  - apply (proj2 C1_health_stays_in_range).
    + repeat constructor.
    + vm_compute. discriminate.
Defined.

(** C1 as stated fails: [takeDamage] clamps below only, so a negative amount
    on a fresh [Health] takes it to 101, above its maximum of 100. *)
Lemma C1_negative_damage_exceeds_maximum :
  Health.health (fst (Health.takeDamage (-1) false (Health.new 100))) == 101
  /\ ~ Health.inRange (fst (Health.takeDamage (-1) false (Health.new 100))).
Proof.
  split; [reflexivity|].
  intros [_ H]. vm_compute in H. apply H. reflexivity.
Qed.

(** C6.  [takeDamage] on a [Health] whose value is already at most 0 changes
    nothing and tells no callback anything; in a run of [takeDamage] calls from
    a live instance the death callbacks fire once if the run ends dead and not
    at all otherwise; and with health at 25, [takeDamage(30)] leaves 0, dead,
    and fires the death callbacks exactly once. *)
Theorem C6_takeDamage_on_dead_is_a_noop :
  (forall h amount isHeadshot,
     Health.health h <= 0 -> Health.takeDamage amount isHeadshot h = (h, []))
  /\
  (forall h cs, 0 < Health.health h -> Forall Health.isTakeDamage cs ->
     Health.deaths (snd (Health.calls cs h)) =
     if Health.isDead (fst (Health.calls cs h)) then 1%nat else 0%nat)
  /\
  (Health.takeDamage 30 false (Health.mk 25 100)
     = (Health.mk 0 100, [Health.HealthChange 0; Health.Death])
   /\ Health.isDead (Health.mk 0 100) = true
   /\ Health.deaths (snd (Health.takeDamage 30 false (Health.mk 25 100))) = 1%nat).
Proof.
  split; [|split].
  - intros h amount isHeadshot H. now apply takeDamage_dead.
  - intros h cs Hh Hcs. now apply deaths_of_one_life.
  - repeat split.
Qed.

(** C6 on a dead instance, and on the first three sample calls. *)
Lemma C6_takeDamage_on_dead_is_a_noop_witness :
  Health.takeDamage 20 false (Health.mk 0 100) = (Health.mk 0 100, [])
  /\ Health.deaths (snd (Health.calls
       [Health.TakeDamage 30 true; Health.TakeDamage 80 false; Health.TakeDamage 20 false]
       (Health.new 100))) = 1%nat.
Proof.
  split.
  - apply (proj1 C6_takeDamage_on_dead_is_a_noop). unfold Qle; simpl; lia.
  - apply (proj1 (proj2 C6_takeDamage_on_dead_is_a_noop) (Health.new 100)).
    + reflexivity.
    + repeat constructor.
Defined.

(** ** Weapon *)

Lemma canFire_iff (now : Z) (w : Weapon.t) :
  Weapon.canFire now w = true <->
  Weapon.fireInterval w <= inject_Z (now - Weapon.lastFireTime w).
Proof. unfold Weapon.canFire. apply Qle_bool_iff. Qed.

Lemma canFire_200 (now : Z) (w : Weapon.t) :
  Weapon.fireInterval w == 200 ->
  (Weapon.canFire now w = true <-> (200 <= now - Weapon.lastFireTime w)%Z).
Proof.
  intro Hi. rewrite canFire_iff, Hi.
  change 200 with (inject_Z 200). now rewrite <- Zle_Qle.
Qed.

Lemma fire_rate_limited {host : Host} nowCanFire nowStamp origin hit target w :
  Weapon.canFire nowCanFire w = false ->
  Weapon.fire nowCanFire nowStamp origin hit target w = (w, Weapon.RateLimited).
Proof. intro H. unfold Weapon.fire. now rewrite H. Qed.

Lemma fire_stamps {host : Host} nowCanFire nowStamp origin hit target w :
  Weapon.canFire nowCanFire w = true ->
  fst (Weapon.fire nowCanFire nowStamp origin hit target w)
    = Weapon.mk nowStamp (Weapon.fireInterval w)
  /\ snd (Weapon.fire nowCanFire nowStamp origin hit target w) <> Weapon.RateLimited.
Proof.
  intro H. unfold Weapon.fire. rewrite H. simpl.
  destruct target as [d|]; [|split; [reflexivity|discriminate]].
  destruct hit as [p|]; [|split; [reflexivity|discriminate]].
  destruct (PickingInfo.hit p); [|split; [reflexivity|discriminate]].
  destruct (PickingInfo.pickedMesh p) as [m|]; [|split; [reflexivity|discriminate]].
  destruct (Weapon.resolveHit _ _ _ _); split; (reflexivity || discriminate).
Qed.

(** What [fire] returns once the rate limit is passed and the ray cast ended on
    a mesh. *)
Lemma fire_on_mesh {host : Host} nowCanFire nowStamp origin p m d w :
  Weapon.canFire nowCanFire w = true ->
  PickingInfo.hit p = true -> PickingInfo.pickedMesh p = Some m ->
  snd (Weapon.fire nowCanFire nowStamp origin (Some p) (Some d) w) =
  match Weapon.resolveHit origin (orInfinity (PickingInfo.distance p)) m d with
  | Some true => Weapon.Hit GAME_CONSTANTS.HEADSHOT_DAMAGE true
  | Some false => Weapon.Hit GAME_CONSTANTS.BODY_DAMAGE false
  | None => Weapon.Missed
  end.
Proof.
  intros Hc Hh Hm. unfold Weapon.fire. rewrite Hc, Hh, Hm. simpl.
  now destruct (Weapon.resolveHit _ _ _ _) as [[|]|].
Qed.

Lemma orInfinity_finite (h : Q) : ~ h == 0 -> orInfinity h = Finite h.
Proof.
  intro H. unfold orInfinity. destruct (Qeq_bool h 0) eqn:E; [|reflexivity].
  apply Qeq_bool_iff in E. contradiction.
Qed.

Lemma absDiffLt_finite (h d tol : Q) :
  absDiffLt (Finite h) d tol = true <-> Qabs (h - d) < tol.
Proof. simpl. apply Qlt_bool_iff. Qed.

Lemma fire_damage_amounts {host : Host} nowCanFire nowStamp origin hit target w damage isHeadshot :
  snd (Weapon.fire nowCanFire nowStamp origin hit target w) = Weapon.Hit damage isHeadshot ->
  (isHeadshot = true /\ damage = 30) \/ (isHeadshot = false /\ damage = 20).
Proof.
  unfold Weapon.fire.
  destruct (Weapon.canFire nowCanFire w); simpl; [|discriminate].
  destruct target as [d|]; [|discriminate].
  destruct hit as [p|]; [|discriminate].
  destruct (PickingInfo.hit p); [|discriminate].
  destruct (PickingInfo.pickedMesh p) as [m|]; [|discriminate].
  destruct (Weapon.resolveHit _ _ _ _) as [[|]|]; simpl; intro H;
    inversion H; subst; auto.
Qed.

Lemma resolveHit_head {host : Host} origin hitDistance m d headCollider :
  Weapon.getHeadCollider d = Some (Some headCollider) ->
  Mesh.same m headCollider = true ->
  Weapon.resolveHit origin hitDistance m d = Some true.
Proof. intros Hc Hs. unfold Weapon.resolveHit. now rewrite Hc, Hs. Qed.

Lemma headCheck_iff {host : Host} origin h d :
  headCheck origin h d = true <-> headReclassifies origin h d.
Proof.
  unfold headCheck, headReclassifies. destruct (Weapon.getHeadPosition d) as [headPos|].
  - rewrite andb_true_iff, absDiffLt_finite. simpl. rewrite Qle_bool_iff. split.
    + intros [A B]. now exists headPos.
    + intros [hp [E [A B]]]. inversion E; subst. now split.
  - split; [discriminate|]. intros [hp [E _]]. discriminate.
Qed.

Lemma resolveHit_body {host : Host} origin h m d tag tol :
  notHeadOf m d ->
  (tag = "bot"%string /\ tol = 2.0) \/ (tag = "playerBody"%string /\ tol = 1.5) ->
  Mesh.name m = tag ->
  Qabs (h - Distance origin (Weapon.getPosition d)) < tol ->
  Weapon.resolveHit origin (Finite h) m d = Some (headCheck origin h d).
Proof.
  intros Hn Ht Hm Hd. unfold Weapon.resolveHit, headCheck.
  assert (Hhead : (match Weapon.getHeadCollider d with
                   | Some (Some headCollider) =>
                     if Mesh.same m headCollider then (true, true) else (false, false)
                   | _ => (false, false)
                   end) = (false, false)).
  { destruct (Weapon.getHeadCollider d) as [[hc|]|] eqn:E; try reflexivity.
    now rewrite (Hn hc E). }
  rewrite Hhead. cbv beta iota zeta. cbn [negb andb].
  destruct Ht as [[-> ->]|[-> ->]]; rewrite Hm; apply absDiffLt_finite in Hd;
    cbn [String.eqb Ascii.eqb Bool.eqb andb negb]; rewrite Hd; cbn [negb andb];
    destruct (Weapon.getHeadPosition d); try reflexivity;
    match goal with |- context [if ?c then _ else _] => destruct c end; reflexivity.
Qed.

(** C4, as the code has it.  When [canFire()] is false, [fire] returns false,
    applies no damage and leaves the weapon, timestamp included, as it was.
    When [canFire()] is true the timestamp is recorded whatever follows, hit
    or miss; with no target the call then returns false and applies no
    damage. *)
Theorem C4_fire_records_the_timestamp_once_past_the_rate_limit :
  forall (host : Host) nowCanFire nowStamp origin hit target w,
    (Weapon.canFire nowCanFire w = false ->
     Weapon.fire nowCanFire nowStamp origin hit target w = (w, Weapon.RateLimited)
     /\ Weapon.returned Weapon.RateLimited = false)
    /\
    (Weapon.canFire nowCanFire w = true ->
     fst (Weapon.fire nowCanFire nowStamp origin hit target w)
       = Weapon.mk nowStamp (Weapon.fireInterval w)
     /\ snd (Weapon.fire nowCanFire nowStamp origin hit target w) <> Weapon.RateLimited)
    /\
    (Weapon.canFire nowCanFire w = true -> target = None ->
     Weapon.fire nowCanFire nowStamp origin hit target w
       = (Weapon.mk nowStamp (Weapon.fireInterval w), Weapon.NoTarget)
     /\ Weapon.returned Weapon.NoTarget = false).
Proof.
  intros. split; [|split].
  - intro H. split; [now apply fire_rate_limited | reflexivity].
  - intro H. now apply fire_stamps.
  - intros H ->. unfold Weapon.fire. rewrite H. now split.
Qed.

(** C4 on a refused shot, on a miss and on a shot without target. *)
Lemma C4_fire_records_the_timestamp_once_past_the_rate_limit_witness :
  Weapon.fire (host := sampleHost) 1100 1100 sampleOrigin (Some sampleBodyPick)
              (Some sampleTarget) (Weapon.mk 1000 200)
    = (Weapon.mk 1000 200, Weapon.RateLimited)
  /\ Weapon.lastFireTime (fst (Weapon.fire (host := sampleHost) 1200 1201 sampleOrigin None
                                 (Some sampleTarget) (Weapon.mk 1000 200))) = 1201%Z
  /\ Weapon.fire (host := sampleHost) 1200 1201 sampleOrigin (Some sampleBodyPick)
                 None (Weapon.mk 1000 200)
     = (Weapon.mk 1201 200, Weapon.NoTarget).
Proof.
  split; [|split].
  - apply (C4_fire_records_the_timestamp_once_past_the_rate_limit sampleHost 1100%Z 1100%Z
             sampleOrigin (Some sampleBodyPick) (Some sampleTarget) (Weapon.mk 1000 200)).
    reflexivity.
  - rewrite (proj1 (proj1 (proj2
      (C4_fire_records_the_timestamp_once_past_the_rate_limit sampleHost 1200%Z 1201%Z
         sampleOrigin None (Some sampleTarget) (Weapon.mk 1000 200))) eq_refl)).
    reflexivity.
  - apply (C4_fire_records_the_timestamp_once_past_the_rate_limit sampleHost 1200%Z 1201%Z
             sampleOrigin (Some sampleBodyPick) None (Weapon.mk 1000 200));
      reflexivity.
Defined.

(** C4 as stated fails: a call of [fire] made while [canFire()] is false does
    not record the fire timestamp.  Fired at 1100 ms, 100 ms after a shot at
    1000 ms, the weapon still holds 1000. *)
Lemma C4_rate_limited_fire_keeps_the_old_timestamp :
  Weapon.canFire 1100 (Weapon.mk 1000 200) = false
  /\ Weapon.lastFireTime
       (fst (Weapon.fire (host := sampleHost) 1100 1100 sampleOrigin (Some sampleBodyPick)
               (Some sampleTarget) (Weapon.mk 1000 200))) = 1000%Z
  /\ 1000%Z <> 1100%Z.
Proof. repeat split. discriminate. Qed.

Lemma fire_keeps_interval {host : Host} nowCanFire nowStamp origin hit target w :
  Weapon.fireInterval (fst (Weapon.fire nowCanFire nowStamp origin hit target w))
  = Weapon.fireInterval w.
Proof.
  destruct (Weapon.canFire nowCanFire w) eqn:E.
  - now rewrite (proj1 (fire_stamps nowCanFire nowStamp origin hit target w E)).
  - now rewrite (fire_rate_limited nowCanFire nowStamp origin hit target w E).
Qed.

(** C5.  [canFire()] is true exactly when the time since [lastFireTime] is at
    least [fireInterval], which the constructor sets to 200 ms and no method
    changes; so when a call of [fire] has passed the rate limit and recorded
    its timestamp, a second call on the same weapon less than 200 ms later
    (100 ms, say) is refused: it returns false, applies no damage and leaves
    the weapon as it was. *)
Theorem C5_canFire_iff_the_fire_interval_has_elapsed :
  (forall now w,
     Weapon.canFire now w = true <->
     Weapon.fireInterval w <= inject_Z (now - Weapon.lastFireTime w))
  /\ Weapon.fireInterval Weapon.new == 200
  /\ (forall now w, Weapon.fireInterval w == 200 ->
        (Weapon.canFire now w = true <-> (200 <= now - Weapon.lastFireTime w)%Z))
  /\ (forall (host : Host) t1 t2 origin hit target w,
        Weapon.fireInterval (fst (Weapon.fire t1 t2 origin hit target w))
        = Weapon.fireInterval w)
  /\ (forall w, Weapon.fireInterval (Weapon.reset w) = Weapon.fireInterval w)
  /\ (forall (host : Host) t1 t2 t3 t4 origin1 hit1 target1 origin2 hit2 target2 w,
        Weapon.fireInterval w == 200 ->
        Weapon.canFire t1 w = true ->
        (t3 - t2 < 200)%Z ->
        Weapon.fire t3 t4 origin2 hit2 target2
          (fst (Weapon.fire t1 t2 origin1 hit1 target1 w))
        = (fst (Weapon.fire t1 t2 origin1 hit1 target1 w), Weapon.RateLimited)
        /\ Weapon.returned Weapon.RateLimited = false).
Proof.
  split; [|split; [|split; [|split; [|split]]]].
  - intros. apply canFire_iff.
  - reflexivity.
  - intros. now apply canFire_200.
  - intros. apply fire_keeps_interval.
  - reflexivity.
  - intros host t1 t2 t3 t4 o1 h1 g1 o2 h2 g2 w Hi Hc Hgap.
    split; [|reflexivity]. apply fire_rate_limited.
    destruct (Weapon.canFire t3 _) eqn:E; [|reflexivity].
    apply canFire_200 in E.
    + rewrite (proj1 (fire_stamps t1 t2 o1 h1 g1 w Hc)) in E. simpl in E. lia.
    + now rewrite fire_keeps_interval.
Qed.

(** C5 on two shots 100 ms apart. *)
Lemma C5_canFire_iff_the_fire_interval_has_elapsed_witness :
  Weapon.fire (host := sampleHost) 5100 5100 sampleOrigin (Some sampleBodyPick) (Some sampleTarget)
    (fst (Weapon.fire (host := sampleHost) 5000 5000 sampleOrigin (Some sampleBodyPick)
            (Some sampleTarget) Weapon.new))
  = (fst (Weapon.fire (host := sampleHost) 5000 5000 sampleOrigin (Some sampleBodyPick)
            (Some sampleTarget) Weapon.new), Weapon.RateLimited)
  /\ Weapon.returned Weapon.RateLimited = false.
Proof.
  apply (proj2 (proj2 (proj2 (proj2 (proj2 C5_canFire_iff_the_fire_interval_has_elapsed))))
           sampleHost 5000%Z 5000%Z 5100%Z 5100%Z).
  - reflexivity.
  - reflexivity.
  - reflexivity.
Defined.

(** ** GameManager: rules for method bodies *)

Lemma seq_fst (a b : GM.Action) (gm : GM.t) :
  fst (GM.seq a b gm) = fst (b (fst (a gm))).
Proof.
  unfold GM.seq. destruct (a gm) as [gm1 e1]. simpl. now destruct (b gm1).
Qed.

Lemma seq_snd (a b : GM.Action) (gm : GM.t) :
  snd (GM.seq a b gm) = snd (a gm) ++ snd (b (fst (a gm))).
Proof.
  unfold GM.seq. destruct (a gm) as [gm1 e1]. simpl. now destruct (b gm1).
Qed.

Lemma triple_weaken (P P' Q Q' : GM.t -> Prop) (E : GM.Event -> Prop) (a : GM.Action) :
  (forall gm, P' gm -> P gm) -> (forall gm, Q gm -> Q' gm) ->
  triple P a Q E -> triple P' a Q' E.
Proof. intros HP HQ H gm Hgm. destruct (H gm (HP gm Hgm)). auto. Qed.

Lemma triple_skip (P Q : GM.t -> Prop) E :
  (forall gm, P gm -> Q gm) -> triple P GM.skip Q E.
Proof. intros H gm Hgm. simpl. auto. Qed.

Lemma triple_modify (P Q : GM.t -> Prop) E (f : GM.t -> GM.t) :
  (forall gm, P gm -> Q (f gm)) -> triple P (GM.modify f) Q E.
Proof. intros H gm Hgm. simpl. auto. Qed.

Lemma triple_emit (P Q : GM.t -> Prop) (E : GM.Event -> Prop) (e : GM.t -> GM.Event) :
  (forall gm, P gm -> Q gm /\ E (e gm)) -> triple P (GM.emit e) Q E.
Proof. intros H gm Hgm. simpl. destruct (H gm Hgm). auto. Qed.

Lemma triple_seq (P M Q : GM.t -> Prop) E (a b : GM.Action) :
  triple P a M E -> triple M b Q E -> triple P (GM.seq a b) Q E.
Proof.
  intros Ha Hb gm Hgm. rewrite seq_fst, seq_snd.
  destruct (Ha gm Hgm) as [Hm Ea]. destruct (Hb _ Hm) as [Hq Eb].
  split; [exact Hq | now apply Forall_app].
Qed.

Lemma triple_cond (P Q : GM.t -> Prop) E (c : GM.t -> bool) (a b : GM.Action) :
  triple (fun gm => P gm /\ c gm = true) a Q E ->
  triple (fun gm => P gm /\ c gm = false) b Q E ->
  triple P (GM.cond c a b) Q E.
Proof.
  intros Ha Hb gm Hgm. unfold GM.cond. destruct (c gm) eqn:Ec; [apply Ha | apply Hb]; auto.
Qed.

Lemma triple_bind {A : Type} (P Q : GM.t -> Prop) E (r : GM.t -> A) (k : A -> GM.Action) :
  (forall x, triple (fun gm => P gm /\ r gm = x) (k x) Q E) -> triple P (GM.bind r k) Q E.
Proof. intros H gm Hgm. unfold GM.bind. apply (H (r gm)). auto. Qed.

Lemma preserves_skip I E : preserves I E GM.skip.
Proof. now apply triple_skip. Qed.

Lemma preserves_modify (I : GM.t -> Prop) E (f : GM.t -> GM.t) :
  (forall gm, I gm -> I (f gm)) -> preserves I E (GM.modify f).
Proof. apply triple_modify. Qed.

Lemma preserves_emit (I : GM.t -> Prop) (E : GM.Event -> Prop) (e : GM.t -> GM.Event) :
  (forall gm, I gm -> E (e gm)) -> preserves I E (GM.emit e).
Proof. intro H. apply triple_emit. auto. Qed.

Lemma preserves_seq I E (a b : GM.Action) :
  preserves I E a -> preserves I E b -> preserves I E (GM.seq a b).
Proof. apply triple_seq. Qed.

Lemma preserves_cond I E (c : GM.t -> bool) (a b : GM.Action) :
  preserves I E a -> preserves I E b -> preserves I E (GM.cond c a b).
Proof.
  intros Ha Hb. apply triple_cond.
  - eapply triple_weaken; [| |exact Ha]; simpl; tauto.
  - eapply triple_weaken; [| |exact Hb]; simpl; tauto.
Qed.

Lemma preserves_when I E (c : GM.t -> bool) (a : GM.Action) :
  preserves I E a -> preserves I E (GM.when c a).
Proof. intro H. apply preserves_cond; [exact H | apply preserves_skip]. Qed.

(** The branch may use that some manager satisfied the invariant and the
    condition. *)
Lemma preserves_when_cond (I : GM.t -> Prop) E (c : GM.t -> bool) (a : GM.Action) :
  (forall gm0, I gm0 -> c gm0 = true -> preserves I E a) -> preserves I E (GM.when c a).
Proof.
  intros H gm Hgm. unfold GM.when, GM.cond. destruct (c gm) eqn:Ec.
  - now apply (H gm Hgm Ec).
  - simpl. auto.
Qed.

Lemma preserves_bind {A : Type} I E (r : GM.t -> A) (k : A -> GM.Action) :
  (forall x, preserves I E (k x)) -> preserves I E (GM.bind r k).
Proof.
  intro H. apply triple_bind. intro x.
  eapply triple_weaken; [| |exact (H x)]; simpl; tauto.
Qed.

Ltac head_of a := lazymatch a with ?g _ => head_of g | _ => a end.

(** Take a method body apart, handing every assignment and notification to
    [leaf]. *)
Ltac preserve_step leaf :=
  lazymatch goal with
  | |- preserves _ _ (GM.seq _ _) => apply preserves_seq
  | |- preserves _ _ (GM.when _ _) => apply preserves_when
  | |- preserves _ _ (GM.cond _ _ _) => apply preserves_cond
  | |- preserves _ _ (GM.bind _ _) => apply preserves_bind; intro
  | |- preserves _ _ (GM.modify _) => apply preserves_modify; leaf
  | |- preserves _ _ (GM.emit _) => apply preserves_emit; leaf
  | |- preserves _ _ GM.skip => apply preserves_skip
  | |- preserves _ _ (match ?x with _ => _ end) => destruct x
  | |- preserves _ _ ?a => let h := head_of a in unfold h
  end.

Ltac preserve leaf :=
  try lazymatch goal with |- triple ?I ?a ?I ?E => change (preserves I E a) end;
  repeat (preserve_step leaf).

(** *** The state reached by the parts of a frame *)

Ltac state_leaf :=
  let gm := fresh "gm" in
  let H := fresh "H" in
  intros gm H; try exact I; unfold stateIn in *; simpl in *; tauto.

Lemma playingFrame_states {host : Host} deltaTime f s0 :
  preserves (stateIn s0 [GM.respawning; GM.matchEnded]) anyEvent (GM.playingFrame deltaTime f).
Proof. preserve state_leaf. Qed.

Lemma respawningFrame_states {host : Host} deltaTime f s0 :
  preserves (stateIn s0 [GM.playing]) anyEvent (GM.respawningFrame deltaTime f).
Proof. preserve state_leaf. Qed.

Lemma handleEscape_state {host : Host} f gm :
  GM.state (fst (GM.handleEscape f gm)) =
  match InputManager.isKeyPressed (GM.input f) "escape", GM.state gm with
  | true, GM.playing => GM.paused
  | _, s => s
  end.
Proof.
  unfold GM.handleEscape, GM.when, GM.cond, GM.bind.
  destruct (InputManager.isKeyPressed (GM.input f) "escape"); [|reflexivity].
  destruct (GM.state gm) eqn:E; simpl; congruence.
Qed.

Lemma loop_fst {host : Host} f gm :
  fst (GM.loop f gm) =
  if negb (GM.loopScheduled gm) then gm
  else
    let deltaTime := Math_min ((GM.currentTime f - GM.lastTime gm) / 1000) 0.1 in
    let gm1 := fst (GM.handleEscape f (GM.set_lastTime (GM.currentTime f) gm)) in
    match GM.state gm1 with
    | GM.playing => fst (GM.playingFrame deltaTime f gm1)
    | GM.respawning => fst (GM.respawningFrame deltaTime f gm1)
    | _ => gm1
    end.
Proof.
  unfold GM.loop, GM.cond. destruct (negb (GM.loopScheduled gm)); [reflexivity|].
  unfold GM.bind at 1. rewrite !seq_fst. unfold GM.bind at 1. cbn [GM.modify fst].
  cbv zeta. now destruct (GM.state _).
Qed.

Lemma loop_state {host : Host} f gm :
  GM.state (fst (GM.loop f gm)) = GM.state gm
  \/ GM.edge (GM.state gm) (GM.state (fst (GM.loop f gm))) = true.
Proof.
  rewrite loop_fst. destruct (negb (GM.loopScheduled gm)); [now left|]. cbv zeta.
  set (deltaTime := Math_min _ _).
  set (gm1 := fst (GM.handleEscape f _)).
  assert (H1 : GM.state gm1 =
               match InputManager.isKeyPressed (GM.input f) "escape", GM.state gm with
               | true, GM.playing => GM.paused
               | _, s => s
               end) by (unfold gm1; now rewrite handleEscape_state).
  destruct (GM.state gm1) eqn:E1.
  - rewrite E1. destruct (InputManager.isKeyPressed _ _), (GM.state gm); auto; discriminate.
  - assert (E : GM.state gm = GM.playing)
      by (destruct (InputManager.isKeyPressed _ _), (GM.state gm); congruence).
    rewrite E.
    destruct (playingFrame_states deltaTime f GM.playing gm1 (or_introl E1)) as [[H|H] _].
    + left. exact H.
    + right. simpl in H. destruct H as [<-|[<-|[]]]; reflexivity.
  - assert (E : GM.state gm = GM.respawning)
      by (destruct (InputManager.isKeyPressed _ _), (GM.state gm); congruence).
    rewrite E.
    destruct (respawningFrame_states deltaTime f GM.respawning gm1 (or_introl E1)) as [[H|H] _].
    + left. exact H.
    + right. simpl in H. destruct H as [<-|[]]; reflexivity.
  - rewrite E1. destruct (InputManager.isKeyPressed _ _), (GM.state gm); auto; discriminate.
  - rewrite E1. destruct (InputManager.isKeyPressed _ _), (GM.state gm); auto; discriminate.
Qed.

Lemma startGame_elsewhere locked t1 t2 t3 gm :
  GM.state gm <> GM.waiting -> GM.startGame locked t1 t2 t3 gm = (gm, []).
Proof.
  intro H. unfold GM.startGame, GM.bind. destruct (GM.state gm); try reflexivity.
  now elim H.
Qed.

Lemma unpause_elsewhere locked gm :
  GM.state gm <> GM.paused -> GM.unpause locked gm = (gm, []).
Proof.
  intro H. unfold GM.unpause, GM.bind. destruct (GM.state gm); try reflexivity.
  now elim H.
Qed.

Lemma restart_state t1 t2 gm : GM.state (fst (GM.restart t1 t2 gm)) = GM.waiting.
Proof. reflexivity. Qed.

(** C2, as the code has it.  An operation of the manager leaves the state as it
    is, or moves it along one of the listed edges, or is [restart], which
    moves any state to [waiting]; [startGame] outside [waiting] and [unpause]
    outside [paused] change nothing and notify nobody. *)
Theorem C2_state_moves_along_the_edges_or_by_restart :
  forall (host : Host) (op : GM.Op) (gm : GM.t),
    (GM.state (fst (GM.step op gm)) = GM.state gm
     \/ GM.edge (GM.state gm) (GM.state (fst (GM.step op gm))) = true
     \/ (exists t1 t2, op = GM.Restart t1 t2
                       /\ GM.state (fst (GM.step op gm)) = GM.waiting))
    /\ (forall locked t1 t2 t3,
          GM.state gm <> GM.waiting -> GM.startGame locked t1 t2 t3 gm = (gm, []))
    /\ (forall locked, GM.state gm <> GM.paused -> GM.unpause locked gm = (gm, [])).
Proof.
  intros host op gm. split; [|split].
  - destruct op as [locked t1 t2 t3|locked|t1 t2|f]; simpl.
    + unfold GM.startGame, GM.bind. destruct (GM.state gm) eqn:E; auto.
      destruct locked; simpl; auto.
    + unfold GM.unpause, GM.bind. destruct (GM.state gm) eqn:E; auto.
      destruct locked; simpl; auto.
    + right. right. exists t1, t2. split; reflexivity.
    + destruct (loop_state f gm); auto.
  - intros. now apply startGame_elsewhere.
  - intros. now apply unpause_elsewhere.
Qed.

(** C2 on a match in play: neither [startGame] nor [unpause] does anything. *)
Lemma C2_state_moves_along_the_edges_or_by_restart_witness :
  GM.startGame true 6000 6000 6000 startedManager = (startedManager, [])
  /\ GM.unpause true startedManager = (startedManager, []).
Proof.
  split.
  - apply (C2_state_moves_along_the_edges_or_by_restart sampleHost
             (GM.Unpause true) startedManager). discriminate.
  - apply (C2_state_moves_along_the_edges_or_by_restart sampleHost
             (GM.Unpause true) startedManager). discriminate.
Defined.

(** C2 as stated fails: [restart] does not look at the state.  Called during
    play it moves the manager from [playing] to [waiting], which is not one of
    the listed edges. *)
Lemma C2_restart_leaves_playing_for_waiting :
  GM.state startedManager = GM.playing
  /\ GM.state (fst (GM.step (host := sampleHost) (GM.Restart 7000 7000) startedManager))
     = GM.waiting
  /\ GM.edge GM.playing GM.waiting = false.
Proof. repeat split. Qed.

(** *** What a shot does to its target *)

Lemma playerOnHit_combatants {host : Host} isHeadshot gm :
  GM.bot (fst (GM.playerOnHit isHeadshot gm)) = GM.bot gm
  /\ GM.player (fst (GM.playerOnHit isHeadshot gm)) = GM.player gm.
Proof. destruct isHeadshot; split; reflexivity. Qed.

Lemma botTakeDamage_health amount isHeadshot gm :
  Bot.health (GM.bot (fst (GM.botTakeDamage amount isHeadshot gm)))
  = fst (Health.takeDamage amount isHeadshot (Bot.health (GM.bot gm)))
  /\ GM.player (fst (GM.botTakeDamage amount isHeadshot gm)) = GM.player gm.
Proof.
  unfold GM.botTakeDamage, GM.bind. rewrite seq_fst. cbn [GM.modify fst].
  destruct (existsb Health.isDeath _); split; reflexivity.
Qed.

Lemma playerTakeDamage_health amount isHeadshot deathNow gm :
  Player.health (GM.player (fst (GM.playerTakeDamage amount isHeadshot deathNow gm)))
  = fst (Health.takeDamage amount isHeadshot (Player.health (GM.player gm)))
  /\ GM.bot (fst (GM.playerTakeDamage amount isHeadshot deathNow gm)) = GM.bot gm.
Proof.
  unfold GM.playerTakeDamage, GM.bind. rewrite seq_fst. cbn [GM.modify fst].
  destruct (existsb Health.isDeath _); split; reflexivity.
Qed.

Lemma playerFire_fst {host : Host} f gm :
  fst (GM.playerFire f gm)
  = match snd (playerShot f gm) with
    | Weapon.Hit damage isHeadshot =>
      fst (GM.playerOnHit isHeadshot
             (fst (GM.botTakeDamage damage isHeadshot
                     (GM.set_playerWeapon (fst (playerShot f gm)) gm))))
    | _ => GM.set_playerWeapon (fst (playerShot f gm)) gm
    end.
Proof.
  unfold GM.playerFire, GM.playerFireWith, playerShot, GM.bind. rewrite !seq_fst. cbn [GM.emit GM.modify fst].
  destruct (Weapon.fire _ _ _ _ _ _) as [w o]. cbn [fst snd].
  destruct o as [| | |damage isHeadshot]; try reflexivity.
  now rewrite seq_fst.
Qed.

Lemma botFire_fst {host : Host} f gm :
  fst (GM.botFire f gm)
  = match snd (botShot f gm) with
    | Weapon.Hit damage isHeadshot =>
      fst (GM.botOnHit
             (fst (GM.playerTakeDamage damage isHeadshot (GM.deathNow f)
                     (GM.set_botWeapon (fst (botShot f gm)) gm))))
    | _ => GM.set_botWeapon (fst (botShot f gm)) gm
    end.
Proof.
  unfold GM.botFire, GM.botFireWith, botShot, GM.bind. rewrite !seq_fst. cbn [GM.emit GM.modify fst].
  destruct (Weapon.fire _ _ _ _ _ _) as [w o]. cbn [fst snd].
  destruct o as [| | |damage isHeadshot]; try reflexivity.
  now rewrite seq_fst.
Qed.

Lemma playerFire_damage {host : Host} f gm :
  Bot.health (GM.bot (fst (GM.playerFire f gm)))
  = damageDealt (snd (playerShot f gm)) (Bot.health (GM.bot gm))
  /\ Player.health (GM.player (fst (GM.playerFire f gm))) = Player.health (GM.player gm).
Proof.
  rewrite playerFire_fst.
  destruct (snd (playerShot f gm)) as [| | |damage isHeadshot]; try (split; reflexivity).
  destruct (playerOnHit_combatants isHeadshot
              (fst (GM.botTakeDamage damage isHeadshot
                      (GM.set_playerWeapon (fst (playerShot f gm)) gm))))
    as [A B].
  destruct (botTakeDamage_health damage isHeadshot
              (GM.set_playerWeapon (fst (playerShot f gm)) gm)) as [C D].
  rewrite A, B, C, D. split; reflexivity.
Qed.

Lemma botFire_damage {host : Host} f gm :
  Player.health (GM.player (fst (GM.botFire f gm)))
  = damageDealt (snd (botShot f gm)) (Player.health (GM.player gm))
  /\ Bot.health (GM.bot (fst (GM.botFire f gm))) = Bot.health (GM.bot gm).
Proof.
  rewrite botFire_fst.
  destruct (snd (botShot f gm)) as [| | |damage isHeadshot]; try (split; reflexivity).
  destruct (playerTakeDamage_health damage isHeadshot (GM.deathNow f)
              (GM.set_botWeapon (fst (botShot f gm)) gm)) as [C D].
  unfold GM.botOnHit. cbn [GM.modify fst GM.player GM.bot GM.set_botShotsHit].
  rewrite C, D. split; reflexivity.
Qed.

Lemma damageDealt_alive (damage : Q) (isHeadshot : bool) (h : Health.t) :
  0 < Health.health h ->
  damageDealt (Weapon.Hit damage isHeadshot) h
  = Health.mk (Math_max 0 (Health.health h - damage)) (Health.maxHealth h).
Proof.
  intro H. unfold damageDealt, Health.takeDamage. apply Qle_bool_false in H. now rewrite H.
Qed.

(** C3, as the code has it.  A call of [fire] that hits applies 30 with the
    headshot flag or 20 without it, nothing else, and applies it to the
    [Health] of its target: the manager's shot for the player takes it from
    the bot, the shot for the bot from the player, once, and a call that does
    not hit takes nothing; a live target is left with its health less the
    amount, or 0.  Once the rate limit is passed and the ray cast ended on a
    mesh: if that mesh is the target's head collider the outcome is a
    headshot, 30; if it is not, is named [bot] (resp. [playerBody]) and
    [hit.distance] is not 0 and is less than 2.0 (resp. 1.5) away from the
    distance to the target's position, the outcome is a hit of 20, unless the
    secondary head-distance check holds, in which case it is a headshot,
    30. *)
Theorem C3_fire_applies_headshot_or_body_damage :
  (forall (host : Host) nowCanFire nowStamp origin hit target w damage isHeadshot,
     snd (Weapon.fire nowCanFire nowStamp origin hit target w) = Weapon.Hit damage isHeadshot ->
     (isHeadshot = true /\ damage = 30) \/ (isHeadshot = false /\ damage = 20))
  /\
  (forall (host : Host) nowCanFire nowStamp origin p m d w headCollider,
     Weapon.canFire nowCanFire w = true ->
     PickingInfo.hit p = true -> PickingInfo.pickedMesh p = Some m ->
     Weapon.getHeadCollider d = Some (Some headCollider) ->
     Mesh.same m headCollider = true ->
     snd (Weapon.fire nowCanFire nowStamp origin (Some p) (Some d) w) = Weapon.Hit 30 true)
  /\
  (forall (host : Host) nowCanFire nowStamp origin p m d w,
     Weapon.canFire nowCanFire w = true ->
     PickingInfo.hit p = true -> PickingInfo.pickedMesh p = Some m ->
     notHeadOf m d ->
     ~ PickingInfo.distance p == 0 ->
     (Mesh.name m = "bot"%string
      /\ Qabs (PickingInfo.distance p - Distance origin (Weapon.getPosition d)) < 2.0)
     \/ (Mesh.name m = "playerBody"%string
         /\ Qabs (PickingInfo.distance p - Distance origin (Weapon.getPosition d)) < 1.5) ->
     (headReclassifies origin (PickingInfo.distance p) d ->
      snd (Weapon.fire nowCanFire nowStamp origin (Some p) (Some d) w) = Weapon.Hit 30 true)
     /\ (~ headReclassifies origin (PickingInfo.distance p) d ->
         snd (Weapon.fire nowCanFire nowStamp origin (Some p) (Some d) w) = Weapon.Hit 20 false))
  /\
  (forall (host : Host) (f : GM.Frame) (gm : GM.t),
     Bot.health (GM.bot (fst (GM.playerFire f gm)))
     = damageDealt (snd (playerShot f gm)) (Bot.health (GM.bot gm))
     /\ Player.health (GM.player (fst (GM.playerFire f gm))) = Player.health (GM.player gm)
     /\ Player.health (GM.player (fst (GM.botFire f gm)))
        = damageDealt (snd (botShot f gm)) (Player.health (GM.player gm))
     /\ Bot.health (GM.bot (fst (GM.botFire f gm))) = Bot.health (GM.bot gm))
  /\
  (forall (o : Weapon.Outcome) (h : Health.t),
     match o with
     | Weapon.Hit damage isHeadshot =>
       0 < Health.health h ->
       damageDealt o h = Health.mk (Math_max 0 (Health.health h - damage)) (Health.maxHealth h)
     | _ => damageDealt o h = h
     end).
Proof.
  split; [|split; [|split; [|split]]].
  - intros. eapply fire_damage_amounts; eassumption.
  - intros host nowCanFire nowStamp origin p m d w hc Hc Hh Hm Hhc Hs.
    rewrite (fire_on_mesh _ _ _ _ m _ _ Hc Hh Hm).
    now rewrite (resolveHit_head _ _ _ _ hc Hhc Hs).
  - intros host nowCanFire nowStamp origin p m d w Hc Hh Hm Hn Hz Hbody.
    rewrite (fire_on_mesh _ _ _ _ m _ _ Hc Hh Hm).
    rewrite (orInfinity_finite _ Hz).
    set (h := PickingInfo.distance p) in *.
    assert (R : Weapon.resolveHit origin (Finite h) m d = Some (headCheck origin h d)).
    { destruct Hbody as [[Hname Hd]|[Hname Hd]].
      - apply (resolveHit_body _ _ _ _ "bot"%string 2.0); auto.
      - apply (resolveHit_body _ _ _ _ "playerBody"%string 1.5); auto. }
    rewrite R. split; intro H.
    + apply headCheck_iff in H. now rewrite H.
    + destruct (headCheck origin h d) eqn:E; [|reflexivity].
      apply headCheck_iff in E. contradiction.
  - intros host f gm.
    destruct (playerFire_damage f gm) as [A B]. destruct (botFire_damage f gm) as [C D].
    repeat split; assumption.
  - intros o h. destruct o as [| | |damage isHeadshot]; try reflexivity.
    apply damageDealt_alive.
Qed.

(** C3 on three shots (the head collider, a body hit that stays a body hit, a
    body hit the head-distance check turns into a headshot) and on the health
    of the bot after the player's headshot in a frame of a started match. *)
Lemma C3_fire_applies_headshot_or_body_damage_witness :
  snd (Weapon.fire (host := sampleHost) 1000 1000 sampleOrigin
         (Some sampleHeadPick) (Some sampleTarget) Weapon.new) = Weapon.Hit 30 true
  /\ snd (Weapon.fire (host := sampleHost) 1000 1000 sampleOrigin
            (Some nearBodyPick) (Some nearTarget) Weapon.new) = Weapon.Hit 20 false
  /\ snd (Weapon.fire (host := sampleHost) 1000 1000 sampleOrigin
            (Some sampleBodyPick) (Some sampleTarget) Weapon.new) = Weapon.Hit 30 true
  /\ Bot.health (GM.bot (fst (GM.playerFire (host := sampleHost) (headshotFrame 6000)
                                            startedManager)))
     = Health.mk (Math_max 0 (100 - 30)) 100.
Proof.
  destruct C3_fire_applies_headshot_or_body_damage as [_ [Head [Body [Applied Amount]]]].
  split; [|split; [|split]].
  - apply (Head sampleHost 1000%Z 1000%Z sampleOrigin sampleHeadPick
                (Bot.headCollider sampleBot) sampleTarget Weapon.new (Bot.headCollider sampleBot));
      reflexivity.
  - apply (Body sampleHost 1000%Z 1000%Z sampleOrigin nearBodyPick
                (Bot.mesh nearBot) nearTarget Weapon.new); try reflexivity.
    + intros hc E. inversion E; subst. reflexivity.
    + discriminate.
    + left. split; reflexivity.
    + intro H. apply headCheck_iff in H. discriminate.
  - apply (Body sampleHost 1000%Z 1000%Z sampleOrigin sampleBodyPick
                (Bot.mesh sampleBot) sampleTarget Weapon.new); try reflexivity.
    + intros hc E. inversion E; subst. reflexivity.
    + discriminate.
    + left. split; reflexivity.
    + apply headCheck_iff. reflexivity.
  - destruct (Applied sampleHost (headshotFrame 6000) startedManager) as [A _].
    rewrite A.
    apply (Amount (Weapon.Hit 30 true) (Bot.health (GM.bot startedManager))).
    reflexivity.
Defined.

(** C3 as stated fails for a hit distance of 0: [hit.distance || Infinity]
    turns it into [Infinity], so a ray cast that ends on the body mesh of a
    bot one unit away, well within the tolerance of 2.0, is a miss and applies
    no damage. *)
Lemma C3_a_body_hit_at_distance_zero_is_a_miss :
  Weapon.canFire 1000 Weapon.new = true
  /\ PickingInfo.hit touchingPick = true
  /\ PickingInfo.pickedMesh touchingPick = Some (Bot.mesh touchingBot)
  /\ Mesh.name (Bot.mesh touchingBot) = "bot"%string
  /\ Qabs (PickingInfo.distance touchingPick
           - Distance (host := sampleHost) sampleOrigin (Weapon.getPosition touchingTarget))
     < 2.0
  /\ snd (Weapon.fire (host := sampleHost) 1000 1000 sampleOrigin
            (Some touchingPick) (Some touchingTarget) Weapon.new) = Weapon.Missed
  /\ damageDealt Weapon.Missed (Bot.health touchingBot) = Bot.health touchingBot
  /\ Weapon.Missed <> Weapon.Hit 20 false.
Proof. repeat split. discriminate. Qed.

(** *** restart *)

(** C8, as the code has it.  [restart] zeroes both kill counts, the shots
    fired and hit of both sides, and the whole statistics record (headshots and
    both accuracies included), empties the life-duration history, puts the bot
    on its spawn point and the player on its spawn point at eye level (the
    spawn point's x and z, y = 1.8), and sets the state to [waiting]. *)
Theorem C8_restart_resets_the_match :
  forall (t1 t2 : Z) (gm : GM.t),
    GM.state (fst (GM.restart t1 t2 gm)) = GM.waiting
    /\ GM.playerKills (fst (GM.restart t1 t2 gm)) = 0%Z
    /\ GM.botKills (fst (GM.restart t1 t2 gm)) = 0%Z
    /\ GM.playerShotsFired (fst (GM.restart t1 t2 gm)) = 0%Z
    /\ GM.playerShotsHit (fst (GM.restart t1 t2 gm)) = 0%Z
    /\ GM.botShotsFired (fst (GM.restart t1 t2 gm)) = 0%Z
    /\ GM.botShotsHit (fst (GM.restart t1 t2 gm)) = 0%Z
    /\ GM.stats (fst (GM.restart t1 t2 gm)) = GameStats.mk 0 0 0 0 0 0 0 0
    /\ GM.lifeDurations (fst (GM.restart t1 t2 gm)) = []
    /\ Bot.getPosition (GM.bot (fst (GM.restart t1 t2 gm))) = GameScene.botSpawn
    /\ Player.getPosition (GM.player (fst (GM.restart t1 t2 gm)))
       = Vector3.mk (Vector3.x GameScene.playerSpawn) 1.8 (Vector3.z GameScene.playerSpawn)
    /\ snd (GM.restart t1 t2 gm)
       = [GM.StateChange GM.waiting; GM.StatsUpdate (GameStats.mk 0 0 0 0 0 0 0 0)].
Proof. intros. repeat split. Qed.

(** C8 as stated fails for the player: [Player.respawn] overrides the height of
    the spawn point with the eye level 1.8, and the player spawn point is at
    height 2. *)
Lemma C8_player_is_put_at_eye_level :
  Vector3.y (Player.getPosition (GM.player (fst (GM.restart 7000 7000 startedManager)))) = 1.8
  /\ Vector3.y GameScene.playerSpawn = 2
  /\ ~ 1.8 == 2
  /\ Player.getPosition (GM.player (fst (GM.restart 7000 7000 startedManager)))
     <> GameScene.playerSpawn.
Proof. repeat split; discriminate. Qed.

(** *** The win check *)

Lemma no_time_left (x : Q) : Qle_bool (Math_max 0 x) 0 = true <-> x <= 0.
Proof.
  rewrite Qle_bool_iff.
  destruct (Math_max_spec 0 x) as [[L ->]|[L ->]]; split; intro; lra.
Qed.

Lemma winCondition_iff {host : Host} f gm :
  GM.winCondition (fst (GM.updateMatchTimer f gm)) = true <-> winConditionHolds f gm.
Proof.
  unfold GM.winCondition, winConditionHolds. simpl.
  rewrite !orb_true_iff, !Z.leb_le, no_time_left. tauto.
Qed.

Lemma playingFrame_win {host : Host} deltaTime f gm :
  GM.winCondition (fst (GM.updateMatchTimer f gm)) = true ->
  GM.playingFrame deltaTime f gm
  = GM.seq GM.endMatch GM.returnFromLoop (fst (GM.updateMatchTimer f gm)).
Proof.
  unfold GM.winCondition, GM.playingFrame. intro H.
  unfold GM.seq at 1. cbn [GM.updateMatchTimer GM.modify fst]. unfold GM.cond.
  cbn [GM.updateMatchTimer GM.modify fst] in H.
  destruct (_ <=? _)%Z; [now destruct (GM.seq _ _ _)|].
  destruct (_ <=? _)%Z; [now destruct (GM.seq _ _ _)|].
  destruct (Qle_bool _ _); [now destruct (GM.seq _ _ _)|].
  discriminate.
Qed.

Lemma ended_step {host : Host} op gm :
  GM.state gm = GM.matchEnded -> GM.loopScheduled gm = false -> notRestart op ->
  GM.step op gm = (gm, []).
Proof.
  intros Hs Hl Hop. destruct op as [locked t1 t2 t3|locked|t1 t2|f]; simpl.
  - apply startGame_elsewhere. congruence.
  - apply unpause_elsewhere. congruence.
  - contradiction.
  - unfold GM.loop, GM.cond. now rewrite Hl.
Qed.

Lemma ended_run {host : Host} ops gm :
  GM.state gm = GM.matchEnded -> GM.loopScheduled gm = false -> Forall notRestart ops ->
  GM.run ops gm = (gm, map (fun _ => []) ops).
Proof.
  intros Hs Hl. induction 1 as [|op ops Hop _ IH]; simpl; [reflexivity|].
  now rewrite (ended_step op gm Hs Hl Hop), IH.
Qed.

Lemma endMatch_effect gm :
  GM.state (fst (GM.seq GM.endMatch GM.returnFromLoop gm)) = GM.matchEnded
  /\ GM.loopScheduled (fst (GM.seq GM.endMatch GM.returnFromLoop gm)) = false
  /\ frozen gm (fst (GM.seq GM.endMatch GM.returnFromLoop gm))
  /\ Forall notCombat (snd (GM.seq GM.endMatch GM.returnFromLoop gm)).
Proof.
  unfold GM.endMatch, GM.updateStats, GM.returnFromLoop, GM.when, GM.cond.
  rewrite !seq_fst, !seq_snd. cbn [GM.modify fst snd app].
  match goal with |- context [if ?c then _ else _] => destruct c end;
    repeat split; simpl; repeat constructor.
Qed.

Lemma pause_effect gm :
  GM.state (fst (GM.pause gm)) = GM.paused
  /\ frozen gm (fst (GM.pause gm))
  /\ Forall notCombat (snd (GM.pause gm)).
Proof. repeat split; simpl; repeat constructor. Qed.

Lemma loop_on_escape {host : Host} f gm :
  GM.loopScheduled gm = true -> GM.state gm = GM.playing ->
  InputManager.isKeyPressed (GM.input f) "escape" = true ->
  GM.loop f gm = GM.pause (GM.set_lastTime (GM.currentTime f) gm).
Proof.
  intros Hl Hs He. unfold GM.loop, GM.cond. rewrite Hl. cbn [negb].
  unfold GM.bind at 1. unfold GM.seq at 1. cbn [GM.modify].
  unfold GM.seq at 1. unfold GM.handleEscape, GM.when, GM.cond. rewrite He.
  unfold GM.bind at 1. cbn [GM.state GM.set_lastTime]. rewrite Hs.
  reflexivity.
Qed.

Lemma loop_on_win {host : Host} f gm :
  GM.loopScheduled gm = true -> GM.state gm = GM.playing ->
  InputManager.isKeyPressed (GM.input f) "escape" = false ->
  winConditionHolds f gm ->
  GM.loop f gm
  = GM.seq GM.endMatch GM.returnFromLoop
      (fst (GM.updateMatchTimer f (GM.set_lastTime (GM.currentTime f) gm))).
Proof.
  intros Hl Hs He Hw. unfold GM.loop, GM.cond. rewrite Hl. cbn [negb].
  unfold GM.bind at 1. unfold GM.seq at 1. cbn [GM.modify].
  unfold GM.seq at 1. unfold GM.handleEscape, GM.when, GM.cond. rewrite He.
  cbn [GM.skip]. unfold GM.bind at 1. cbn [GM.state GM.set_lastTime]. rewrite Hs.
  rewrite playingFrame_win.
  - now destruct (GM.seq _ _ _).
  - apply winCondition_iff. exact Hw.
Qed.

Lemma setCanControl_twice a b p :
  Player.setCanControl a (Player.setCanControl b p) = Player.setCanControl a p.
Proof. destruct p; reflexivity. Qed.

Lemma still_refl gm : still gm gm.
Proof. repeat split. Qed.

Lemma frozen_still gm g g' : still gm g -> frozen g g' -> still gm g'.
Proof.
  unfold still, frozen.
  intros [A [B [C [D [E [F [G [H [I J]]]]]]]]] [A' [B' [C' [D' [E' [F' [G' [H' [I' J']]]]]]]]].
  repeat split; try congruence.
  rewrite B', setCanControl_twice. exact B.
Qed.

Lemma endMatch_clock gm :
  GM.matchStartTime (fst (GM.seq GM.endMatch GM.returnFromLoop gm)) = GM.matchStartTime gm.
Proof.
  unfold GM.endMatch, GM.updateStats, GM.returnFromLoop, GM.when, GM.cond.
  rewrite !seq_fst. cbn [GM.modify fst].
  match goal with |- context [if ?c then _ else _] => destruct c end; reflexivity.
Qed.

Lemma loop_when_paused {host : Host} f gm :
  GM.loopScheduled gm = true -> GM.state gm = GM.paused ->
  GM.loop f gm
  = (GM.set_lastTime (GM.currentTime f) gm,
     if InputManager.isKeyPressed (GM.input f) "escape" then [GM.UnpauseCall] else []).
Proof.
  intros Hl Hs. unfold GM.loop, GM.cond. rewrite Hl. cbn [negb].
  unfold GM.bind at 1. unfold GM.seq at 1. cbn [GM.modify].
  unfold GM.seq at 1. unfold GM.handleEscape, GM.when, GM.cond.
  destruct (InputManager.isKeyPressed _ _).
  - unfold GM.bind at 1. cbn [GM.state GM.set_lastTime]. rewrite Hs.
    unfold GM.bind. cbn [GM.emit GM.state GM.set_lastTime]. rewrite Hs. reflexivity.
  - cbn [GM.skip]. unfold GM.bind. cbn [GM.state GM.set_lastTime]. rewrite Hs. reflexivity.
Qed.

Lemma unpause_when_paused locked gm :
  GM.state gm = GM.paused ->
  GM.unpause locked gm
  = if locked
    then (GM.set_player (Player.setCanControl true (GM.player gm))
            (GM.set_state GM.playing gm),
          [GM.StateChange GM.playing])
    else (gm, []).
Proof. intro Hs. unfold GM.unpause, GM.bind. rewrite Hs. destruct locked; reflexivity. Qed.

Lemma win_lasts gm g (f f' : GM.Frame) :
  still gm g -> GM.matchStartTime g = GM.matchStartTime gm ->
  winConditionHolds f gm -> killsWin gm \/ (GM.now f <= GM.now f')%Z ->
  winConditionHolds f' g.
Proof.
  unfold still, winConditionHolds, killsWin.
  intros [_ [_ [_ [_ [E [F _]]]]]] Hm Hw Hk. rewrite E, F, Hm.
  destruct Hk as [[K|K]|K]; [now left|right; now left|].
  destruct Hw as [K'|[K'|K']]; [now left|right; now left|].
  right; right.
  assert (L : inject_Z (GM.now f - GM.matchStartTime gm)
              <= inject_Z (GM.now f' - GM.matchStartTime gm)) by (rewrite <- Zle_Qle; lia).
  unfold GAME_CONSTANTS.MATCH_TIME_LIMIT, Qdiv in *. change (/ 1000) with (1 # 1000) in *.
  lra.
Qed.

(** One operation other than [restart], once a win condition holds. *)
Lemma wonOver_step {host : Host} (f : GM.Frame) gm op g :
  winConditionHolds f gm -> wonOver gm g -> notRestart op ->
  killsWin gm \/ notEarlier f op ->
  wonOver gm (fst (GM.step op g)) /\ Forall notCombat (snd (GM.step op g)).
Proof.
  intros Hw [Hst [Hm Hs]] Hop Hk.
  destruct op as [locked t1 t2 t3|locked|t1 t2|f']; cbn [GM.step].
  - rewrite startGame_elsewhere.
    + split; [split; [exact Hst|split; [exact Hm|exact Hs]]|constructor].
    + destruct Hs as [[_ [E|E]]|[_ E]]; rewrite E; discriminate.
  - destruct Hs as [[Hl [E|E]]|[Hl E]].
    + rewrite (unpause_when_paused locked g E). destruct locked; cbn [fst snd].
      * split; [|repeat constructor].
        split; [|split; [exact Hm|left; split; [exact Hl|now right]]].
        destruct Hst as [A [B [C [D [E1 [F [G [H [I J]]]]]]]]].
        repeat split; assumption.
      * split; [|constructor]. split; [exact Hst|split; [exact Hm|left; auto]].
    + rewrite unpause_elsewhere by (rewrite E; discriminate).
      split; [|constructor]. split; [exact Hst|split; [exact Hm|left; auto]].
    + rewrite unpause_elsewhere by (rewrite E; discriminate).
      split; [|constructor]. split; [exact Hst|split; [exact Hm|right; auto]].
  - contradiction.
  - destruct Hs as [[Hl [E|E]]|[Hl E]].
    + rewrite (loop_when_paused f' g Hl E). cbn [fst snd].
      split; [|destruct (InputManager.isKeyPressed _ _); repeat constructor].
      split; [|split; [exact Hm|left; split; [exact Hl|now left]]].
      destruct Hst as [A [B [C [D [E1 [F [G [H [I J]]]]]]]]]. repeat split; assumption.
    + destruct (InputManager.isKeyPressed (GM.input f') "escape") eqn:He.
      * rewrite (loop_on_escape f' g Hl E He).
        destruct (pause_effect (GM.set_lastTime (GM.currentTime f') g)) as [P1 [P2 P3]].
        split; [|exact P3].
        split; [|split; [|left; split; [|left; exact P1]]].
        -- apply (frozen_still gm (GM.set_lastTime (GM.currentTime f') g)); [|exact P2].
           destruct Hst as [A [B [C [D [E1 [F [G [H [I J]]]]]]]]]. repeat split; assumption.
        -- exact Hm.
        -- exact Hl.
      * assert (Hw' : winConditionHolds f' g).
        { apply (win_lasts gm g f f' Hst Hm Hw).
          destruct Hk as [K|K]; [now left|right; exact K]. }
        rewrite (loop_on_win f' g Hl E He Hw').
        set (g1 := fst (GM.updateMatchTimer f' _)).
        destruct (endMatch_effect g1) as [P1 [P2 [P3 P4]]].
        split; [|exact P4].
        split; [|split; [|right; split; [exact P2|exact P1]]].
        -- apply (frozen_still gm g1); [|exact P3].
           destruct Hst as [A [B [C [D [E1 [F [G [H [I J]]]]]]]]]. repeat split; assumption.
        -- rewrite endMatch_clock. exact Hm.
    + unfold GM.loop, GM.cond. rewrite Hl. cbn [negb GM.skip fst snd].
      split; [|constructor]. split; [exact Hst|split; [exact Hm|right; auto]].
Qed.

Lemma wonOver_run {host : Host} (f : GM.Frame) gm ops :
  winConditionHolds f gm -> Forall notRestart ops ->
  killsWin gm \/ Forall (notEarlier f) ops ->
  forall g, wonOver gm g ->
    wonOver gm (fst (GM.run ops g)) /\ Forall (Forall notCombat) (snd (GM.run ops g)).
Proof.
  intros Hw Hops. induction Hops as [|op ops Hop _ IH]; intros Hk g Hg.
  - split; [exact Hg|constructor].
  - assert (K1 : killsWin gm \/ notEarlier f op).
    { destruct Hk as [K|K]; [now left|right; now inversion K]. }
    assert (K2 : killsWin gm \/ Forall (notEarlier f) ops).
    { destruct Hk as [K|K]; [now left|right; now inversion K]. }
    destruct (wonOver_step f gm op g Hw Hg Hop K1) as [S1 S2].
    cbn [GM.run]. destruct (GM.step op g) as [g1 e]. cbn [fst snd] in S1, S2.
    destruct (IH K2 g1 S1) as [R1 R2].
    destruct (GM.run ops g1) as [g2 es]. cbn [fst snd] in *.
    split; [exact R1|constructor; assumption].
Qed.

(** C7, as the code has it.  In a frame that starts in [playing] with a win
    condition holding, no entity is updated and no shot is fired, and the
    player loses control; the state becomes [matchEnded], unless the pause key
    is down in that frame, in which case it becomes [paused]; once the state is
    [matchEnded] nothing changes and nothing is emitted until [restart].  On
    either branch no later operation but [restart] updates an entity or fires
    a shot, and the combatants, weapons, kills and shot counters stay as they
    were but for the player's control, which [unpause] gives back: this holds
    for a win on kills, and for a win on time as long as no later frame reads
    a clock before that of this one, and the win condition then still holds
    for every such frame. *)
Theorem C7_win_check_comes_before_any_update :
  forall (host : Host) (f : GM.Frame) (gm : GM.t),
    GM.loopScheduled gm = true ->
    GM.state gm = GM.playing ->
    winConditionHolds f gm ->
    Forall notCombat (snd (GM.loop f gm))
    /\ frozen gm (fst (GM.loop f gm))
    /\ (InputManager.isKeyPressed (GM.input f) "escape" = true ->
        GM.state (fst (GM.loop f gm)) = GM.paused)
    /\ (InputManager.isKeyPressed (GM.input f) "escape" = false ->
        GM.state (fst (GM.loop f gm)) = GM.matchEnded
        /\ forall ops, Forall notRestart ops ->
             GM.run ops (fst (GM.loop f gm)) = (fst (GM.loop f gm), map (fun _ => []) ops))
    /\ (forall ops, Forall notRestart ops ->
          killsWin gm \/ Forall (notEarlier f) ops ->
          Forall (Forall notCombat) (snd (GM.run ops (fst (GM.loop f gm))))
          /\ still gm (fst (GM.run ops (fst (GM.loop f gm))))
          /\ In (GM.state (fst (GM.run ops (fst (GM.loop f gm)))))
                [GM.paused; GM.playing; GM.matchEnded]
          /\ (GM.state (fst (GM.run ops (fst (GM.loop f gm)))) = GM.playing ->
              GM.loopScheduled (fst (GM.run ops (fst (GM.loop f gm)))) = true)
          /\ forall f', killsWin gm \/ (GM.now f <= GM.now f')%Z ->
               winConditionHolds f' (fst (GM.run ops (fst (GM.loop f gm))))).
Proof.
  intros host f gm Hl Hs Hw.
  assert (Later : forall ops, Forall notRestart ops ->
            killsWin gm \/ Forall (notEarlier f) ops ->
            wonOver gm (fst (GM.run ops (fst (GM.loop f gm))))
            /\ Forall (Forall notCombat) (snd (GM.run ops (fst (GM.loop f gm))))).
  { intros ops Hops Hk.
    apply (wonOver_run f gm ops Hw Hops Hk).
    apply (wonOver_step f gm (GM.AnimationFrame f) gm Hw).
    - split; [apply still_refl|split; [reflexivity|left; auto]].
    - exact I.
    - right. cbn [notEarlier]. lia. }
  assert (Last : forall ops, Forall notRestart ops ->
            killsWin gm \/ Forall (notEarlier f) ops ->
            Forall (Forall notCombat) (snd (GM.run ops (fst (GM.loop f gm))))
            /\ still gm (fst (GM.run ops (fst (GM.loop f gm))))
            /\ In (GM.state (fst (GM.run ops (fst (GM.loop f gm)))))
                  [GM.paused; GM.playing; GM.matchEnded]
            /\ (GM.state (fst (GM.run ops (fst (GM.loop f gm)))) = GM.playing ->
                GM.loopScheduled (fst (GM.run ops (fst (GM.loop f gm)))) = true)
            /\ forall f', killsWin gm \/ (GM.now f <= GM.now f')%Z ->
                 winConditionHolds f' (fst (GM.run ops (fst (GM.loop f gm))))).
  { intros ops Hops Hk. destruct (Later ops Hops Hk) as [[Hst [Hm Hstate]] Hq].
    split; [exact Hq|]. split; [exact Hst|]. split; [|split].
    - destruct Hstate as [[_ [E|E]]|[_ E]]; rewrite E; simpl; tauto.
    - intro E. destruct Hstate as [[L _]|[_ E']]; [exact L|congruence].
    - intros f' Hf'. exact (win_lasts gm _ f f' Hst Hm Hw Hf'). }
  destruct (InputManager.isKeyPressed (GM.input f) "escape") eqn:He.
  - revert Last. rewrite (loop_on_escape f gm Hl Hs He). intro Last.
    destruct (pause_effect (GM.set_lastTime (GM.currentTime f) gm)) as [P1 [P2 P3]].
    split; [exact P3|]. split; [apply P2|]. split; [intros _; exact P1|].
    split; [discriminate|exact Last].
  - revert Last. rewrite (loop_on_win f gm Hl Hs He Hw). intro Last.
    set (gm1 := fst (GM.updateMatchTimer f _)) in *.
    destruct (endMatch_effect gm1) as [P1 [P2 [P3 P4]]].
    split; [exact P4|]. split; [|split; [discriminate|split; [|exact Last]]].
    + unfold frozen in *. subst gm1. simpl in P3. exact P3.
    + intros _. split; [exact P1|]. intros ops Hops. now apply ended_run.
Qed.

(** C7 on three matches played from the constructor on.  In the first the player
    has killed the bot ten times and the pause key is down in the frame of the
    win check: the frame ends [paused]; the player resumes and fires, and the
    frame of that shot ends the match without a shot.  In the second the 300
    seconds are used up and no key is down: the frame ends the match.  In the
    third the 300 seconds are used up and the pause key is down: the frame
    ends [paused], and the frame after the resume ends the match. *)
Lemma C7_win_check_comes_before_any_update_witness :
  (Forall notCombat
     (snd (GM.loop (host := openHost) (frameAt 40000 escapeKey) tenKillsManager))
   /\ frozen tenKillsManager
        (fst (GM.loop (host := openHost) (frameAt 40000 escapeKey) tenKillsManager))
   /\ GM.state (fst (GM.loop (host := openHost) (frameAt 40000 escapeKey) tenKillsManager))
      = GM.paused
   /\ Forall (Forall notCombat)
        (snd (GM.run (host := openHost) (resumeAndFire 40000)
                (fst (GM.loop (host := openHost) (frameAt 40000 escapeKey) tenKillsManager))))
   /\ still tenKillsManager
        (fst (GM.run (host := openHost) (resumeAndFire 40000)
                (fst (GM.loop (host := openHost) (frameAt 40000 escapeKey) tenKillsManager))))
   /\ GM.state
        (fst (GM.run (host := openHost) (resumeAndFire 40000)
                (fst (GM.loop (host := openHost) (frameAt 40000 escapeKey) tenKillsManager))))
      = GM.matchEnded)
  /\
  (Forall notCombat (snd (GM.loop (host := sampleHost) (frameAt 305000 noKeys) startedManager))
   /\ frozen startedManager
        (fst (GM.loop (host := sampleHost) (frameAt 305000 noKeys) startedManager))
   /\ GM.state (fst (GM.loop (host := sampleHost) (frameAt 305000 noKeys) startedManager))
      = GM.matchEnded
   /\ GM.run (host := sampleHost) (resumeAndFire 305000)
        (fst (GM.loop (host := sampleHost) (frameAt 305000 noKeys) startedManager))
      = (fst (GM.loop (host := sampleHost) (frameAt 305000 noKeys) startedManager),
         map (fun _ => []) (resumeAndFire 305000)))
  /\
  (GM.state (fst (GM.loop (host := sampleHost) (frameAt 305000 escapeKey) startedManager))
   = GM.paused
   /\ Forall (Forall notCombat)
        (snd (GM.run (host := sampleHost) (resumeAndFire 305000)
                (fst (GM.loop (host := sampleHost) (frameAt 305000 escapeKey) startedManager))))
   /\ still startedManager
        (fst (GM.run (host := sampleHost) (resumeAndFire 305000)
                (fst (GM.loop (host := sampleHost) (frameAt 305000 escapeKey) startedManager))))
   /\ GM.state
        (fst (GM.run (host := sampleHost) (resumeAndFire 305000)
                (fst (GM.loop (host := sampleHost) (frameAt 305000 escapeKey) startedManager))))
      = GM.matchEnded).
Proof.
  split; [|split].
  - destruct (C7_win_check_comes_before_any_update
                openHost (frameAt 40000 escapeKey) tenKillsManager)
      as [A [B [C [_ D]]]].
    + vm_compute. reflexivity.
    + vm_compute. reflexivity.
    + left. vm_compute. discriminate.
    + destruct (D (resumeAndFire 40000)) as [D1 [D2 _]].
      * repeat constructor.
      * left. left. vm_compute. discriminate.
      * split; [exact A|]. split; [exact B|]. split; [exact (C eq_refl)|].
        split; [exact D1|]. split; [exact D2|]. vm_compute. reflexivity.
  - destruct (C7_win_check_comes_before_any_update
                sampleHost (frameAt 305000 noKeys) startedManager)
      as [A [B [_ [C _]]]].
    + reflexivity.
    + reflexivity.
    + right. right. vm_compute. discriminate.
    + destruct (C eq_refl) as [C1 C2].
      split; [exact A|]. split; [exact B|]. split; [exact C1|].
      apply C2. repeat constructor.
  - destruct (C7_win_check_comes_before_any_update
                sampleHost (frameAt 305000 escapeKey) startedManager)
      as [_ [_ [C [_ D]]]].
    + reflexivity.
    + reflexivity.
    + right. right. vm_compute. discriminate.
    + destruct (D (resumeAndFire 305000)) as [D1 [D2 _]].
      * repeat constructor.
      * right. repeat constructor; vm_compute; discriminate.
      * split; [exact (C eq_refl)|]. split; [exact D1|]. split; [exact D2|].
        vm_compute. reflexivity.
Defined.

(** C7 as stated fails when the pause key is down: the loop handles Esc before
    it looks at the win conditions, so a frame that starts in [playing] with
    ten kills on the player's side, or with the 300 seconds used up, ends in
    [paused], not [matchEnded]; and [unpause] then gives the player control
    back with the state [playing], although the win condition holds. *)
Lemma C7_pause_key_is_handled_before_the_win_check :
  GM.loopScheduled tenKillsManager = true
  /\ GM.state tenKillsManager = GM.playing
  /\ GM.playerKills tenKillsManager = 10%Z
  /\ GM.state (fst (GM.loop (host := openHost) (frameAt 40000 escapeKey) tenKillsManager))
     = GM.paused
  /\ GM.state
       (fst (GM.run (host := openHost) [GM.AnimationFrame (frameAt 40000 escapeKey);
                                        GM.Unpause true] tenKillsManager))
     = GM.playing
  /\ Player.canControl
       (GM.player
          (fst (GM.run (host := openHost) [GM.AnimationFrame (frameAt 40000 escapeKey);
                                           GM.Unpause true] tenKillsManager)))
     = true
  /\ GM.loopScheduled startedManager = true
  /\ GM.state startedManager = GM.playing
  /\ winConditionHolds (frameAt 305000 escapeKey) startedManager
  /\ GM.state (fst (GM.loop (host := sampleHost) (frameAt 305000 escapeKey) startedManager))
     = GM.paused
  /\ GM.paused <> GM.matchEnded.
Proof.
  repeat (apply conj; [vm_compute; reflexivity|]).
  apply conj; [right; right; vm_compute; discriminate|].
  repeat (apply conj; [vm_compute; reflexivity|]).
  discriminate.
Qed.

(** *** The bot's shot *)

Ltac silent_leaf :=
  let gm := fresh "gm" in
  let H := fresh "H" in
  intros gm H; try exact I; unfold notBotFire; discriminate.

Ltac start_leaf :=
  let gm := fresh "gm" in
  let H := fresh "H" in
  intros gm H; try exact I; unfold startedAt in *; simpl; exact H.

Lemma Forall_notBotFire (events : list GM.Event) :
  Forall notBotFire events -> ~ In GM.BotFireCall events.
Proof.
  intros H Hin. rewrite Forall_forall in H. now apply (H _ Hin).
Qed.

Lemma silent (a : GM.Action) (gm : GM.t) :
  preserves (fun _ => True) notBotFire a -> ~ In GM.BotFireCall (snd (a gm)).
Proof. intro H. apply Forall_notBotFire. now apply (H gm). Qed.

Lemma handleEscape_silent {host : Host} f :
  preserves (fun _ => True) notBotFire (GM.handleEscape f).
Proof. preserve silent_leaf. Qed.

Lemma respawningFrame_silent {host : Host} deltaTime f :
  preserves (fun _ => True) notBotFire (GM.respawningFrame deltaTime f).
Proof. preserve silent_leaf. Qed.

Lemma endMatch_silent : preserves (fun _ => True) notBotFire (GM.seq GM.endMatch GM.returnFromLoop).
Proof. preserve silent_leaf. Qed.

Lemma updateEntities_silent {host : Host} deltaTime f :
  preserves (fun _ => True) notBotFire (GM.updateEntities deltaTime f).
Proof. preserve silent_leaf. Qed.

Lemma playerShooting_silent {host : Host} f :
  preserves (fun _ => True) notBotFire (GM.playerShooting f).
Proof. preserve silent_leaf. Qed.

Lemma updateStats_silent : preserves (fun _ => True) notBotFire GM.updateStats.
Proof. preserve silent_leaf. Qed.

Lemma startGame_silent locked t1 t2 t3 :
  preserves (fun _ => True) notBotFire (GM.startGame locked t1 t2 t3).
Proof. preserve silent_leaf. Qed.

Lemma unpause_silent locked : preserves (fun _ => True) notBotFire (GM.unpause locked).
Proof. preserve silent_leaf. Qed.

Lemma restart_silent t1 t2 : preserves (fun _ => True) notBotFire (GM.restart t1 t2).
Proof. preserve silent_leaf. Qed.

Lemma botFire_first {host : Host} f gm : In GM.BotFireCall (snd (GM.botFire f gm)).
Proof. unfold GM.botFire, GM.botFireWith. rewrite seq_snd. simpl. now left. Qed.

Lemma botShooting_fires_iff {host : Host} f gm :
  In GM.BotFireCall (snd (GM.botShooting f gm)) <->
  GM.botMayShoot f gm = true /\ GM.botInRange gm = true.
Proof.
  unfold GM.botShooting, GM.botShootingWith, GM.when, GM.cond.
  destruct (GM.botMayShoot f gm); [|simpl; intuition discriminate].
  destruct (GM.botInRange gm); [|simpl; intuition discriminate].
  rewrite seq_snd. simpl. split; [tauto|]. intros _. apply botFire_first.
Qed.

Lemma grace_in_ms (z : Z) : 2 <= inject_Z z / 1000 <-> (2000 <= z)%Z.
Proof.
  split; intro H.
  - apply (Qmult_le_compat_r _ _ 1000) in H; [|discriminate].
    assert (E : inject_Z z / 1000 * 1000 == inject_Z z) by (field; discriminate).
    rewrite E in H. change (2 * 1000) with (inject_Z 2000) in H.
    now rewrite Zle_Qle.
  - apply Qle_shift_div_l; [reflexivity|].
    change (2 * 1000) with (inject_Z 2000). now rewrite <- Zle_Qle.
Qed.

Lemma botMayShoot_iff {host : Host} f gm :
  GM.botMayShoot f gm = true <->
  Weapon.canFire (GM.botCanFireNow f) (GM.botWeapon gm) = true
  /\ Health.isDead (Bot.health (GM.bot gm)) = false
  /\ Health.isDead (Player.health (GM.player gm)) = false
  /\ (GM.gameStartTime gm + 2000 <= GM.now f)%Z.
Proof.
  unfold GM.botMayShoot. cbv zeta.
  rewrite !andb_true_iff, !negb_true_iff, Qle_bool_iff, grace_in_ms.
  intuition lia.
Qed.

Lemma before_botShooting_started {host : Host} deltaTime f start :
  preserves (startedAt start) anyEvent
    (GM.seq (GM.updateMatchTimer f)
       (GM.seq (GM.updateEntities deltaTime f) (GM.playerShooting f))).
Proof. preserve start_leaf. Qed.

Lemma loop_started {host : Host} f start :
  preserves (startedAt start) anyEvent (GM.loop f).
Proof. preserve start_leaf. Qed.

Lemma unpause_started locked start :
  preserves (startedAt start) anyEvent (GM.unpause locked).
Proof. preserve start_leaf. Qed.

Lemma restart_started t1 t2 start :
  preserves (startedAt start) anyEvent (GM.restart t1 t2).
Proof. preserve start_leaf. Qed.

Lemma handleEscape_off {host : Host} f gm :
  InputManager.isKeyPressed (GM.input f) "escape" = false -> GM.handleEscape f gm = (gm, []).
Proof. intro H. unfold GM.handleEscape, GM.when, GM.cond. now rewrite H. Qed.

Lemma playingFrame_botFire {host : Host} deltaTime f gm :
  In GM.BotFireCall (snd (GM.playingFrame deltaTime f gm)) ->
  In GM.BotFireCall
     (snd (GM.botShooting f
             (fst (GM.seq (GM.updateMatchTimer f)
                     (GM.seq (GM.updateEntities deltaTime f) (GM.playerShooting f)) gm)))).
Proof.
  unfold GM.playingFrame. rewrite seq_snd, !seq_fst.
  set (gm1 := fst (GM.updateMatchTimer f gm)).
  cbn [GM.updateMatchTimer GM.modify snd app]. unfold GM.cond.
  destruct (_ <=? _)%Z; [intro H; now elim (silent _ _ endMatch_silent H)|].
  destruct (_ <=? _)%Z; [intro H; now elim (silent _ _ endMatch_silent H)|].
  destruct (Qle_bool _ _); [intro H; now elim (silent _ _ endMatch_silent H)|].
  rewrite !seq_snd, ?seq_fst. intro H.
  apply in_app_or in H. destruct H as [H|H];
    [now elim (silent _ _ (updateEntities_silent deltaTime f) H)|].
  apply in_app_or in H. destruct H as [H|H];
    [now elim (silent _ _ (playerShooting_silent f) H)|].
  apply in_app_or in H. destruct H as [H|H]; [exact H|].
  now elim (silent _ _ updateStats_silent H).
Qed.

Lemma loop_botFire {host : Host} f gm :
  In GM.BotFireCall (snd (GM.loop f gm)) ->
  GM.state gm = GM.playing
  /\ In GM.BotFireCall (snd (GM.botShooting f (atBotShooting f gm))).
Proof.
  unfold GM.loop, GM.cond. destruct (negb (GM.loopScheduled gm)); [simpl; tauto|].
  unfold GM.bind at 1. rewrite !seq_snd, ?seq_fst. cbn [GM.modify fst snd app].
  intro H. apply in_app_or in H. destruct H as [H|H];
    [now elim (silent _ _ (handleEscape_silent f) H)|].
  unfold GM.bind in H at 1.
  pose proof (handleEscape_state f (GM.set_lastTime (GM.currentTime f) gm)) as Hs.
  cbn [GM.state GM.set_lastTime] in Hs.
  destruct (InputManager.isKeyPressed (GM.input f) "escape") eqn:He.
  - exfalso. destruct (GM.state gm); rewrite Hs in H; simpl in H; try tauto.
    + revert H. apply silent, respawningFrame_silent.
  - rewrite (handleEscape_off f _ He) in *. cbn [fst GM.state GM.set_lastTime] in H.
    destruct (GM.state gm); simpl in H; try tauto.
    + split; [reflexivity|]. now apply playingFrame_botFire.
    + exfalso. revert H. apply silent, respawningFrame_silent.
Qed.

Lemma atBotShooting_started {host : Host} f gm :
  GM.gameStartTime (atBotShooting f gm) = GM.gameStartTime gm.
Proof.
  unfold atBotShooting. cbv zeta.
  now apply (before_botShooting_started _ f (GM.gameStartTime gm)
               (GM.set_lastTime (GM.currentTime f) gm)).
Qed.

Lemma step_silent {host : Host} op gm :
  In GM.BotFireCall (snd (GM.step op gm)) -> exists f, op = GM.AnimationFrame f.
Proof.
  destruct op as [locked t1 t2 t3|locked|t1 t2|f]; cbn [GM.step]; intro H.
  - now elim (silent _ _ (startGame_silent locked t1 t2 t3) H).
  - now elim (silent _ _ (unpause_silent locked) H).
  - now elim (silent _ _ (restart_silent t1 t2) H).
  - now exists f.
Qed.

Lemma step_started {host : Host} op start :
  notStartGame op -> preserves (startedAt start) anyEvent (GM.step op).
Proof.
  destruct op as [locked t1 t2 t3|locked|t1 t2|f]; cbn [GM.step]; intro H.
  - contradiction.
  - apply unpause_started.
  - apply restart_started.
  - apply loop_started.
Qed.

Lemma run_holds_fire {host : Host} start ops :
  Forall notStartGame ops ->
  forall gm, startedAt start gm -> Forall2 (holdsFire start) ops (snd (GM.run ops gm)).
Proof.
  induction 1 as [|op ops Hop _ IH]; intros gm Hgm; simpl; [constructor|].
  destruct (GM.step op gm) as [gm1 e] eqn:E.
  specialize (IH gm1).
  destruct (GM.run ops gm1) as [gm2 es]. simpl. constructor.
  - assert (Ee : e = snd (GM.step op gm)) by now rewrite E.
    destruct op as [locked t1 t2 t3|locked|t1 t2|f]; simpl;
      try (rewrite Ee; intro Hin; destruct (step_silent _ _ Hin); discriminate).
    intros Hnow Hin. rewrite Ee in Hin. simpl in Hin.
    apply loop_botFire in Hin. destruct Hin as [_ Hin].
    apply botShooting_fires_iff in Hin. destruct Hin as [Hin _].
    apply botMayShoot_iff in Hin. rewrite atBotShooting_started in Hin.
    unfold startedAt in Hgm. lia.
  - apply IH. replace gm1 with (fst (GM.step op gm)) by now rewrite E.
    now apply (step_started op start Hop gm).
Qed.

(** C9.  The loop calls [botWeapon.fire] exactly when, at that point of the
    frame, the bot's weapon can fire, neither the bot nor the player is dead,
    at least 2 seconds have passed since [startGame] set [gameStartTime], and
    the bot is at most 20 units from the player.  A frame that makes the call
    started in [playing], has its clock at least 2000 ms after [gameStartTime]
    and passed those guards where the loop tests them; no other operation
    makes the call; so from a successful [startGame] at clock [t3] until the
    next [startGame], no frame with clock below [t3 + 2000] makes it. *)
Theorem C9_bot_fires_only_after_the_grace_period_and_under_its_guards :
  (forall (host : Host) (f : GM.Frame) (gm : GM.t),
     In GM.BotFireCall (snd (GM.botShooting f gm)) <->
     (Weapon.canFire (GM.botCanFireNow f) (GM.botWeapon gm) = true
      /\ Health.isDead (Bot.health (GM.bot gm)) = false
      /\ Health.isDead (Player.health (GM.player gm)) = false
      /\ (GM.gameStartTime gm + 2000 <= GM.now f)%Z)
     /\ Vector3_length (Vector3.subtract (Bot.getPosition (GM.bot gm))
                                         (Player.getPosition (GM.player gm))) <= 20)
  /\
  (forall (host : Host) (f : GM.Frame) (gm : GM.t),
     In GM.BotFireCall (snd (GM.loop f gm)) ->
     GM.state gm = GM.playing
     /\ (GM.gameStartTime gm + 2000 <= GM.now f)%Z
     /\ In GM.BotFireCall (snd (GM.botShooting f (atBotShooting f gm))))
  /\
  (forall (host : Host) (op : GM.Op) (gm : GM.t),
     In GM.BotFireCall (snd (GM.step op gm)) -> exists f, op = GM.AnimationFrame f)
  /\
  (forall (host : Host) (gm : GM.t) (t1 t2 t3 : Z) (ops : list GM.Op),
     GM.state gm = GM.waiting ->
     Forall notStartGame ops ->
     Forall2 (holdsFire t3) ops
             (snd (GM.run ops (fst (GM.startGame true t1 t2 t3 gm))))).
Proof.
  split; [|split; [|split]].
  - intros host f gm. rewrite botShooting_fires_iff, botMayShoot_iff.
    unfold GM.botInRange. cbv zeta. now rewrite Qle_bool_iff.
  - intros host f gm H. destruct (loop_botFire f gm H) as [Hs Hin].
    split; [exact Hs|]. split; [|exact Hin].
    apply botShooting_fires_iff in Hin. destruct Hin as [Hin _].
    apply botMayShoot_iff in Hin. rewrite atBotShooting_started in Hin. tauto.
  - intros host op gm. apply step_silent.
  - intros host gm t1 t2 t3 ops Hs Hops. apply run_holds_fire; [exact Hops|].
    unfold startedAt, GM.startGame, GM.bind. now rewrite Hs.
Qed.

(** C9 on a frame in which the bot fires, three seconds into the match, and on
    a session whose frames all fall within the grace period. *)
Lemma C9_bot_fires_only_after_the_grace_period_and_under_its_guards_witness :
  (GM.state closeManager = GM.playing
   /\ (GM.gameStartTime closeManager + 2000 <= GM.now (frameAt 8000 noKeys))%Z
   /\ In GM.BotFireCall
         (snd (GM.botShooting (host := sampleHost) (frameAt 8000 noKeys)
                 (atBotShooting (host := sampleHost) (frameAt 8000 noKeys) closeManager))))
  /\ Forall2 (holdsFire 5000) sampleOps
             (snd (GM.run (host := sampleHost) sampleOps startedManager)).
Proof.
  destruct C9_bot_fires_only_after_the_grace_period_and_under_its_guards
    as [_ [Frame [_ Match]]].
  split.
  - apply (Frame sampleHost (frameAt 8000 noKeys) closeManager).
    vm_compute. tauto.
  - apply (Match sampleHost sampleManager 5000%Z 5000%Z 5000%Z sampleOps).
    + reflexivity.
    + repeat constructor.
Defined.

(** *** Statistics *)

Lemma accuracy_percentage (hit fired : Z) :
  countersOk 0 hit fired ->
  percentage (GM.accuracy hit fired) /\ (fired = 0%Z -> GM.accuracy hit fired == 0).
Proof.
  intros [H0 H1]. unfold GM.accuracy, percentage.
  destruct (0 <? fired)%Z eqn:E.
  - apply Z.ltb_lt in E.
    assert (Hf : 0 < inject_Z fired) by (change 0 with (inject_Z 0); now rewrite <- Zlt_Qlt).
    assert (Hh : 0 <= inject_Z hit) by (change 0 with (inject_Z 0); now rewrite <- Zle_Qle).
    assert (Hhf : inject_Z hit <= inject_Z fired) by (rewrite <- Zle_Qle; lia).
    assert (L : 0 <= inject_Z hit / inject_Z fired)
      by (apply Qle_shift_div_l; [exact Hf | lra]).
    assert (U : inject_Z hit / inject_Z fired <= 1)
      by (apply Qle_shift_div_r; [exact Hf | lra]).
    split; [split; lra | lia].
  - split; [split; lra | reflexivity].
Qed.

Lemma statsOk_landed (gm : GM.t) :
  (statsOk 1 0 gm -> statsOk 0 0 gm) /\ (statsOk 0 1 gm -> statsOk 0 0 gm).
Proof. unfold statsOk, countersOk. split; intuition lia. Qed.

Ltac stats_leaf :=
  let gm := fresh "gm" in
  let H := fresh "H" in
  intros gm H; try exact I;
  unfold statsOk, countersOk, reportsPercentages in *; simpl in *;
  try tauto; intuition lia.

Lemma botTakeDamage_stats amount isHeadshot dp db :
  preserves (statsOk dp db) reportsPercentages (GM.botTakeDamage amount isHeadshot).
Proof. preserve stats_leaf. Qed.

Lemma playerTakeDamage_stats amount isHeadshot deathNow dp db :
  preserves (statsOk dp db) reportsPercentages
            (GM.playerTakeDamage amount isHeadshot deathNow).
Proof. preserve stats_leaf. Qed.

Lemma updateStats_stats : preserves (statsOk 0 0) reportsPercentages GM.updateStats.
Proof.
  unfold GM.updateStats. apply preserves_seq; [|apply preserves_seq].
  - apply preserves_modify. intros gm H. unfold statsOk in *. simpl.
    destruct H as [Hp [Hb [_ [Ab [_ Zb]]]]].
    destruct (accuracy_percentage _ _ Hp). tauto.
  - apply preserves_modify. intros gm H. unfold statsOk in *. simpl.
    destruct H as [Hp [Hb [Ap [_ [Zp _]]]]].
    destruct (accuracy_percentage _ _ Hb). tauto.
  - preserve stats_leaf.
Qed.

Lemma playerFire_stats {host : Host} f :
  triple (statsOk 1 0) (GM.playerFire f) (statsOk 0 0) reportsPercentages.
Proof.
  unfold GM.playerFire, GM.playerFireWith.
  apply triple_seq with (M := statsOk 1 0); [apply preserves_emit; stats_leaf|].
  apply triple_bind. intro r.
  apply triple_weaken with (P := statsOk 1 0) (Q := statsOk 0 0); [tauto | auto |].
  apply triple_seq with (M := statsOk 1 0); [apply preserves_modify; stats_leaf|].
  destruct (snd r) as [| | |damage isHeadshot];
    try (apply triple_skip; intro gm; apply statsOk_landed).
  apply triple_seq with (M := statsOk 1 0); [apply botTakeDamage_stats|].
  unfold GM.playerOnHit.
  apply triple_seq with (M := statsOk 1 0); [preserve stats_leaf|].
  apply triple_seq with (M := statsOk 0 0); [apply triple_modify; stats_leaf|].
  preserve stats_leaf.
Qed.

Lemma botFire_stats {host : Host} f :
  triple (statsOk 0 1) (GM.botFire f) (statsOk 0 0) reportsPercentages.
Proof.
  unfold GM.botFire, GM.botFireWith.
  apply triple_seq with (M := statsOk 0 1); [apply preserves_emit; stats_leaf|].
  apply triple_bind. intro r.
  apply triple_weaken with (P := statsOk 0 1) (Q := statsOk 0 0); [tauto | auto |].
  apply triple_seq with (M := statsOk 0 1); [apply preserves_modify; stats_leaf|].
  destruct (snd r) as [| | |damage isHeadshot];
    try (apply triple_skip; intro gm; apply statsOk_landed).
  apply triple_seq with (M := statsOk 0 1); [apply playerTakeDamage_stats|].
  unfold GM.botOnHit. apply triple_modify; stats_leaf.
Qed.

Lemma playerShooting_stats {host : Host} f :
  preserves (statsOk 0 0) reportsPercentages (GM.playerShooting f).
Proof.
  unfold GM.playerShooting, GM.playerShootingWith. apply preserves_when.
  apply triple_seq with (M := statsOk 1 0); [apply triple_modify; stats_leaf|].
  apply triple_seq with (M := statsOk 1 0); [apply preserves_modify; stats_leaf|].
  apply playerFire_stats.
Qed.

Lemma botShooting_stats {host : Host} f :
  preserves (statsOk 0 0) reportsPercentages (GM.botShooting f).
Proof.
  unfold GM.botShooting, GM.botShootingWith. apply preserves_when, preserves_when.
  apply triple_seq with (M := statsOk 0 1); [apply triple_modify; stats_leaf|].
  apply botFire_stats.
Qed.

(** *** One shot, one hit at most *)

Ltac counters_leaf :=
  let gm := fresh "gm" in
  let H := fresh "H" in
  intros gm H; try exact I;
  unfold oneShotAtMost, playerCounters, botCounters, anyEvent in *; simpl in *;
  try tauto; intuition lia.

Lemma botTakeDamage_playerCounters amount isHeadshot fired hit :
  preserves (playerCounters fired hit) anyEvent (GM.botTakeDamage amount isHeadshot).
Proof. preserve counters_leaf. Qed.

Lemma playerTakeDamage_botCounters amount isHeadshot deathNow fired hit :
  preserves (botCounters fired hit) anyEvent (GM.playerTakeDamage amount isHeadshot deathNow).
Proof. preserve counters_leaf. Qed.

Lemma playerShooting_counts {host : Host} f fired hit :
  triple (playerCounters fired hit) (GM.playerShooting f)
         (oneShotAtMost playerCounters fired hit) anyEvent.
Proof.
  unfold GM.playerShooting, GM.playerShootingWith, GM.when. apply triple_cond; [|apply triple_skip; counters_leaf].
  apply triple_weaken with (P := playerCounters fired hit)
                           (Q := oneShotAtMost playerCounters fired hit); [tauto | auto |].
  apply triple_seq with (M := playerCounters (fired + 1) hit);
    [apply triple_modify; counters_leaf|].
  apply triple_seq with (M := playerCounters (fired + 1) hit);
    [apply triple_modify; counters_leaf|].
  unfold GM.playerFire, GM.playerFireWith.
  apply triple_seq with (M := playerCounters (fired + 1) hit);
    [apply triple_emit; counters_leaf|].
  apply triple_bind. intro r.
  apply triple_weaken with (P := playerCounters (fired + 1) hit)
                           (Q := oneShotAtMost playerCounters fired hit); [tauto | auto |].
  apply triple_seq with (M := playerCounters (fired + 1) hit);
    [apply triple_modify; counters_leaf|].
  destruct (snd r) as [| | |damage isHeadshot];
    try (apply triple_skip; counters_leaf).
  apply triple_seq with (M := playerCounters (fired + 1) hit);
    [apply botTakeDamage_playerCounters|].
  unfold GM.playerOnHit.
  apply triple_seq with (M := playerCounters (fired + 1) hit); [preserve counters_leaf|].
  apply triple_seq with (M := playerCounters (fired + 1) (hit + 1));
    [apply triple_modify; counters_leaf|].
  apply triple_seq with (M := playerCounters (fired + 1) (hit + 1));
    [apply triple_modify; counters_leaf|].
  apply triple_emit; counters_leaf.
Qed.

Lemma botShooting_counts {host : Host} f fired hit :
  triple (botCounters fired hit) (GM.botShooting f)
         (oneShotAtMost botCounters fired hit) anyEvent.
Proof.
  unfold GM.botShooting, GM.botShootingWith, GM.when.
  apply triple_cond; [|apply triple_skip; counters_leaf].
  apply triple_cond; [|apply triple_skip; counters_leaf].
  apply triple_weaken with (P := botCounters fired hit)
                           (Q := oneShotAtMost botCounters fired hit); [tauto | auto |].
  apply triple_seq with (M := botCounters (fired + 1) hit);
    [apply triple_modify; counters_leaf|].
  unfold GM.botFire, GM.botFireWith.
  apply triple_seq with (M := botCounters (fired + 1) hit);
    [apply triple_emit; counters_leaf|].
  apply triple_bind. intro r.
  apply triple_weaken with (P := botCounters (fired + 1) hit)
                           (Q := oneShotAtMost botCounters fired hit); [tauto | auto |].
  apply triple_seq with (M := botCounters (fired + 1) hit);
    [apply triple_modify; counters_leaf|].
  destruct (snd r) as [| | |damage isHeadshot];
    try (apply triple_skip; counters_leaf).
  apply triple_seq with (M := botCounters (fired + 1) hit);
    [apply playerTakeDamage_botCounters|].
  unfold GM.botOnHit. apply triple_modify; counters_leaf.
Qed.

Ltac stats_preserve :=
  repeat first
    [ apply playerShooting_stats | apply botShooting_stats | apply updateStats_stats
    | preserve_step stats_leaf ].

Lemma loop_stats {host : Host} f :
  preserves (statsOk 0 0) reportsPercentages (GM.loop f).
Proof. stats_preserve. Qed.

Lemma startGame_stats locked t1 t2 t3 :
  preserves (statsOk 0 0) reportsPercentages (GM.startGame locked t1 t2 t3).
Proof. preserve stats_leaf. Qed.

Lemma unpause_stats locked :
  preserves (statsOk 0 0) reportsPercentages (GM.unpause locked).
Proof. preserve stats_leaf. Qed.

Lemma zero_percentage : percentage 0.
Proof. unfold percentage. split; lra. Qed.

Lemma restart_stats t1 t2 gm :
  statsOk 0 0 (fst (GM.restart t1 t2 gm))
  /\ Forall reportsPercentages (snd (GM.restart t1 t2 gm)).
Proof.
  split.
  - unfold statsOk, countersOk. simpl.
    repeat split; try lia; try apply zero_percentage; reflexivity.
  - simpl. repeat constructor; apply zero_percentage.
Qed.

Lemma step_stats {host : Host} op : preserves (statsOk 0 0) reportsPercentages (GM.step op).
Proof.
  destruct op as [locked t1 t2 t3|locked|t1 t2|f]; cbn [GM.step].
  - apply startGame_stats.
  - apply unpause_stats.
  - intros gm _. apply restart_stats.
  - apply loop_stats.
Qed.

Lemma run_stats {host : Host} ops :
  forall gm, statsOk 0 0 gm ->
  statsOk 0 0 (fst (GM.run ops gm))
  /\ Forall (Forall reportsPercentages) (snd (GM.run ops gm)).
Proof.
  induction ops as [|op ops IH]; intros gm Hgm; simpl; [split; [exact Hgm|constructor]|].
  destruct (step_stats op gm Hgm) as [H1 E1].
  destruct (GM.step op gm) as [gm1 e]. simpl in H1, E1.
  destruct (IH gm1 H1) as [H2 E2].
  destruct (GM.run ops gm1) as [gm2 es]. simpl in *. split; [exact H2|now constructor].
Qed.

Lemma new_stats t1 t2 t0 playerHead playerBody botMesh botHead :
  statsOk 0 0 (GM.new t1 t2 t0 playerHead playerBody botMesh botHead).
Proof.
  unfold statsOk, countersOk. simpl.
  repeat split; try lia; try apply zero_percentage; reflexivity.
Qed.

Lemma seq_pair (a b : GM.Action) gm :
  GM.seq a b gm = (fst (b (fst (a gm))), snd (a gm) ++ snd (b (fst (a gm)))).
Proof. unfold GM.seq. destruct (a gm) as [g1 e1]. cbn [fst snd]. now destruct (b g1). Qed.

Lemma playerShootingWith_order {host : Host} onHit f gm :
  countsThenCalls playerCounters (GM.playerShotsFired gm) (GM.playerShotsHit gm)
                  GM.PlayerFireCall onHit gm (GM.playerShootingWith onHit f gm).
Proof.
  unfold countsThenCalls, GM.playerShootingWith, GM.when, GM.cond.
  destruct (_ && _); [right|left; reflexivity].
  rewrite !seq_pair. cbn [GM.modify fst snd app].
  set (gm1 := GM.set_stats _ _).
  unfold GM.playerFireWith. rewrite seq_pair. cbn [GM.emit fst snd app].
  unfold GM.bind. cbv beta.
  destruct (Weapon.fire _ _ _ _ _ _) as [w o]. cbn [fst snd].
  assert (C : playerCounters (GM.playerShotsFired gm + 1) (GM.playerShotsHit gm)
                             (GM.set_playerWeapon w gm1)) by (split; reflexivity).
  destruct o as [| | |damage isHeadshot]; rewrite !seq_pair; cbn [GM.modify GM.skip fst snd app].
  4: { exists (fst (GM.botTakeDamage damage isHeadshot (GM.set_playerWeapon w gm1))). split.
       - apply (botTakeDamage_playerCounters damage isHeadshot _ _ _ C).
       - right. exists isHeadshot, (snd (GM.botTakeDamage damage isHeadshot
                                          (GM.set_playerWeapon w gm1))).
         reflexivity. }
  all: exists (GM.set_playerWeapon w gm1); split; [exact C|left; reflexivity].
Qed.

Lemma botShootingWith_order {host : Host} onHit f gm :
  countsThenCalls botCounters (GM.botShotsFired gm) (GM.botShotsHit gm)
                  GM.BotFireCall onHit gm (GM.botShootingWith onHit f gm).
Proof.
  unfold countsThenCalls, GM.botShootingWith, GM.when, GM.cond.
  destruct (GM.botMayShoot f gm); [|left; reflexivity].
  destruct (GM.botInRange gm); [right|left; reflexivity].
  rewrite !seq_pair. cbn [GM.modify fst snd app].
  set (gm1 := GM.set_botShotsFired _ _).
  unfold GM.botFireWith. rewrite seq_pair. cbn [GM.emit fst snd app].
  unfold GM.bind. cbv beta.
  destruct (Weapon.fire _ _ _ _ _ _) as [w o]. cbn [fst snd].
  assert (C : botCounters (GM.botShotsFired gm + 1) (GM.botShotsHit gm)
                          (GM.set_botWeapon w gm1)) by (split; reflexivity).
  destruct o as [| | |damage isHeadshot]; rewrite !seq_pair; cbn [GM.modify GM.skip fst snd app].
  4: { exists (fst (GM.playerTakeDamage damage isHeadshot (GM.deathNow f)
                      (GM.set_botWeapon w gm1))). split.
       - apply (playerTakeDamage_botCounters damage isHeadshot _ _ _ _ C).
       - right. exists isHeadshot, (snd (GM.playerTakeDamage damage isHeadshot (GM.deathNow f)
                                          (GM.set_botWeapon w gm1))).
         reflexivity. }
  all: exists (GM.set_botWeapon w gm1); split; [exact C|left; reflexivity].
Qed.

Lemma playerOnHit_counts {host : Host} isHeadshot gm :
  playerCounters (GM.playerShotsFired gm) (GM.playerShotsHit gm + 1)
                 (fst (GM.playerOnHit isHeadshot gm)).
Proof. destruct isHeadshot; split; reflexivity. Qed.

Lemma botOnHit_counts gm :
  botCounters (GM.botShotsFired gm) (GM.botShotsHit gm + 1) (fst (GM.botOnHit gm)).
Proof. split; reflexivity. Qed.

Lemma accuracyChecked_accuracy (hit fired : Z) :
  accuracyChecked hit fired = Some (GM.accuracy hit fired).
Proof.
  unfold accuracyChecked, GM.accuracy, divide.
  destruct (0 <? fired)%Z eqn:E; [|reflexivity].
  apply Z.ltb_lt in E.
  destruct (Qeq_bool (inject_Z fired) 0) eqn:Z0; [|reflexivity].
  apply Qeq_bool_iff in Z0. unfold Qeq in Z0. simpl in Z0. lia.
Qed.

(** C10.  After any sequence of operations on a manager fresh from its
    constructor, each side's hit count is between 0 and its shots-fired
    count, both accuracies stored in the statistics lie in [0, 100], the
    accuracy of a side that has fired no shot is 0, and every statistics
    snapshot handed to the callbacks on the way had both accuracies in
    [0, 100]; the accuracy computed from zero shots is 0, and the division in
    the accuracy expression is never a division by 0.  The shooting step of
    either side counts at most one shot, and at most one hit for a shot it
    counted.  Within the step the shot is counted first: whatever callback
    [fire] is handed, the step runs it at most once, as the last thing it
    does, and the manager the callback finds has the shot counted and the hit
    not yet, so one hit less than shots when the step began with no more hits
    than shots; the callbacks of the loop then add one to the hits. *)
Theorem C10_hits_never_exceed_shots :
  forall (host : Host) (t1 t2 : Z) (t0 : Q) (playerHead playerBody botMesh botHead : nat)
         (ops : list GM.Op),
    (0 <= GM.playerShotsHit
            (fst (GM.run ops (GM.new t1 t2 t0 playerHead playerBody botMesh botHead)))
       <= GM.playerShotsFired
            (fst (GM.run ops (GM.new t1 t2 t0 playerHead playerBody botMesh botHead))))%Z
    /\ (0 <= GM.botShotsHit
               (fst (GM.run ops (GM.new t1 t2 t0 playerHead playerBody botMesh botHead)))
          <= GM.botShotsFired
               (fst (GM.run ops (GM.new t1 t2 t0 playerHead playerBody botMesh botHead))))%Z
    /\ percentage (GameStats.playerAccuracy (GM.stats
         (fst (GM.run ops (GM.new t1 t2 t0 playerHead playerBody botMesh botHead)))))
    /\ percentage (GameStats.botAccuracy (GM.stats
         (fst (GM.run ops (GM.new t1 t2 t0 playerHead playerBody botMesh botHead)))))
    /\ (GM.playerShotsFired
          (fst (GM.run ops (GM.new t1 t2 t0 playerHead playerBody botMesh botHead))) = 0%Z ->
        GameStats.playerAccuracy (GM.stats
          (fst (GM.run ops (GM.new t1 t2 t0 playerHead playerBody botMesh botHead)))) == 0)
    /\ (GM.botShotsFired
          (fst (GM.run ops (GM.new t1 t2 t0 playerHead playerBody botMesh botHead))) = 0%Z ->
        GameStats.botAccuracy (GM.stats
          (fst (GM.run ops (GM.new t1 t2 t0 playerHead playerBody botMesh botHead)))) == 0)
    /\ Forall (Forall reportsPercentages)
         (snd (GM.run ops (GM.new t1 t2 t0 playerHead playerBody botMesh botHead)))
    /\ (forall hit, GM.accuracy hit 0 = 0)
    /\ (forall f gm,
          oneShotAtMost playerCounters (GM.playerShotsFired gm) (GM.playerShotsHit gm)
                        (fst (GM.playerShooting f gm)))
    /\ (forall f gm,
          oneShotAtMost botCounters (GM.botShotsFired gm) (GM.botShotsHit gm)
                        (fst (GM.botShooting f gm)))
    /\ (forall onHit f gm,
          countsThenCalls playerCounters (GM.playerShotsFired gm) (GM.playerShotsHit gm)
                          GM.PlayerFireCall onHit gm (GM.playerShootingWith onHit f gm))
    /\ (forall onHit f gm,
          countsThenCalls botCounters (GM.botShotsFired gm) (GM.botShotsHit gm)
                          GM.BotFireCall onHit gm (GM.botShootingWith onHit f gm))
    /\ (forall f, GM.playerShooting f = GM.playerShootingWith GM.playerOnHit f)
    /\ (forall f, GM.botShooting f = GM.botShootingWith (fun _ => GM.botOnHit) f)
    /\ (forall isHeadshot gm,
          playerCounters (GM.playerShotsFired gm) (GM.playerShotsHit gm + 1)
                         (fst (GM.playerOnHit isHeadshot gm)))
    /\ (forall gm,
          botCounters (GM.botShotsFired gm) (GM.botShotsHit gm + 1) (fst (GM.botOnHit gm)))
    /\ (forall hit fired, accuracyChecked hit fired = Some (GM.accuracy hit fired)).
Proof.
  intros.
  destruct (run_stats ops _ (new_stats t1 t2 t0 playerHead playerBody botMesh botHead))
    as [H E].
  destruct H as [[Hp0 Hp] [[Hb0 Hb] [Ap [Ab [Zp Zb]]]]].
  split; [lia|]. split; [lia|]. split; [exact Ap|]. split; [exact Ab|].
  split; [exact Zp|]. split; [exact Zb|]. split; [exact E|]. split; [reflexivity|].
  split; [intros f gm; now apply (playerShooting_counts f _ _ gm)|].
  split; [intros f gm; now apply (botShooting_counts f _ _ gm)|].
  split; [intros onHit f gm; apply playerShootingWith_order|].
  split; [intros onHit f gm; apply botShootingWith_order|].
  split; [reflexivity|]. split; [reflexivity|].
  split; [intros isHeadshot gm; apply playerOnHit_counts|].
  split; [intros gm; apply botOnHit_counts|].
  apply accuracyChecked_accuracy.
Qed.

(** C10 on a match played from the constructor on, in which each side fires
    twice and hits once. *)
Lemma C10_hits_never_exceed_shots_witness :
  playerCounters 2 1 (fst (GM.run (host := openHost) duel sampleManager))
  /\ botCounters 2 1 (fst (GM.run (host := openHost) duel sampleManager))
  /\ (0 <= GM.playerShotsHit (fst (GM.run (host := openHost) duel sampleManager))
         <= GM.playerShotsFired (fst (GM.run (host := openHost) duel sampleManager)))%Z
  /\ (0 <= GM.botShotsHit (fst (GM.run (host := openHost) duel sampleManager))
         <= GM.botShotsFired (fst (GM.run (host := openHost) duel sampleManager)))%Z
  /\ percentage (GameStats.playerAccuracy
                   (GM.stats (fst (GM.run (host := openHost) duel sampleManager))))
  /\ percentage (GameStats.botAccuracy
                   (GM.stats (fst (GM.run (host := openHost) duel sampleManager))))
  /\ GameStats.playerAccuracy (GM.stats (fst (GM.run (host := openHost) duel sampleManager)))
     == 50
  /\ GameStats.botAccuracy (GM.stats (fst (GM.run (host := openHost) duel sampleManager)))
     == 50
  /\ Forall (Forall reportsPercentages) (snd (GM.run (host := openHost) duel sampleManager)).
Proof.
  pose proof (C10_hits_never_exceed_shots openHost 1000%Z 1000%Z 0 1%nat 2%nat 3%nat 4%nat duel)
    as H.
  change (GM.new 1000 1000 0 1 2 3 4) with sampleManager in H.
  destruct H as [Hp [Hb [Ap [Ab [_ [_ [E _]]]]]]].
  split; [vm_compute; split; reflexivity|].
  split; [vm_compute; split; reflexivity|].
  split; [exact Hp|]. split; [exact Hb|]. split; [exact Ap|]. split; [exact Ab|].
  split; [vm_compute; reflexivity|]. split; [vm_compute; reflexivity|].
  exact E.
Defined.

(** * Further properties of the code *)

(** ** Health *)

Lemma takeDamage_alive (h : Health.t) (amount : Q) (isHeadshot : bool) :
  0 < Health.health h ->
  Health.takeDamage amount isHeadshot h
  = (Health.mk (Math_max 0 (Health.health h - amount)) (Health.maxHealth h),
     Health.HealthChange (Math_max 0 (Health.health h - amount))
     :: (if Qle_bool (Math_max 0 (Health.health h - amount)) 0 then [Health.Death] else [])).
Proof.
  intro H. unfold Health.takeDamage. apply Qle_bool_false in H. now rewrite H.
Qed.

(** X1.  A live [Health] hit for less than it has loses exactly that amount,
    stays alive and tells its callbacks the new value once; hit for at least
    what it has, it ends at 0, never below, reports that value and then fires
    the death callbacks. *)
Theorem X1_takeDamage_subtracts_or_kills :
  forall (h : Health.t) (amount : Q) (isHeadshot : bool),
    0 < Health.health h ->
    (amount < Health.health h ->
     Health.takeDamage amount isHeadshot h
     = (Health.mk (Health.health h - amount) (Health.maxHealth h),
        [Health.HealthChange (Health.health h - amount)])
     /\ Health.isDead (fst (Health.takeDamage amount isHeadshot h)) = false)
    /\ (Health.health h <= amount ->
        Health.health (fst (Health.takeDamage amount isHeadshot h)) == 0
        /\ Health.maxHealth (fst (Health.takeDamage amount isHeadshot h)) = Health.maxHealth h
        /\ snd (Health.takeDamage amount isHeadshot h)
           = [Health.HealthChange (Health.health (fst (Health.takeDamage amount isHeadshot h)));
              Health.Death]
        /\ Health.isDead (fst (Health.takeDamage amount isHeadshot h)) = true).
Proof.
  intros h amount isHeadshot Hh. rewrite (takeDamage_alive _ _ _ Hh). cbn [fst snd].
  destruct (Math_max_spec 0 (Health.health h - amount)) as [[L E]|[L E]]; rewrite E;
    split; intro Ha.
  - assert (D : Qle_bool (Health.health h - amount) 0 = false) by (apply Qle_bool_false; lra).
    rewrite D. split; [reflexivity | exact D].
  - assert (D : Qle_bool (Health.health h - amount) 0 = true) by (apply Qle_bool_iff; lra).
    rewrite D. cbn [Health.health Health.maxHealth]. repeat split; try exact D. lra.
  - lra.
  - repeat split.
Qed.

(** X1 on a body shot and on a killing blow. *)
Lemma X1_takeDamage_subtracts_or_kills_witness :
  Health.takeDamage 20 false (Health.new 100)
  = (Health.mk (100 - 20) 100, [Health.HealthChange (100 - 20)])
  /\ Health.isDead (fst (Health.takeDamage 30 true (Health.mk 20 100))) = true.
Proof.
  split.
  - apply (X1_takeDamage_subtracts_or_kills (Health.new 100) 20 false); reflexivity.
  - apply (X1_takeDamage_subtracts_or_kills (Health.mk 20 100) 30 true).
    + reflexivity.
    + discriminate.
Defined.

Lemma takeDamage_health (h : Health.t) (amount : Q) (isHeadshot : bool) :
  Health.health (fst (Health.takeDamage amount isHeadshot h))
  = if Qle_bool (Health.health h) 0 then Health.health h
    else Math_max 0 (Health.health h - amount).
Proof. unfold Health.takeDamage. now destruct (Qle_bool (Health.health h) 0). Qed.

Lemma heldExactly_intro (q : Q) (n : Z) :
  q == inject_Z n -> (Z.abs n <= 9007199254740992)%Z -> heldExactly q.
Proof. intros E B. exists n. split; [exact E|exact B]. Qed.

(** X2.  Damage in whole numbers adds up.  On a [Health] whose value is a
    whole number, two hits of whole, non-negative amounts (as the game's 20
    and 30 on 100 are) leave the same health as one hit of their sum.  The
    three numbers are within 2^51, and every difference and sum the calls
    compute is then a whole number within 2^53, which the doubles of the
    source hold exactly: so it is for such amounts that the source computes
    what the model does. *)
Theorem X2_damage_adds_up :
  forall (h : Health.t) (a b : Q) (hs1 hs2 hs : bool),
    safeWhole (Health.health h) -> safeWhole a -> safeWhole b ->
    0 <= a -> 0 <= b ->
    Health.health (fst (Health.takeDamage b hs2 (fst (Health.takeDamage a hs1 h))))
    == Health.health (fst (Health.takeDamage (a + b) hs h))
    /\ heldExactly (Health.health h - a)
    /\ heldExactly (Health.health (fst (Health.takeDamage a hs1 h)) - b)
    /\ heldExactly (a + b)
    /\ heldExactly (Health.health h - (a + b)).
Proof.
  intros h a b hs1 hs2 hs [nh [Eh Bh]] [na [Ea Ba]] [nb [Eb Bb]] Ha Hb.
  change (2 ^ 51)%Z with 2251799813685248%Z in *.
  split.
  - clear Eh Ea Eb. rewrite !takeDamage_health.
    destruct (Qle_bool (Health.health h) 0) eqn:D.
    + rewrite D. reflexivity.
    + apply Qle_bool_false in D.
      destruct (Math_max_spec 0 (Health.health h - a)) as [[L1 E1]|[L1 E1]]; rewrite E1;
        destruct (Math_max_spec 0 (Health.health h - (a + b))) as [[L2 E2]|[L2 E2]];
        rewrite E2.
      * destruct (Qle_bool (Health.health h - a) 0) eqn:D1.
        -- apply Qle_bool_iff in D1. lra.
        -- destruct (Math_max_spec 0 (Health.health h - a - b)) as [[L3 E3]|[L3 E3]];
             rewrite E3; lra.
      * destruct (Qle_bool (Health.health h - a) 0) eqn:D1.
        -- apply Qle_bool_iff in D1. lra.
        -- destruct (Math_max_spec 0 (Health.health h - a - b)) as [[L3 E3]|[L3 E3]];
             rewrite E3; lra.
      * lra.
      * reflexivity.
  - rewrite takeDamage_health, Eh, Ea, Eb.
    split; [|split; [|split]].
    + apply (heldExactly_intro _ (nh - na)); [|lia].
      unfold Z.sub. rewrite inject_Z_plus, inject_Z_opp. reflexivity.
    + destruct (Qle_bool (inject_Z nh) 0).
      * apply (heldExactly_intro _ (nh - nb)); [|lia].
        unfold Z.sub. rewrite inject_Z_plus, inject_Z_opp. reflexivity.
      * destruct (Math_max_spec 0 (inject_Z nh - inject_Z na)) as [[L E]|[L E]]; rewrite E.
        -- apply (heldExactly_intro _ (nh - na - nb)); [|lia].
           unfold Z.sub. rewrite !inject_Z_plus, !inject_Z_opp. reflexivity.
        -- apply (heldExactly_intro _ (- nb)); [|lia].
           rewrite inject_Z_opp. ring.
    + apply (heldExactly_intro _ (na + nb)); [|lia].
      rewrite inject_Z_plus. reflexivity.
    + apply (heldExactly_intro _ (nh - (na + nb))); [|lia].
      unfold Z.sub. rewrite inject_Z_plus, inject_Z_opp, inject_Z_plus. reflexivity.
Qed.

(** X2 on a body shot followed by a headshot on a fresh instance. *)
Lemma X2_damage_adds_up_witness :
  Health.health
    (fst (Health.takeDamage GAME_CONSTANTS.HEADSHOT_DAMAGE true
            (fst (Health.takeDamage GAME_CONSTANTS.BODY_DAMAGE false Health.create))))
  == Health.health
       (fst (Health.takeDamage (GAME_CONSTANTS.BODY_DAMAGE + GAME_CONSTANTS.HEADSHOT_DAMAGE)
                               false Health.create))
  /\ Health.health
       (fst (Health.takeDamage (GAME_CONSTANTS.BODY_DAMAGE + GAME_CONSTANTS.HEADSHOT_DAMAGE)
                               false Health.create)) == 50.
Proof.
  split; [|reflexivity].
  apply (X2_damage_adds_up Health.create GAME_CONSTANTS.BODY_DAMAGE
           GAME_CONSTANTS.HEADSHOT_DAMAGE false true false).
  - exists 100%Z. split; [reflexivity | vm_compute; discriminate].
  - exists 20%Z. split; [reflexivity | vm_compute; discriminate].
  - exists 30%Z. split; [reflexivity | vm_compute; discriminate].
  - discriminate.
  - discriminate.
Defined.

Lemma calls_maxHealth (cs : list Health.Call) (h : Health.t) :
  Health.maxHealth (fst (Health.calls cs h)) = Health.maxHealth h.
Proof.
  revert h. induction cs as [|c cs IH]; intro h; simpl; [reflexivity|].
  destruct (Health.call c h) as [h1 e1] eqn:E.
  specialize (IH h1). destruct (Health.calls cs h1) as [h2 e2]. simpl in *.
  rewrite IH. replace h1 with (fst (Health.call c h)) by now rewrite E.
  destruct c as [amount isHeadshot|]; simpl; [apply takeDamage_maxHealth | reflexivity].
Qed.

(** X3.  Whatever was done to a [Health], [reset] gives back the instance its
    constructor made, tells the callbacks the maximum, and fires no death
    callback; the instance is then alive exactly when its maximum is
    positive. *)
Theorem X3_reset_restores_a_fresh_health :
  forall (maxHealth : Q) (cs : list Health.Call),
    Health.reset (fst (Health.calls cs (Health.new maxHealth)))
    = (Health.new maxHealth, [Health.HealthChange maxHealth])
    /\ (Health.isDead (Health.new maxHealth) = false <-> 0 < maxHealth).
Proof.
  intros m cs. split.
  - unfold Health.reset. cbn [Health.health]. rewrite calls_maxHealth. reflexivity.
  - unfold Health.isDead. simpl. apply Qle_bool_false.
Qed.

(** ** Weapon *)

Lemma resolveHit_elsewhere {host : Host} origin hitDistance m d :
  notHeadOf m d ->
  Mesh.name m <> "bot"%string -> Mesh.name m <> "playerBody"%string ->
  Weapon.resolveHit origin hitDistance m d = None.
Proof.
  intros Hn Hb Hp. unfold Weapon.resolveHit.
  assert (Hhead : (match Weapon.getHeadCollider d with
                   | Some (Some headCollider) =>
                     if Mesh.same m headCollider then (true, true) else (false, false)
                   | _ => (false, false)
                   end) = (false, false)).
  { destruct (Weapon.getHeadCollider d) as [[hc|]|] eqn:E; try reflexivity.
    now rewrite (Hn hc E). }
  rewrite Hhead. cbv beta iota zeta. cbn [negb andb].
  apply String.eqb_neq in Hb, Hp. now rewrite Hb, Hp.
Qed.

Lemma resolveHit_out_of_tolerance {host : Host} origin hitDistance m d :
  notHeadOf m d ->
  absDiffLt hitDistance (Distance origin (Weapon.getPosition d)) 2.0 = false ->
  absDiffLt hitDistance (Distance origin (Weapon.getPosition d)) 1.5 = false ->
  Weapon.resolveHit origin hitDistance m d = None.
Proof.
  intros Hn H2 H1. unfold Weapon.resolveHit.
  assert (Hhead : (match Weapon.getHeadCollider d with
                   | Some (Some headCollider) =>
                     if Mesh.same m headCollider then (true, true) else (false, false)
                   | _ => (false, false)
                   end) = (false, false)).
  { destruct (Weapon.getHeadCollider d) as [[hc|]|] eqn:E; try reflexivity.
    now rewrite (Hn hc E). }
  rewrite Hhead. cbv beta iota zeta. cbn [negb andb]. rewrite H2, H1.
  destruct (String.eqb (Mesh.name m) "bot"); cbn [negb andb];
    now destruct (String.eqb (Mesh.name m) "playerBody").
Qed.

Lemma fire_on_mesh_full {host : Host} nowCanFire nowStamp origin p m d w :
  Weapon.canFire nowCanFire w = true ->
  PickingInfo.hit p = true -> PickingInfo.pickedMesh p = Some m ->
  Weapon.resolveHit origin (orInfinity (PickingInfo.distance p)) m d = None ->
  Weapon.fire nowCanFire nowStamp origin (Some p) (Some d) w
  = (Weapon.mk nowStamp (Weapon.fireInterval w), Weapon.Missed).
Proof.
  intros Hc Hh Hm Hr. unfold Weapon.fire. now rewrite Hc, Hh, Hm, Hr.
Qed.

(** X4.  A shot that is not rate limited but does not end on the target is a
    miss that still starts the cooldown: [fire] records the timestamp, applies
    no damage and returns false when nothing was picked; when the picked mesh
    is neither the target's head collider nor named [bot] or [playerBody];
    when it is not the head collider and its hit distance is 2.0 or more away
    from the distance to the target; and when it is not the head collider and
    [hit.distance] is 0, which [hit.distance || Infinity] turns into
    [Infinity]. *)
Theorem X4_a_shot_off_target_is_a_miss_that_starts_the_cooldown :
  forall (host : Host) nowCanFire nowStamp origin (d : Weapon.IDamageable) (w : Weapon.t),
    Weapon.canFire nowCanFire w = true ->
    (forall hit,
       (hit = None
        \/ (exists p, hit = Some p /\ PickingInfo.hit p = false)
        \/ (exists p, hit = Some p /\ PickingInfo.pickedMesh p = None)) ->
       Weapon.fire nowCanFire nowStamp origin hit (Some d) w
       = (Weapon.mk nowStamp (Weapon.fireInterval w), Weapon.Missed))
    /\ (forall p m,
          PickingInfo.hit p = true -> PickingInfo.pickedMesh p = Some m ->
          notHeadOf m d ->
          (Mesh.name m <> "bot"%string /\ Mesh.name m <> "playerBody"%string)
          \/ (exists h, orInfinity (PickingInfo.distance p) = Finite h
                        /\ 2.0 <= Qabs (h - Distance origin (Weapon.getPosition d)))
          \/ PickingInfo.distance p == 0 ->
          Weapon.fire nowCanFire nowStamp origin (Some p) (Some d) w
          = (Weapon.mk nowStamp (Weapon.fireInterval w), Weapon.Missed))
    /\ Weapon.returned Weapon.Missed = false.
Proof.
  intros host nowCanFire nowStamp origin d w Hc. split; [|split; [|reflexivity]].
  - intros hit [->|[[p [-> Hp]]|[p [-> Hp]]]]; unfold Weapon.fire; rewrite Hc; simpl.
    + reflexivity.
    + now rewrite Hp.
    + rewrite Hp. now destruct (PickingInfo.hit p).
  - intros p m Hh Hm Hn Hcase. apply (fire_on_mesh_full _ _ _ _ m); auto.
    destruct Hcase as [[Hb Hp]|[[h [Eh Hfar]]|Hz]].
    + now apply resolveHit_elsewhere.
    + rewrite Eh. revert Hfar. set (x := Qabs _). intro Hfar.
      apply resolveHit_out_of_tolerance; [exact Hn| |]; cbn [absDiffLt]; fold x;
        unfold Qlt_bool; apply negb_false_iff, Qle_bool_iff; lra.
    + assert (E : orInfinity (PickingInfo.distance p) = Infinity).
      { unfold orInfinity. apply Qeq_bool_iff in Hz. now rewrite Hz. }
      rewrite E. now apply resolveHit_out_of_tolerance.
Qed.

(** A ray cast that ends on the arena floor, and one that ends on the bot's
    body at distance zero. *)
Lemma X4_a_shot_off_target_is_a_miss_that_starts_the_cooldown_witness :
  Weapon.fire (host := sampleHost) 1000 1001 sampleOrigin
    (Some (PickingInfo.mk true 5 (Some (Mesh.mk 9 "ground" sampleOrigin))))
    (Some sampleTarget) Weapon.new
  = (Weapon.mk 1001 (Weapon.fireInterval Weapon.new), Weapon.Missed)
  /\ Weapon.fire (host := sampleHost) 1000 1001 sampleOrigin
       (Some (PickingInfo.mk true 0 (Some (Bot.mesh sampleBot))))
       (Some sampleTarget) Weapon.new
     = (Weapon.mk 1001 (Weapon.fireInterval Weapon.new), Weapon.Missed).
Proof.
  destruct (X4_a_shot_off_target_is_a_miss_that_starts_the_cooldown sampleHost 1000%Z 1001%Z
              sampleOrigin sampleTarget Weapon.new eq_refl) as [_ [OnMesh _]].
  split.
  - apply (OnMesh _ (Mesh.mk 9 "ground" sampleOrigin)); try reflexivity.
    + intros hc E. inversion E; subst. reflexivity.
    + left. split; discriminate.
  - apply (OnMesh _ (Bot.mesh sampleBot)); try reflexivity.
    + intros hc E. inversion E; subst. reflexivity.
    + right. right. reflexivity.
Defined.

(** X5.  The cooldown of a weapon whose interval is the constructor's 200 ms:
    after a call of [fire] that passed the rate limit and stored the clock
    [t2], [canFire()] is true again exactly from [t2 + 200] on, whether the
    shot hit or not; after [reset()] it is true at every clock from 200 on,
    whatever was fired before. *)
Theorem X5_cooldown_runs_from_the_stored_clock_and_reset_clears_it :
  forall (host : Host) (t1 t2 t3 : Z) origin hit target (w : Weapon.t),
    Weapon.fireInterval w == 200 ->
    (Weapon.canFire t1 w = true ->
     (Weapon.canFire t3 (fst (Weapon.fire t1 t2 origin hit target w)) = true
      <-> (t2 + 200 <= t3)%Z))
    /\ (Weapon.canFire t3 (Weapon.reset (fst (Weapon.fire t1 t2 origin hit target w))) = true
        <-> (200 <= t3)%Z).
Proof.
  intros host t1 t2 t3 origin hit target w Hi. split.
  - intro Hc. rewrite canFire_200 by now rewrite fire_keeps_interval.
    rewrite (proj1 (fire_stamps t1 t2 origin hit target w Hc)). simpl. lia.
  - rewrite canFire_200 by (simpl; now rewrite fire_keeps_interval).
    simpl. lia.
Qed.

(** X5 on a shot at 5000 ms: refused at 5199, allowed at 5200, and allowed at
    once after a reset. *)
Lemma X5_cooldown_runs_from_the_stored_clock_and_reset_clears_it_witness :
  (Weapon.canFire 5200
     (fst (Weapon.fire (host := sampleHost) 5000 5000 sampleOrigin None (Some sampleTarget)
             Weapon.new)) = true
   <-> (5000 + 200 <= 5200)%Z)
  /\ (Weapon.canFire 5001
        (Weapon.reset
           (fst (Weapon.fire (host := sampleHost) 5000 5000 sampleOrigin None
                   (Some sampleTarget) Weapon.new))) = true
      <-> (200 <= 5001)%Z).
Proof.
  split.
  - apply (X5_cooldown_runs_from_the_stored_clock_and_reset_clears_it sampleHost 5000%Z 5000%Z
             5200%Z sampleOrigin None (Some sampleTarget) Weapon.new); reflexivity.
  - apply (X5_cooldown_runs_from_the_stored_clock_and_reset_clears_it sampleHost 5000%Z 5000%Z
             5001%Z sampleOrigin None (Some sampleTarget) Weapon.new). reflexivity.
Defined.

(** ** InputManager *)

Lemma has_add {A : Type} (eqb : A -> A -> bool) (x y : A) (set : list A) :
  (forall a b, eqb a b = true <-> a = b) ->
  Input.has eqb x (Input.add eqb y set) = (eqb x y || Input.has eqb x set)%bool.
Proof.
  intro Heq. unfold Input.add, Input.has.
  destruct (existsb (eqb y) set) eqn:E.
  - destruct (eqb x y) eqn:Exy; [|reflexivity].
    apply Heq in Exy. subst. now rewrite E.
  - rewrite existsb_app. simpl. rewrite orb_false_r. apply orb_comm.
Qed.

Lemma has_delete {A : Type} (eqb : A -> A -> bool) (x y : A) (set : list A) :
  (forall a b, eqb a b = true <-> a = b) ->
  Input.has eqb x (Input.delete eqb y set) = (negb (eqb x y) && Input.has eqb x set)%bool.
Proof.
  intro Heq. unfold Input.delete, Input.has.
  induction set as [|z set IH]; simpl; [now rewrite andb_false_r|].
  destruct (eqb y z) eqn:Eyz; simpl.
  - rewrite IH. apply Heq in Eyz. subst z.
    destruct (eqb x y) eqn:Exy; simpl; reflexivity.
  - rewrite IH. destruct (eqb x z) eqn:Exz; simpl; [|reflexivity].
    apply Heq in Exz. subst z.
    destruct (eqb x y) eqn:Exy; [|reflexivity].
    apply Heq in Exy. subst y.
    assert (eqb x x = true) by now apply Heq. congruence.
Qed.

(** X6.  The key set and the button set behave as sets under the listeners,
    keys being compared in lower case: after [keydown] of a key, that key is
    pressed in any letter case and every other key is as before; after
    [keyup] it is released and every other key is as before, so that two
    [keydown]s (key repeat) followed by one [keyup] leave the key released;
    likewise for mouse buttons; and after [dispose] nothing is pressed. *)
Theorem X6_keys_and_buttons_follow_their_last_event :
  forall (toLowerCase : string -> string) (key key' : string) (button button' : Z) (s : Input.t),
    Input.isKeyPressed toLowerCase key' (Input.keydown toLowerCase key s)
    = (String.eqb (toLowerCase key') (toLowerCase key)
       || Input.isKeyPressed toLowerCase key' s)%bool
    /\ Input.isKeyPressed toLowerCase key' (Input.keyup toLowerCase key s)
       = (negb (String.eqb (toLowerCase key') (toLowerCase key))
          && Input.isKeyPressed toLowerCase key' s)%bool
    /\ Input.isKeyPressed toLowerCase key
         (Input.keyup toLowerCase key
            (Input.keydown toLowerCase key (Input.keydown toLowerCase key s))) = false
    /\ Input.isMouseButtonPressed button' (Input.mousedown button s)
       = (Z.eqb button' button || Input.isMouseButtonPressed button' s)%bool
    /\ Input.isMouseButtonPressed button' (Input.mouseup button s)
       = (negb (Z.eqb button' button) && Input.isMouseButtonPressed button' s)%bool
    /\ Input.isKeyPressed toLowerCase key (Input.dispose s) = false
    /\ Input.isMouseButtonPressed button (Input.dispose s) = false.
Proof.
  intros lower key key' button button' s.
  unfold Input.isKeyPressed, Input.isMouseButtonPressed, Input.keydown, Input.keyup,
    Input.mousedown, Input.mouseup. cbn [Input.keys Input.mouseButtons Input.set_keys
    Input.set_mouseButtons].
  rewrite !(has_delete String.eqb) by apply String.eqb_eq.
  rewrite !(has_add String.eqb) by apply String.eqb_eq.
  rewrite (has_delete Z.eqb) by apply Z.eqb_eq.
  rewrite (has_add Z.eqb) by apply Z.eqb_eq.
  rewrite String.eqb_refl. repeat split.
Qed.

Lemma mousemove_locked (dx dy : Q) (s : Input.t) :
  Input.pointerLocked s = true ->
  Input.pointerLocked (Input.mousemove dx dy s) = true
  /\ Input.mouseDeltaX (Input.mousemove dx dy s) == Input.mouseDeltaX s + dx
  /\ Input.mouseDeltaY (Input.mousemove dx dy s) == Input.mouseDeltaY s + dy.
Proof.
  intro H. unfold Input.mousemove. rewrite H. cbv zeta.
  destruct (Qeq_bool dx 0) eqn:Ex; destruct (Qeq_bool dy 0) eqn:Ey;
    cbn [negb orb Input.pointerLocked Input.mouseDeltaX Input.mouseDeltaY Input.set_mouseDelta];
    split; try exact H; try (split; reflexivity).
  apply Qeq_bool_iff in Ex, Ey. split; lra.
Qed.

Lemma mousemoves_locked (moves : list (Q * Q)) :
  forall s, Input.pointerLocked s = true ->
  Input.pointerLocked (Input.mousemoves moves s) = true
  /\ Input.mouseDeltaX (Input.mousemoves moves s) == Input.mouseDeltaX s + totalX moves
  /\ Input.mouseDeltaY (Input.mousemoves moves s) == Input.mouseDeltaY s + totalY moves.
Proof.
  induction moves as [|m moves IH]; intros s H; simpl.
  - repeat split; [exact H | lra | lra].
  - destruct (mousemove_locked (fst m) (snd m) s H) as [L [X Y]].
    destruct (IH _ L) as [L' [X' Y']]. unfold Input.mousemoves in *.
    repeat split; [exact L' | rewrite X', X; lra | rewrite Y', Y; lra].
Qed.

Lemma mousemoves_unlocked (moves : list (Q * Q)) :
  forall s, Input.pointerLocked s = false ->
  Input.pointerLocked (Input.mousemoves moves s) = false
  /\ (moves <> [] ->
      Input.mouseDeltaX (Input.mousemoves moves s) = 0
      /\ Input.mouseDeltaY (Input.mousemoves moves s) = 0).
Proof.
  induction moves as [|m moves IH]; intros s H; simpl.
  - split; [exact H | congruence].
  - assert (E : Input.mousemove (fst m) (snd m) s = Input.set_mouseDelta 0 0 s)
      by (unfold Input.mousemove; now rewrite H).
    unfold Input.mousemoves in *. rewrite E.
    destruct (IH (Input.set_mouseDelta 0 0 s) H) as [L D]. split; [exact L|].
    intros _. destruct moves as [|m' moves]; [simpl; auto|]. apply D. discriminate.
Qed.

(** X7.  While the pointer is locked, [getMouseDelta()] returns what was there
    plus the sum of the movements of the [mousemove] events since, and resets
    the accumulator: a second call returns (0, 0). *)
Theorem X7_getMouseDelta_returns_the_sum_and_resets :
  forall (moves : list (Q * Q)) (s : Input.t),
    Input.pointerLocked s = true ->
    fst (fst (Input.getMouseDelta (Input.mousemoves moves s)))
      == Input.mouseDeltaX s + totalX moves
    /\ snd (fst (Input.getMouseDelta (Input.mousemoves moves s)))
       == Input.mouseDeltaY s + totalY moves
    /\ fst (Input.getMouseDelta (snd (Input.getMouseDelta (Input.mousemoves moves s))))
       = (0, 0).
Proof.
  intros moves s H. destruct (mousemoves_locked moves s H) as [_ [X Y]].
  simpl. repeat split; assumption.
Qed.

(** X7 on three movements, one of them null. *)
Lemma X7_getMouseDelta_returns_the_sum_and_resets_witness :
  fst (fst (Input.getMouseDelta
              (Input.mousemoves [(3, -1); (0, 0); (2, 5)]
                                (Input.pointerlockchange true Input.new))))
    == Input.mouseDeltaX (Input.pointerlockchange true Input.new)
       + totalX [(3, -1); (0, 0); (2, 5)]
  /\ snd (fst (Input.getMouseDelta
                 (Input.mousemoves [(3, -1); (0, 0); (2, 5)]
                                   (Input.pointerlockchange true Input.new))))
     == Input.mouseDeltaY (Input.pointerlockchange true Input.new)
        + totalY [(3, -1); (0, 0); (2, 5)]
  /\ fst (Input.getMouseDelta
            (snd (Input.getMouseDelta
                    (Input.mousemoves [(3, -1); (0, 0); (2, 5)]
                                      (Input.pointerlockchange true Input.new)))))
     = (0, 0).
Proof.
  apply (X7_getMouseDelta_returns_the_sum_and_resets [(3, -1); (0, 0); (2, 5)]
           (Input.pointerlockchange true Input.new)).
  reflexivity.
Defined.

(** X8.  Movement made before the pointer is locked is never reported: if the
    pointer is not locked, then after any [mousemove] events, the acquisition
    of the lock, and further [mousemove] events, [getMouseDelta()] returns the
    sum of the movements made after the acquisition only.  Losing the lock
    keeps the accumulator until the next [mousemove], which clears it. *)
Theorem X8_movement_before_the_lock_is_dropped :
  forall (before after : list (Q * Q)) (s : Input.t),
    Input.pointerLocked s = false ->
    (fst (fst (Input.getMouseDelta
                 (Input.mousemoves after
                    (Input.pointerlockchange true (Input.mousemoves before s)))))
       == totalX after
     /\ snd (fst (Input.getMouseDelta
                    (Input.mousemoves after
                       (Input.pointerlockchange true (Input.mousemoves before s)))))
        == totalY after)
    /\ (forall dx dy,
          fst (Input.getMouseDelta
                 (Input.mousemove dx dy
                    (Input.pointerlockchange false
                       (Input.mousemoves after
                          (Input.pointerlockchange true (Input.mousemoves before s))))))
          = (0, 0))
    /\ fst (Input.getMouseDelta
              (Input.pointerlockchange false
                 (Input.mousemoves after
                    (Input.pointerlockchange true (Input.mousemoves before s)))))
       = fst (Input.getMouseDelta
                (Input.mousemoves after
                   (Input.pointerlockchange true (Input.mousemoves before s)))).
Proof.
  intros before after s H.
  destruct (mousemoves_unlocked before s H) as [L _].
  set (s1 := Input.mousemoves before s) in *.
  assert (E1 : Input.pointerlockchange true s1
               = Input.set_mouseDelta 0 0 (Input.set_pointerLocked true s1))
    by (unfold Input.pointerlockchange; now rewrite L).
  rewrite E1. set (s2 := Input.set_mouseDelta 0 0 _).
  destruct (mousemoves_locked after s2 eq_refl) as [L3 [X Y]].
  set (s3 := Input.mousemoves after s2) in *.
  assert (E3 : Input.pointerlockchange false s3 = Input.set_pointerLocked false s3)
    by (unfold Input.pointerlockchange; now rewrite L3).
  rewrite E3. split; [|split].
  - simpl in *. split; [rewrite X | rewrite Y]; lra.
  - intros dx dy. reflexivity.
  - reflexivity.
Qed.

(** X8 on one movement before the lock and two after it. *)
Lemma X8_movement_before_the_lock_is_dropped_witness :
  fst (fst (Input.getMouseDelta
              (Input.mousemoves [(1, 1); (2, -3)]
                 (Input.pointerlockchange true (Input.mousemoves [(40, 40)] Input.new)))))
  == totalX [(1, 1); (2, -3)].
Proof.
  apply (X8_movement_before_the_lock_is_dropped [(40, 40)] [(1, 1); (2, -3)] Input.new).
  reflexivity.
Defined.

(** ** Player *)

Lemma update_parts {host : Host} deltaTime input now groundHit p :
  Player.update deltaTime input now groundHit p
  = if negb (Player.canControl p) then p
    else Player_jump input
           (Player_ground now groundHit
              (Player_move deltaTime input
                 (Player_look input
                    (Player.updateBodyColliderPosition
                       (Player.updateHeadColliderPosition p))))).
Proof. reflexivity. Qed.

Lemma colliders_keep p :
  let p' := Player.updateBodyColliderPosition (Player.updateHeadColliderPosition p) in
  Player.camera_position p' = Player.camera_position p
  /\ Player.currentRotationX p' = Player.currentRotationX p
  /\ Player.camera_rotation_x p' = Player.camera_rotation_x p
  /\ Player.health p' = Player.health p
  /\ Player.isDead p' = Player.isDead p
  /\ Player.canControl p' = Player.canControl p.
Proof.
  unfold Player.updateBodyColliderPosition, Player.updateHeadColliderPosition.
  destruct (Player.headCollider p); simpl; destruct (Player.bodyCollider p); simpl; tauto.
Qed.

Lemma look_keeps {host : Host} input p :
  Player.camera_position (Player_look input p) = Player.camera_position p
  /\ Player.health (Player_look input p) = Player.health p
  /\ Player.isDead (Player_look input p) = Player.isDead p
  /\ Player.canControl (Player_look input p) = Player.canControl p
  /\ Player.headCollider (Player_look input p) = Player.headCollider p
  /\ Player.bodyCollider (Player_look input p) = Player.bodyCollider p.
Proof.
  unfold Player_look. destruct (InputManager.isPointerLocked input); [|tauto].
  cbv zeta. destruct (_ || _)%bool; simpl; tauto.
Qed.

Lemma move_keeps {host : Host} deltaTime input p :
  Player.currentRotationX (Player_move deltaTime input p) = Player.currentRotationX p
  /\ Player.camera_rotation_x (Player_move deltaTime input p) = Player.camera_rotation_x p
  /\ Player.health (Player_move deltaTime input p) = Player.health p
  /\ Player.isDead (Player_move deltaTime input p) = Player.isDead p
  /\ Player.canControl (Player_move deltaTime input p) = Player.canControl p
  /\ Player.headCollider (Player_move deltaTime input p) = Player.headCollider p
  /\ Player.bodyCollider (Player_move deltaTime input p) = Player.bodyCollider p.
Proof.
  unfold Player_move. cbv zeta. destruct (Qlt_bool _ _); simpl; tauto.
Qed.

Lemma ground_keeps now groundHit p :
  Player.camera_position (Player_ground now groundHit p) = Player.camera_position p
  /\ Player.currentRotationX (Player_ground now groundHit p) = Player.currentRotationX p
  /\ Player.camera_rotation_x (Player_ground now groundHit p) = Player.camera_rotation_x p
  /\ Player.health (Player_ground now groundHit p) = Player.health p
  /\ Player.isDead (Player_ground now groundHit p) = Player.isDead p
  /\ Player.canControl (Player_ground now groundHit p) = Player.canControl p
  /\ Player.headCollider (Player_ground now groundHit p) = Player.headCollider p
  /\ Player.bodyCollider (Player_ground now groundHit p) = Player.bodyCollider p.
Proof.
  unfold Player_ground. destruct (_ <? _)%Z; simpl; tauto.
Qed.

Lemma jump_keeps input p :
  Player.camera_position (Player_jump input p) = Player.camera_position p
  /\ Player.currentRotationX (Player_jump input p) = Player.currentRotationX p
  /\ Player.camera_rotation_x (Player_jump input p) = Player.camera_rotation_x p
  /\ Player.health (Player_jump input p) = Player.health p
  /\ Player.isDead (Player_jump input p) = Player.isDead p
  /\ Player.canControl (Player_jump input p) = Player.canControl p
  /\ Player.headCollider (Player_jump input p) = Player.headCollider p
  /\ Player.bodyCollider (Player_jump input p) = Player.bodyCollider p.
Proof.
  unfold Player_jump. destruct (_ && _)%bool; simpl; tauto.
Qed.

Lemma clamp_range (lo hi x : Q) :
  lo <= hi -> lo <= Math_max lo (Math_min hi x) /\ Math_max lo (Math_min hi x) <= hi.
Proof.
  intro H. unfold Math_max, Math_min.
  destruct (Qle_bool hi x) eqn:E1.
  - destruct (Qle_bool lo hi) eqn:E2.
    + split; [exact H | apply Qle_refl].
    + split; [apply Qle_refl | exact H].
  - apply Qle_bool_false in E1.
    destruct (Qle_bool lo x) eqn:E2.
    + apply Qle_bool_iff in E2. split; [exact E2 | lra].
    + split; [apply Qle_refl | exact H].
Qed.

Lemma look_pitch {host : Host} input p :
  0 <= Math_PI -> pitchOk p -> pitchOk (Player_look input p).
Proof.
  intros Hpi Hp. unfold Player_look. destruct (InputManager.isPointerLocked input); [|exact Hp].
  cbv zeta. assert (Hr : - Math_PI / 2 <= Math_PI / 2).
  { unfold Qdiv. change (/ 2) with (1 # 2). lra. }
  destruct (_ || _)%bool; unfold pitchOk in *; simpl.
  - split; apply clamp_range; exact Hr.
  - tauto.
Qed.

Lemma update_pitch {host : Host} deltaTime input now groundHit p :
  0 <= Math_PI -> pitchOk p -> pitchOk (Player.update deltaTime input now groundHit p).
Proof.
  intros Hpi Hp. rewrite update_parts. destruct (negb (Player.canControl p)); [exact Hp|].
  set (p0 := Player.updateBodyColliderPosition _).
  assert (H0 : pitchOk p0).
  { destruct (colliders_keep p) as [_ [A [B _]]]. fold p0 in A, B.
    unfold pitchOk. rewrite A, B. exact Hp. }
  pose proof (look_pitch input p0 Hpi H0) as H1. set (p1 := Player_look input p0) in *.
  destruct (move_keeps deltaTime input p1) as [A2 [B2 _]].
  set (p2 := Player_move deltaTime input p1) in *.
  destruct (ground_keeps now groundHit p2) as [_ [A3 [B3 _]]].
  set (p3 := Player_ground now groundHit p2) in *.
  destruct (jump_keeps input p3) as [_ [A4 [B4 _]]].
  unfold pitchOk in *. rewrite A4, B4, A3, B3, A2, B2. exact H1.
Qed.

(** X9.  The pitch never leaves [-PI/2, PI/2]: for a host whose [Math.PI] is
    not negative, a player fresh from the constructor keeps its stored pitch
    and the pitch of its camera in that range through any sequence of
    [update]s, deaths and [respawn]s, whatever the mouse does. *)
Theorem X9_pitch_stays_within_a_quarter_turn :
  forall (host : Host) (cameraPos : Vector3.t) (headId bodyId : nat) (cs : list PlayerCall),
    0 <= Math_PI ->
    pitchOk (playerCalls cs (Player.new cameraPos headId bodyId)).
Proof.
  intros host cameraPos headId bodyId cs Hpi.
  assert (Hr : - Math_PI / 2 <= 0 /\ 0 <= Math_PI / 2) by (unfold Qdiv; change (/ 2) with (1 # 2); split; lra).
  assert (H0 : pitchOk (Player.new cameraPos headId bodyId))
    by (unfold pitchOk; simpl; tauto).
  revert H0. generalize (Player.new cameraPos headId bodyId).
  induction cs as [|c cs IH]; intros p Hp; [exact Hp|].
  apply IH. destruct c as [deltaTime input now groundHit|spawnPoint|]; simpl.
  - now apply update_pitch.
  - unfold pitchOk. simpl. tauto.
  - exact Hp.
Qed.

(** X9 on a hard pull of the mouse, a death, a respawn and a push. *)
Lemma X9_pitch_stays_within_a_quarter_turn_witness :
  pitchOk (host := sampleHost)
    (playerCalls (host := sampleHost)
       [PlayerUpdate 0.016 busyInput 1000 None; PlayerDies;
        PlayerRespawn GameScene.playerSpawn; PlayerUpdate 0.016 busyInput 1016 None]
       (Player.new (Vector3.mk 0 1.8 0) 1 2)).
Proof.
  apply (X9_pitch_stays_within_a_quarter_turn sampleHost). discriminate.
Defined.

Lemma normalize_y {host : Host} (a : Vector3.t) :
  Vector3.y a == 0 -> Vector3.y (normalize a) == 0.
Proof.
  intro H. unfold normalize. destruct (Qeq_bool _ _); [exact H|].
  cbn [Vector3.scale Vector3.y]. rewrite H. ring.
Qed.

Lemma move_height {host : Host} deltaTime input p :
  Vector3.y (Player.camera_position (Player_move deltaTime input p))
  == Vector3.y (Player.camera_position p).
Proof.
  unfold Player_move. cbv zeta. destruct (Qlt_bool _ _); [|reflexivity].
  change (Player.camera_position (Player.set_camera_position ?v _)) with v.
  cbn [Vector3.add Vector3.y].
  match goal with |- _ + Vector3.y (Vector3.scale ?d (normalize ?v)) == _ =>
    assert (H : Vector3.y (normalize v) == 0);
    [apply normalize_y; cbn [Vector3.add Vector3.scale Vector3.y]; ring|];
    cbn [Vector3.scale Vector3.y]; rewrite H; ring
  end.
Qed.

(** X10.  [update] leaves the height of the camera to the engine: for every
    host, time step, input and ground probe the camera ends at the height it
    started at, and the method changes neither the health of the player nor
    its death and control flags. *)
Theorem X10_update_moves_the_camera_in_the_horizontal_plane :
  forall (host : Host) (deltaTime : Q) (input : InputManager.t) (now : Z)
         (groundHit : option PickingInfo.t) (p : Player.t),
    let p' := Player.update deltaTime input now groundHit p in
    Vector3.y (Player.camera_position p') == Vector3.y (Player.camera_position p)
    /\ Player.health p' = Player.health p
    /\ Player.isDead p' = Player.isDead p
    /\ Player.canControl p' = Player.canControl p.
Proof.
  intros host deltaTime input now groundHit p p'. subst p'. rewrite update_parts.
  destruct (negb (Player.canControl p)); [repeat split; reflexivity|].
  destruct (colliders_keep p) as [A0 [_ [_ [B0 [C0 D0]]]]].
  set (p0 := Player.updateBodyColliderPosition _) in *.
  destruct (look_keeps input p0) as [A1 [B1 [C1 [D1 _]]]].
  set (p1 := Player_look input p0) in *.
  pose proof (move_height deltaTime input p1) as A2.
  destruct (move_keeps deltaTime input p1) as [_ [_ [B2 [C2 [D2 _]]]]].
  set (p2 := Player_move deltaTime input p1) in *.
  destruct (ground_keeps now groundHit p2) as [A3 [_ [_ [B3 [C3 [D3 _]]]]]].
  set (p3 := Player_ground now groundHit p2) in *.
  destruct (jump_keeps input p3) as [A4 [_ [_ [B4 [C4 [D4 _]]]]]].
  rewrite A4, B4, C4, D4, A3, B3, C3, D3, B2, C2, D2, B1, C1, D1, B0, C0, D0.
  rewrite A2, A1, A0. repeat split; reflexivity.
Qed.

(** X11.  Opposite keys cancel.  On a host whose square root of zero is not
    positive, an [update] with W and S both down or both up, and A and D both
    down or both up, leaves the camera where it was, whatever the time step
    and the view direction. *)
Theorem X11_no_net_input_no_movement :
  forall (host : Host) (deltaTime : Q) (input : InputManager.t) (now : Z)
         (groundHit : option PickingInfo.t) (p : Player.t),
    Math_sqrt 0 <= 0 ->
    InputManager.isKeyPressed input "w" = InputManager.isKeyPressed input "s" ->
    InputManager.isKeyPressed input "a" = InputManager.isKeyPressed input "d" ->
    Player.camera_position (Player.update deltaTime input now groundHit p)
    = Player.camera_position p.
Proof.
  intros host deltaTime input now groundHit p Hsqrt Hws Had. rewrite update_parts.
  destruct (negb (Player.canControl p)); [reflexivity|].
  destruct (colliders_keep p) as [A0 _].
  set (p0 := Player.updateBodyColliderPosition _) in *.
  destruct (look_keeps input p0) as [A1 _].
  set (p1 := Player_look input p0) in *.
  assert (A2 : Player.camera_position (Player_move deltaTime input p1)
               = Player.camera_position p1).
  { unfold Player_move. cbv zeta.
    assert (Hv : Player_moveVector input = Vector3.mk 0 0 0).
    { unfold Player_moveVector. rewrite Hws, Had.
      destruct (InputManager.isKeyPressed input "s"),
               (InputManager.isKeyPressed input "d"); reflexivity. }
    rewrite Hv.
    assert (Hl : Qlt_bool 0 (Vector3_length (Vector3.mk 0 0 0)) = false).
    { unfold Qlt_bool. apply Bool.negb_false_iff. apply Qle_bool_iff. exact Hsqrt. }
    rewrite Hl. reflexivity. }
  set (p2 := Player_move deltaTime input p1) in *.
  destruct (ground_keeps now groundHit p2) as [A3 _].
  set (p3 := Player_ground now groundHit p2) in *.
  destruct (jump_keeps input p3) as [A4 _].
  rewrite A4, A3, A2, A1, A0. reflexivity.
Qed.

(** X11 with W and S held together. *)
Lemma X11_no_net_input_no_movement_witness :
  Player.camera_position
    (Player.update (host := sampleHost) 0.016 tornInput 1000 None samplePlayer)
  = Player.camera_position samplePlayer.
Proof.
  apply (X11_no_net_input_no_movement sampleHost); [discriminate | reflexivity | reflexivity].
Defined.

(** X12.  The hit boxes of the player trail the camera.  An [update] of a
    player in control puts the head and body colliders at the offsets 0.5 and
    -0.5 from the position the camera had BEFORE the movement of that same
    update, and [respawn] does not move them at all: they stay where they
    were until the next update. *)
Theorem X12_player_colliders_follow_the_camera_one_update_late :
  forall (host : Host) (deltaTime : Q) (input : InputManager.t) (now : Z)
         (groundHit : option PickingInfo.t) (spawnPoint : Vector3.t)
         (p : Player.t) (head body : Mesh.t),
    Player.canControl p = true ->
    Player.headCollider p = Some head ->
    Player.bodyCollider p = Some body ->
    let p' := Player.update deltaTime input now groundHit p in
    Player.headCollider p' = Some (Mesh.set_position (Player.getHeadPosition p) head)
    /\ Player.bodyCollider p'
       = Some (Mesh.set_position
                 (Vector3.add (Player.camera_position p) (Vector3.mk 0 (-0.5) 0)) body)
    /\ Player.headCollider (Player.respawn spawnPoint p) = Some head
    /\ Player.bodyCollider (Player.respawn spawnPoint p) = Some body.
Proof.
  intros host deltaTime input now groundHit spawnPoint p head body Hc Hh Hb p'. subst p'.
  rewrite update_parts, Hc. cbn [negb].
  set (p0 := Player.updateBodyColliderPosition _).
  assert (H0 : Player.headCollider p0
               = Some (Mesh.set_position (Player.getHeadPosition p) head)
               /\ Player.bodyCollider p0
                  = Some (Mesh.set_position
                            (Vector3.add (Player.camera_position p) (Vector3.mk 0 (-0.5) 0))
                            body)).
  { subst p0. unfold Player.updateBodyColliderPosition, Player.updateHeadColliderPosition.
    rewrite Hh. cbn [Player.bodyCollider Player.set_headCollider]. rewrite Hb.
    split; reflexivity. }
  destruct H0 as [Hh0 Hb0].
  destruct (look_keeps input p0) as [_ [_ [_ [_ [E1 F1]]]]].
  set (p1 := Player_look input p0) in *.
  destruct (move_keeps deltaTime input p1) as [_ [_ [_ [_ [_ [E2 F2]]]]]].
  set (p2 := Player_move deltaTime input p1) in *.
  destruct (ground_keeps now groundHit p2) as [_ [_ [_ [_ [_ [_ [E3 F3]]]]]]].
  set (p3 := Player_ground now groundHit p2) in *.
  destruct (jump_keeps input p3) as [_ [_ [_ [_ [_ [_ [E4 F4]]]]]]].
  rewrite E4, F4, E3, F3, E2, F2, E1, F1.
  repeat split; try assumption.
Qed.

(** X12 on a player that runs forward and to the right. *)
Lemma X12_player_colliders_follow_the_camera_one_update_late_witness :
  Player.headCollider (Player.update (host := sampleHost) 0.016 busyInput 1000 None samplePlayer)
  = Some (Mesh.mk 1 "playerHead" (Player.getHeadPosition samplePlayer))
  /\ Vector3.z (Player.camera_position
                  (Player.update (host := sampleHost) 0.016 busyInput 1000 None samplePlayer))
     == 0.104.
Proof.
  split.
  - apply (X12_player_colliders_follow_the_camera_one_update_late sampleHost 0.016 busyInput
             1000%Z None GameScene.playerSpawn samplePlayer
             (Mesh.mk 1 "playerHead" (Vector3.mk (-26 # 2) (230 # 100) 0))
             (Mesh.mk 2 "playerBody" (Vector3.mk (-26 # 2) (130 # 100) 0)));
      reflexivity.
  - vm_compute. reflexivity.
Defined.

(** ** Bot *)

Lemma faceTarget_keeps {host : Host} target b :
  Bot.mesh (Bot.faceTarget target b) = Bot.mesh b
  /\ Bot.health (Bot.faceTarget target b) = Bot.health b
  /\ Bot.headCollider (Bot.faceTarget target b) = Bot.headCollider b
  /\ Bot.lastShotTime (Bot.faceTarget target b) = Bot.lastShotTime b
  /\ Bot.reactionDelay (Bot.faceTarget target b) = Bot.reactionDelay b
  /\ Bot.strafeDirection (Bot.faceTarget target b) = Bot.strafeDirection b
  /\ Bot.state (Bot.faceTarget target b) = Bot.state b.
Proof.
  unfold Bot.faceTarget. cbv zeta. destruct (Qlt_bool _ _); repeat split; reflexivity.
Qed.

Lemma strafe_keeps period env b :
  Bot.mesh (Bot.strafe period env b) = Bot.mesh b
  /\ Bot.health (Bot.strafe period env b) = Bot.health b
  /\ Bot.headCollider (Bot.strafe period env b) = Bot.headCollider b
  /\ Bot.lastShotTime (Bot.strafe period env b) = Bot.lastShotTime b
  /\ Bot.reactionDelay (Bot.strafe period env b) = Bot.reactionDelay b
  /\ Bot.state (Bot.strafe period env b) = Bot.state b.
Proof.
  unfold Bot.strafe. destruct (_ <? _)%Z; repeat split; reflexivity.
Qed.

Lemma strafe_ok period env b : strafeOk b -> strafeOk (Bot.strafe period env b).
Proof.
  intro H. unfold Bot.strafe. destruct (_ <? _)%Z; [|exact H].
  unfold strafeOk. cbn [Bot.strafeDirection Bot.set_strafeChangeTime Bot.set_strafeDirection].
  destruct (Qlt_bool _ _); [left | right]; reflexivity.
Qed.

Lemma chasePlayer_keeps {host : Host} playerPosition deltaTime env b :
  let b' := Bot.chasePlayer playerPosition deltaTime env b in
  Bot.health b' = Bot.health b
  /\ Bot.headCollider b' = Bot.headCollider b
  /\ Bot.lastShotTime b' = Bot.lastShotTime b
  /\ Bot.state b' = Bot.state b
  /\ Bot.strafeDirection b' = Bot.strafeDirection (Bot.strafe 2000 env b).
Proof.
  unfold Bot.chasePlayer. cbv zeta.
  match goal with |- context [Bot.faceTarget ?t ?x] =>
    destruct (faceTarget_keeps t x) as [_ [A [B [C [_ [D E]]]]]]; rewrite A, B, C, D, E
  end.
  destruct (strafe_keeps 2000 env b) as [_ [A' [B' [C' [_ E']]]]].
  cbn [Bot.health Bot.headCollider Bot.lastShotTime Bot.state Bot.strafeDirection Bot.set_mesh].
  rewrite A', B', C', E'. repeat split; reflexivity.
Qed.

Lemma attackPlayer_keeps {host : Host} playerPosition deltaTime env b :
  let b' := Bot.attackPlayer playerPosition deltaTime env b in
  Bot.health b' = Bot.health b
  /\ Bot.headCollider b' = Bot.headCollider b
  /\ Bot.state b' = Bot.state b
  /\ Bot.strafeDirection b' = Bot.strafeDirection (Bot.strafe 1500 env b)
  /\ Bot.lastShotTime b'
     = if Qle_bool (Bot.reactionDelay b) (inject_Z (Bot.nowTime env - Bot.lastShotTime b))
       then Bot.nowTime env else Bot.lastShotTime b.
Proof.
  unfold Bot.attackPlayer. cbv zeta.
  match goal with |- context [Bot.faceTarget ?t ?x] =>
    destruct (faceTarget_keeps t x) as [_ [A [B [C [R [D E]]]]]];
    set (b1 := Bot.faceTarget t x) in *
  end.
  destruct (strafe_keeps 1500 env b) as [_ [A' [B' [C' [R' E']]]]].
  cbn [Bot.health Bot.headCollider Bot.lastShotTime Bot.state Bot.strafeDirection
       Bot.reactionDelay Bot.set_mesh] in A, B, C, R, D, E.
  rewrite R, C, R', C'.
  destruct (Qle_bool _ _);
    cbn [Bot.health Bot.headCollider Bot.lastShotTime Bot.state Bot.strafeDirection
         Bot.set_lastShotTime];
    rewrite ?A, ?B, ?C, ?D, ?E, ?A', ?B', ?C', ?E'; repeat split; reflexivity.
Qed.

(** X13.  One [update] of a live bot.  Its state becomes [attacking] when the
    player is within the chase distance of 20 and [chasing] otherwise, never
    [idle]; the head collider is put two units above where the mesh stood
    BEFORE the movement of this update; the health is not touched; and the
    shot timer moves only while attacking, and then only to the clock of this
    update once the reaction delay has passed. *)
Theorem X13_a_live_bot_attacks_within_the_chase_distance_and_chases_beyond :
  forall (host : Host) (deltaTime : Q) (playerPosition : Vector3.t) (env : Bot.Env)
         (b : Bot.t),
    Health.isDead (Bot.health b) = false ->
    let b' := Bot.update deltaTime playerPosition env b in
    let near := Qle_bool (Distance (Bot.getPosition b) playerPosition)
                         GAME_CONSTANTS.BOT_CHASE_DISTANCE in
    Bot.state b' = (if near then Bot.attacking else Bot.chasing)
    /\ Bot.headCollider b' = Mesh.set_position (Bot.getHeadPosition b) (Bot.headCollider b)
    /\ Bot.health b' = Bot.health b
    /\ Bot.lastShotTime b'
       = if near && Qle_bool (Bot.reactionDelay b)
                             (inject_Z (Bot.nowTime env - Bot.lastShotTime b))
         then Bot.nowTime env else Bot.lastShotTime b.
Proof.
  intros host deltaTime playerPosition env b Hlive b' near. subst b' near.
  unfold Bot.update. rewrite Hlive. cbv zeta.
  change (Bot.mesh (Bot.updateHeadColliderPosition b)) with (Bot.mesh b).
  unfold Bot.getPosition.
  destruct (Qle_bool (Distance _ _) _); cbn [Bot.state Bot.set_state andb].
  - match goal with |- context [Bot.attackPlayer ?t ?d ?e ?x] =>
      destruct (attackPlayer_keeps t d e x) as [A [B [C [_ D]]]]; cbv zeta in A, B, C, D;
      rewrite A, B, C, D
    end.
    repeat split; reflexivity.
  - match goal with |- context [Bot.chasePlayer ?t ?d ?e ?x] =>
      destruct (chasePlayer_keeps t d e x) as [A [B [C [D _]]]]; cbv zeta in A, B, C, D;
      rewrite A, B, C, D
    end.
    repeat split; reflexivity.
Qed.

(** X13 on a bot ten units from the player whose reaction delay has passed. *)
Lemma X13_a_live_bot_attacks_within_the_chase_distance_and_chases_beyond_witness :
  Bot.state (Bot.update (host := sampleHost) 0.016 sampleOrigin (sampleEnv 1000) sampleBot)
  = Bot.attacking
  /\ Bot.lastShotTime
       (Bot.update (host := sampleHost) 0.016 sampleOrigin (sampleEnv 1000) sampleBot)
     = 1000%Z.
Proof.
  pose proof (X13_a_live_bot_attacks_within_the_chase_distance_and_chases_beyond
                sampleHost 0.016 sampleOrigin (sampleEnv 1000) sampleBot eq_refl)
    as [A [_ [_ B]]].
  split; [exact A | exact B].
Defined.

Lemma update_strafeOk {host : Host} deltaTime playerPosition env b :
  strafeOk b -> strafeOk (Bot.update deltaTime playerPosition env b).
Proof.
  intro H. unfold Bot.update. destruct (Health.isDead _); [exact H|]. cbv zeta.
  destruct (Qle_bool (Distance _ _) _); cbn [Bot.state Bot.set_state].
  - match goal with |- context [Bot.attackPlayer ?t ?d ?e ?x] =>
      destruct (attackPlayer_keeps t d e x) as [_ [_ [_ [D _]]]]; cbv zeta in D
    end.
    unfold strafeOk. rewrite D. apply strafe_ok. exact H.
  - match goal with |- context [Bot.chasePlayer ?t ?d ?e ?x] =>
      destruct (chasePlayer_keeps t d e x) as [_ [_ [_ [_ D]]]]; cbv zeta in D
    end.
    unfold strafeOk. rewrite D. apply strafe_ok. exact H.
Qed.

Lemma botCalls_strafeOk {host : Host} cs b : strafeOk b -> strafeOk (botCalls cs b).
Proof.
  revert b. induction cs as [|c cs IH]; intros b H; [exact H|].
  apply IH. destruct c; simpl.
  - now apply update_strafeOk.
  - exact H.
  - exact H.
Qed.

Lemma strafeAmount_bounds (env : Bot.Env) (b : Bot.t) :
  0 <= Bot.randomStrafe env -> Bot.randomStrafe env <= 1 -> strafeOk b ->
  GAME_CONSTANTS.BOT_STRAFE_MIN <= Qabs (Bot_strafeAmount env b)
  /\ Qabs (Bot_strafeAmount env b) <= GAME_CONSTANTS.BOT_STRAFE_MAX.
Proof.
  intros H0 H1 Hb.
  unfold Bot_strafeAmount, GAME_CONSTANTS.BOT_STRAFE_MIN, GAME_CONSTANTS.BOT_STRAFE_MAX.
  set (r := Bot.randomStrafe env) in *.
  destruct Hb as [E | E]; rewrite E.
  - rewrite Qabs_pos by nra. split; lra.
  - rewrite Qabs_neg by nra. split; lra.
Qed.

(** X14.  The bot always strafes at between 6 and 10 units per second.  From
    the constructor on, through any updates, hits and respawns, the strafe
    direction is 1 or -1, before and after the flip an update may make; so
    for a [Math.random()] draw in [0, 1] the strafe vector of an update is the
    unit side vector scaled by the time step and by a strafe amount whose
    absolute value lies between [BOT_STRAFE_MIN] and [BOT_STRAFE_MAX]. *)
Theorem X14_the_strafe_speed_stays_between_its_bounds :
  forall (host : Host) (spawnPoint : Vector3.t) (meshId headId : nat) (cs : list BotCall)
         (env : Bot.Env) (period : Z) (direction : Vector3.t) (deltaTime : Q),
    0 <= Bot.randomStrafe env -> Bot.randomStrafe env <= 1 ->
    let b := botCalls cs (Bot.new spawnPoint meshId headId) in
    let b' := Bot.strafe period env b in
    strafeOk b /\ strafeOk b'
    /\ Bot.strafeVector direction deltaTime env b'
       = Vector3.scale (Bot_strafeAmount env b' * deltaTime)
           (normalize (Vector3.mk (- Vector3.z direction) 0 (Vector3.x direction)))
    /\ GAME_CONSTANTS.BOT_STRAFE_MIN <= Qabs (Bot_strafeAmount env b')
    /\ Qabs (Bot_strafeAmount env b') <= GAME_CONSTANTS.BOT_STRAFE_MAX.
Proof.
  intros host spawnPoint meshId headId cs env period direction deltaTime H0 H1 b b'.
  assert (Hb : strafeOk b).
  { apply botCalls_strafeOk. left. reflexivity. }
  assert (Hb' : strafeOk b') by now apply strafe_ok.
  split; [exact Hb|]. split; [exact Hb'|]. split; [reflexivity|].
  now apply strafeAmount_bounds.
Qed.

(** X14 after an update that flips the direction, a hit and a respawn. *)
Lemma X14_the_strafe_speed_stays_between_its_bounds_witness :
  Bot.strafeDirection
    (botCalls (host := sampleHost)
       [BotUpdate 0.016 sampleOrigin (flipEnv 5000); BotTakeDamage 30 true;
        BotRespawn GameScene.botSpawn]
       (Bot.new GameScene.botSpawn 3 4)) = - (1)
  /\ 6 <= Qabs (Bot_strafeAmount (flipEnv 6000)
                  (Bot.strafe 1500 (flipEnv 6000)
                     (botCalls (host := sampleHost)
                        [BotUpdate 0.016 sampleOrigin (flipEnv 5000); BotTakeDamage 30 true;
                         BotRespawn GameScene.botSpawn]
                        (Bot.new GameScene.botSpawn 3 4)))).
Proof.
  split; [reflexivity|].
  apply (X14_the_strafe_speed_stays_between_its_bounds sampleHost GameScene.botSpawn 3 4
           [BotUpdate 0.016 sampleOrigin (flipEnv 5000); BotTakeDamage 30 true;
            BotRespawn GameScene.botSpawn]
           (flipEnv 6000) 1500%Z sampleOrigin 0.016); discriminate.
Defined.

(** ** GameManager *)

(** *** The match clock *)

Ltac clock_leaf :=
  let gm := fresh "gm" in
  let H1 := fresh "H" in
  let H2 := fresh "H" in
  intros gm [H1 H2];
  first [ exact I
        | unfold clockFrom; simpl; split; [first [exact H1 | discriminate] | exact H2] ].

Lemma loop_clock {host : Host} f start : preserves (clockFrom start) anyEvent (GM.loop f).
Proof. preserve clock_leaf. Qed.

Lemma unpause_clock locked start : preserves (clockFrom start) anyEvent (GM.unpause locked).
Proof. preserve clock_leaf. Qed.

Lemma step_clock {host : Host} op start :
  notRestart op -> preserves (clockFrom start) anyEvent (GM.step op).
Proof.
  destruct op as [locked t1 t2 t3|locked|t1 t2|f]; cbn [GM.step notRestart]; intro Hop.
  - intros gm H. rewrite startGame_elsewhere by apply H. split; [exact H | constructor].
  - apply unpause_clock.
  - contradiction.
  - apply loop_clock.
Qed.

Lemma run_clock {host : Host} ops start :
  Forall notRestart ops ->
  forall gm, clockFrom start gm -> clockFrom start (fst (GM.run ops gm)).
Proof.
  induction 1 as [|op ops Hop _ IH]; intros gm Hgm; simpl; [exact Hgm|].
  destruct (step_clock op start Hop gm Hgm) as [H1 _].
  destruct (GM.step op gm) as [gm1 e]. simpl in H1.
  specialize (IH gm1 H1). destruct (GM.run ops gm1) as [gm2 es]. exact IH.
Qed.

Ltac timer_leaf :=
  let gm := fresh "gm" in
  let H := fresh "H" in
  intros gm H; try exact I; simpl; exact H.

Lemma playingFrame_timer {host : Host} deltaTime f (v : Q) :
  triple (fun gm => timeLeftAt (GM.now f) (GM.matchStartTime gm) = v)
         (GM.playingFrame deltaTime f)
         (fun gm => GM.matchTimeRemaining gm = v) anyEvent.
Proof.
  unfold GM.playingFrame.
  apply triple_seq with (M := fun gm => GM.matchTimeRemaining gm = v).
  - unfold GM.updateMatchTimer. apply triple_modify. intros gm H. exact H.
  - preserve timer_leaf.
Qed.

Lemma loop_playing {host : Host} f gm :
  GM.loopScheduled gm = true -> GM.state gm = GM.playing ->
  InputManager.isKeyPressed (GM.input f) "escape" = false ->
  fst (GM.loop f gm)
  = fst (GM.playingFrame (Math_min ((GM.currentTime f - GM.lastTime gm) / 1000) 0.1) f
                         (GM.set_lastTime (GM.currentTime f) gm)).
Proof.
  intros Hl Hs He. rewrite loop_fst, Hl. cbn [negb]. cbv zeta.
  rewrite handleEscape_off by exact He. cbn [fst GM.state GM.set_lastTime]. now rewrite Hs.
Qed.

(** X15.  The match clock is the wall clock.  Once a match has left
    [waiting], no operation but [restart] moves its start time, so whatever
    happened since (frames, pauses, respawns, failed or successful resumes),
    a frame that runs in [playing] without the pause key sets the time
    remaining to 300 s minus the time since the start of the match, floored at
    0: the time spent paused or respawning is not given back. *)
Theorem X15_the_match_clock_runs_through_pauses_and_respawns :
  forall (host : Host) (ops : list GM.Op) (gm : GM.t) (f : GM.Frame),
    GM.state gm <> GM.waiting ->
    Forall notRestart ops ->
    GM.loopScheduled (fst (GM.run ops gm)) = true ->
    GM.state (fst (GM.run ops gm)) = GM.playing ->
    InputManager.isKeyPressed (GM.input f) "escape" = false ->
    GM.matchStartTime (fst (GM.run ops gm)) = GM.matchStartTime gm
    /\ GM.matchTimeRemaining (fst (GM.loop f (fst (GM.run ops gm))))
       = timeLeftAt (GM.now f) (GM.matchStartTime gm).
Proof.
  intros host ops gm f Hw Hops Hl Hs He.
  destruct (run_clock ops (GM.matchStartTime gm) Hops gm (conj Hw eq_refl)) as [_ Hm].
  split; [exact Hm|].
  rewrite (loop_playing f _ Hl Hs He).
  apply (playingFrame_timer _ f (timeLeftAt (GM.now f) (GM.matchStartTime gm))).
  cbn [GM.matchStartTime GM.set_lastTime]. now rewrite Hm.
Qed.

(** X15 on a match started at 5 s, paused at 6 s and resumed: at 66 s it has
    239 s left. *)
Lemma X15_the_match_clock_runs_through_pauses_and_respawns_witness :
  GM.matchTimeRemaining
    (fst (GM.loop (host := sampleHost) (frameAt 66000 noKeys)
            (fst (GM.run (host := sampleHost)
                    [GM.AnimationFrame (frameAt 6000 noKeys);
                     GM.AnimationFrame (frameAt 6016 escapeKey);
                     GM.AnimationFrame (frameAt 30000 noKeys);
                     GM.Unpause true]
                    startedManager))))
  = timeLeftAt 66000 5000
  /\ timeLeftAt 66000 5000 == 239.
Proof.
  split; [|reflexivity].
  apply (X15_the_match_clock_runs_through_pauses_and_respawns sampleHost
           [GM.AnimationFrame (frameAt 6000 noKeys);
            GM.AnimationFrame (frameAt 6016 escapeKey);
            GM.AnimationFrame (frameAt 30000 noKeys);
            GM.Unpause true]
           startedManager (frameAt 66000 noKeys)).
  - discriminate.
  - repeat constructor.
  - reflexivity.
  - reflexivity.
  - reflexivity.
Defined.

(** *** Respawning *)

Lemma handleEscape_elsewhere {host : Host} f gm :
  GM.state gm <> GM.playing -> GM.state gm <> GM.paused -> GM.handleEscape f gm = (gm, []).
Proof.
  intros H1 H2. unfold GM.handleEscape, GM.when, GM.cond, GM.bind.
  destruct (InputManager.isKeyPressed _ _); [|reflexivity].
  destruct (GM.state gm); try reflexivity; congruence.
Qed.

Lemma loop_unscheduled {host : Host} f gm :
  GM.loopScheduled gm = false -> GM.loop f gm = (gm, []).
Proof. intro H. unfold GM.loop, GM.cond. now rewrite H. Qed.

Lemma loop_respawning {host : Host} f gm :
  GM.loopScheduled gm = true -> GM.state gm = GM.respawning ->
  0 < GM.respawnTimer gm - Math_min ((GM.currentTime f - GM.lastTime gm) / 1000) 0.1 ->
  GM.loop f gm
  = (GM.set_respawnTimer
       (GM.respawnTimer gm - Math_min ((GM.currentTime f - GM.lastTime gm) / 1000) 0.1)
       (GM.set_lastTime (GM.currentTime f) gm), []).
Proof.
  intros Hl Hs Ht. unfold GM.loop, GM.cond. rewrite Hl. cbn [negb].
  unfold GM.bind at 1. unfold GM.seq at 1. cbn [GM.modify]. unfold GM.seq at 1.
  rewrite handleEscape_elsewhere
    by (cbn [GM.state GM.set_lastTime]; rewrite Hs; discriminate).
  unfold GM.bind at 1. cbn [GM.state GM.set_lastTime]. rewrite Hs.
  unfold GM.respawningFrame. unfold GM.seq at 1. cbn [GM.modify].
  unfold GM.when, GM.cond. cbn [GM.respawnTimer GM.set_respawnTimer GM.set_lastTime].
  apply Qlt_not_le in Ht. rewrite <- Qle_bool_iff in Ht.
  destruct (Qle_bool _ _); [now elim Ht|]. reflexivity.
Qed.

Lemma Math_min_le_r (a b : Q) : Math_min a b <= b.
Proof.
  unfold Math_min. destruct (Qle_bool a b) eqn:E; [|apply Qle_refl].
  apply Qle_bool_iff in E. exact E.
Qed.

Lemma run_respawning {host : Host} ops :
  Forall notRestart ops ->
  forall gm, GM.state gm = GM.respawning ->
  0.1 * inject_Z (Z.of_nat (frames ops)) < GM.respawnTimer gm ->
  GM.state (fst (GM.run ops gm)) = GM.respawning
  /\ GM.respawningEntity (fst (GM.run ops gm)) = GM.respawningEntity gm
  /\ GM.player (fst (GM.run ops gm)) = GM.player gm
  /\ GM.bot (fst (GM.run ops gm)) = GM.bot gm
  /\ snd (GM.run ops gm) = map (fun _ => []) ops.
Proof.
  induction 1 as [|op ops Hop _ IH]; intros gm Hs Ht; [simpl; auto|].
  assert (Hstep : exists gm1, GM.step op gm = (gm1, [])
            /\ GM.state gm1 = GM.respawning
            /\ GM.respawningEntity gm1 = GM.respawningEntity gm
            /\ GM.player gm1 = GM.player gm /\ GM.bot gm1 = GM.bot gm
            /\ 0.1 * inject_Z (Z.of_nat (frames ops)) < GM.respawnTimer gm1).
  { destruct op as [locked t1 t2 t3|locked|t1 t2|f]; cbn [GM.step].
    - exists gm. rewrite startGame_elsewhere by congruence. auto 10.
    - exists gm. rewrite unpause_elsewhere by congruence. auto 10.
    - contradiction.
    - unfold frames in Ht. cbn [filter isFrame List.length] in Ht. fold (frames ops) in Ht.
      rewrite Nat2Z.inj_succ, <- Z.add_1_r, inject_Z_plus in Ht.
      assert (H0 : 0 <= inject_Z (Z.of_nat (frames ops)))
        by (change 0 with (inject_Z 0); rewrite <- Zle_Qle; lia).
      change (inject_Z 1) with 1 in Ht.
      destruct (GM.loopScheduled gm) eqn:Hl.
      + pose proof (Math_min_le_r ((GM.currentTime f - GM.lastTime gm) / 1000) 0.1) as Hd.
        eexists. split; [apply loop_respawning; [exact Hl | exact Hs | lra]|].
        cbn [GM.state GM.respawningEntity GM.player GM.bot GM.respawnTimer
             GM.set_respawnTimer GM.set_lastTime].
        repeat split; try assumption; try reflexivity. lra.
      + exists gm. rewrite loop_unscheduled by exact Hl. repeat split; auto. lra. }
  destruct Hstep as [gm1 [E1 [Hs1 [He1 [Hp1 [Hb1 Ht1]]]]]].
  destruct (IH gm1 Hs1) as [A [B [C [D E]]]].
  { destruct op; try exact Ht1; unfold frames in *; cbn [filter isFrame] in *; exact Ht. }
  simpl. rewrite E1. destruct (GM.run ops gm1) as [gm2 es]. simpl in *.
  repeat split; congruence.
Qed.

(** X16.  A respawn is never over in fewer than twenty frames.  The step of a
    frame is capped at 0.1 s, so from a manager that is [respawning] with the
    full delay of 2 s on its timer, any operations short of [restart] with
    fewer than 20 animation frames among them leave it [respawning] for the
    same entity, move neither combatant, and emit nothing, however much wall
    time the frames report. *)
Theorem X16_a_respawn_takes_at_least_twenty_frames :
  forall (host : Host) (ops : list GM.Op) (gm : GM.t),
    GM.state gm = GM.respawning ->
    GAME_CONSTANTS.RESPAWN_DELAY <= GM.respawnTimer gm ->
    Forall notRestart ops ->
    (frames ops < 20)%nat ->
    GM.state (fst (GM.run ops gm)) = GM.respawning
    /\ GM.respawningEntity (fst (GM.run ops gm)) = GM.respawningEntity gm
    /\ GM.player (fst (GM.run ops gm)) = GM.player gm
    /\ GM.bot (fst (GM.run ops gm)) = GM.bot gm
    /\ snd (GM.run ops gm) = map (fun _ => []) ops.
Proof.
  intros host ops gm Hs Ht Hops Hn. apply run_respawning; try assumption.
  assert (H : inject_Z (Z.of_nat (frames ops)) <= 19)
    by (change 19 with (inject_Z 19); rewrite <- Zle_Qle; lia).
  unfold GAME_CONSTANTS.RESPAWN_DELAY in Ht. lra.
Qed.

(** X16 on three frames a minute apart after the bot was killed. *)
Lemma X16_a_respawn_takes_at_least_twenty_frames_witness :
  GM.state (fst (GM.run (host := sampleHost)
                   [GM.AnimationFrame (frameAt 60000 noKeys);
                    GM.AnimationFrame (frameAt 120000 escapeKey);
                    GM.Unpause true;
                    GM.AnimationFrame (frameAt 180000 noKeys)]
                   botDownManager))
  = GM.respawning.
Proof.
  apply (X16_a_respawn_takes_at_least_twenty_frames sampleHost
           [GM.AnimationFrame (frameAt 60000 noKeys);
            GM.AnimationFrame (frameAt 120000 escapeKey);
            GM.Unpause true;
            GM.AnimationFrame (frameAt 180000 noKeys)]
           botDownManager).
  - reflexivity.
  - discriminate.
  - repeat constructor.
  - vm_compute. lia.
Defined.

(** *** The end of the loop *)

Ltac unscheduled_leaf :=
  let gm := fresh "gm" in
  let H := fresh "H" in
  intros gm H; try exact I; unfold unscheduled in *; simpl; exact H.

Lemma step_unscheduled {host : Host} op : preserves unscheduled anyEvent (GM.step op).
Proof.
  destruct op as [locked t1 t2 t3|locked|t1 t2|f]; cbn [GM.step].
  - preserve unscheduled_leaf.
  - preserve unscheduled_leaf.
  - preserve unscheduled_leaf.
  - intros gm H. rewrite loop_unscheduled by exact H. split; [exact H | constructor].
Qed.

Lemma run_unscheduled {host : Host} ops :
  forall gm, unscheduled gm ->
  unscheduled (fst (GM.run ops gm))
  /\ fst (GM.run ops gm) = fst (GM.run (calls ops) gm).
Proof.
  induction ops as [|op ops IH]; intros gm Hgm; [simpl; auto|].
  destruct op as [locked t1 t2 t3|locked|t1 t2|f].
  4: { cbn [calls filter isFrame negb GM.run GM.step]. fold (calls ops).
       rewrite loop_unscheduled by exact Hgm.
       destruct (IH gm Hgm) as [A B]. destruct (GM.run ops gm) as [gm2 es].
       simpl in *. auto. }
  all: cbn [calls filter isFrame negb GM.run]; fold (calls ops);
    match goal with Hg : unscheduled ?g |- context [GM.step ?op ?g] =>
      destruct (step_unscheduled op g Hg) as [H1 _];
      destruct (GM.step op g) as [gm1 e]
    end;
    simpl in H1; destruct (IH gm1 H1) as [A B];
    destruct (GM.run ops gm1) as [gm2 es]; destruct (GM.run (calls ops) gm1) as [gm3 es'];
    simpl in *; auto.
Qed.

(** X17.  The loop does not survive the end of a match.  The frame that ends
    a match returns before it asks for the next animation frame, and no
    method asks for one again: whatever operations follow, [restart] and
    [startGame] included, the loop stays unscheduled and the manager is the
    one that the same operations without their animation frames produce. *)
Theorem X17_after_the_match_has_ended_no_frame_runs_again :
  forall (host : Host) (f : GM.Frame) (gm : GM.t) (ops : list GM.Op),
    GM.loopScheduled gm = true ->
    GM.state gm = GM.playing ->
    InputManager.isKeyPressed (GM.input f) "escape" = false ->
    winConditionHolds f gm ->
    GM.loopScheduled (fst (GM.run ops (fst (GM.loop f gm)))) = false
    /\ fst (GM.run ops (fst (GM.loop f gm))) = fst (GM.run (calls ops) (fst (GM.loop f gm))).
Proof.
  intros host f gm ops Hl Hs He Hw. apply run_unscheduled.
  rewrite (loop_on_win f gm Hl Hs He Hw). apply endMatch_effect.
Qed.

(** X17 on a second match: after the bot's tenth kill, a restart and a new
    start, a frame a minute into the new match leaves all 300 s on its
    clock. *)
Lemma X17_after_the_match_has_ended_no_frame_runs_again_witness :
  GM.state (fst (GM.run (host := sampleHost)
                   [GM.Restart 7000 7000; GM.StartGame true 8000 8000 8000;
                    GM.AnimationFrame (frameAt 68000 noKeys)]
                   (fst (GM.loop (host := sampleHost) (frameAt 6000 noKeys) wonManager))))
  = GM.playing
  /\ GM.matchTimeRemaining
       (fst (GM.run (host := sampleHost)
               [GM.Restart 7000 7000; GM.StartGame true 8000 8000 8000;
                GM.AnimationFrame (frameAt 68000 noKeys)]
               (fst (GM.loop (host := sampleHost) (frameAt 6000 noKeys) wonManager))))
     = GAME_CONSTANTS.MATCH_TIME_LIMIT
  /\ GM.loopScheduled
       (fst (GM.run (host := sampleHost)
               [GM.Restart 7000 7000; GM.StartGame true 8000 8000 8000;
                GM.AnimationFrame (frameAt 68000 noKeys)]
               (fst (GM.loop (host := sampleHost) (frameAt 6000 noKeys) wonManager))))
     = false.
Proof.
  split; [reflexivity|]. split; [reflexivity|].
  apply (X17_after_the_match_has_ended_no_frame_runs_again sampleHost
           (frameAt 6000 noKeys) wonManager
           [GM.Restart 7000 7000; GM.StartGame true 8000 8000 8000;
            GM.AnimationFrame (frameAt 68000 noKeys)]).
  - reflexivity.
  - reflexivity.
  - reflexivity.
  - right. left. discriminate.
Defined.

(** *** Lives, states and kills *)

Lemma Forall_any (events : list GM.Event) : Forall anyEvent events.
Proof. apply Forall_forall. intros e _. exact I. Qed.

Lemma takeDamage_kills amount isHeadshot h :
  existsb Health.isDeath (snd (Health.takeDamage amount isHeadshot h)) = true ->
  Health.isDead (fst (Health.takeDamage amount isHeadshot h)) = true.
Proof.
  unfold Health.takeDamage, Health.isDead.
  destruct (Qle_bool (Health.health h) 0); [discriminate|].
  cbv zeta. cbn [fst snd Health.health existsb Health.isDeath orb].
  destruct (Qle_bool (Math_max 0 _) 0); [reflexivity | discriminate].
Qed.

Lemma takeDamage_spares amount isHeadshot h :
  Health.isDead h = false ->
  existsb Health.isDeath (snd (Health.takeDamage amount isHeadshot h)) = false ->
  Health.isDead (fst (Health.takeDamage amount isHeadshot h)) = false.
Proof.
  unfold Health.takeDamage, Health.isDead. intro H. rewrite H.
  cbv zeta. cbn [fst snd Health.health existsb Health.isDeath orb].
  destruct (Qle_bool (Math_max 0 _) 0); [discriminate | reflexivity].
Qed.

Lemma reset_alive h :
  0 < Health.maxHealth h ->
  Health.isDead (fst (Health.reset h)) = false
  /\ Health.maxHealth (fst (Health.reset h)) = Health.maxHealth h.
Proof.
  intro H. unfold Health.reset, Health.isDead. cbn [fst Health.health Health.maxHealth].
  split; [|reflexivity]. apply Qle_bool_false. exact H.
Qed.

Lemma player_update_life {host : Host} deltaTime input now groundHit p :
  Player.health (Player.update deltaTime input now groundHit p) = Player.health p
  /\ Player.isDead (Player.update deltaTime input now groundHit p) = Player.isDead p
  /\ Player.canControl (Player.update deltaTime input now groundHit p) = Player.canControl p.
Proof.
  rewrite update_parts. destruct (negb (Player.canControl p)); [repeat split; reflexivity|].
  destruct (colliders_keep p) as [_ [_ [_ [B0 [C0 D0]]]]].
  set (p0 := Player.updateBodyColliderPosition _) in *.
  destruct (look_keeps input p0) as [_ [B1 [C1 [D1 _]]]].
  set (p1 := Player_look input p0) in *.
  destruct (move_keeps deltaTime input p1) as [_ [_ [B2 [C2 [D2 _]]]]].
  set (p2 := Player_move deltaTime input p1) in *.
  destruct (ground_keeps now groundHit p2) as [_ [_ [_ [B3 [C3 [D3 _]]]]]].
  set (p3 := Player_ground now groundHit p2) in *.
  destruct (jump_keeps input p3) as [_ [_ [_ [B4 [C4 [D4 _]]]]]].
  rewrite B4, C4, D4, B3, C3, D3, B2, C2, D2, B1, C1, D1, B0, C0, D0.
  repeat split; reflexivity.
Qed.

Lemma bot_update_health {host : Host} deltaTime playerPosition env b :
  Bot.health (Bot.update deltaTime playerPosition env b) = Bot.health b.
Proof.
  unfold Bot.update. destruct (Health.isDead _); [reflexivity|]. cbv zeta.
  destruct (Qle_bool (Distance _ _) _); cbn [Bot.state Bot.set_state].
  - match goal with |- context [Bot.attackPlayer ?t ?d ?e ?x] =>
      destruct (attackPlayer_keeps t d e x) as [A _]; cbv zeta in A; rewrite A
    end.
    reflexivity.
  - match goal with |- context [Bot.chasePlayer ?t ?d ?e ?x] =>
      destruct (chasePlayer_keeps t d e x) as [A _]; cbv zeta in A; rewrite A
    end.
    reflexivity.
Qed.

Ltac life_unfold :=
  unfold oneKillAtMost, atDown, atPlaying, lifeOk, score in *.

Ltac life_leaf :=
  let gm := fresh "gm" in
  let H := fresh "H" in
  intros gm H; first [ exact I | life_unfold; simpl in *; exact H ].

Lemma botTakeDamage_life amount isHeadshot a b :
  triple (atPlaying a b) (GM.botTakeDamage amount isHeadshot)
         (fun gm => atPlaying a b gm \/ atDown GM.theBot (a + 1) b gm) anyEvent.
Proof.
  intros gm H. split; [|apply Forall_any].
  unfold GM.botTakeDamage, GM.bind. rewrite seq_fst. cbn [GM.modify fst].
  pose proof (takeDamage_kills amount isHeadshot (Bot.health (GM.bot gm))) as Hk.
  pose proof (takeDamage_spares amount isHeadshot (Bot.health (GM.bot gm))) as Hs.
  pose proof (takeDamage_maxHealth (Bot.health (GM.bot gm)) amount isHeadshot) as Hm.
  destruct (Health.takeDamage amount isHeadshot (Bot.health (GM.bot gm))) as [h' es].
  cbn [fst snd] in *.
  destruct H as [[M1 [M2 [Hr [Hp [Hb [Hd Hc]]]]]] [Hst [Ha Hb']]].
  assert (He : GM.respawningEntity gm = None).
  { destruct (GM.respawningEntity gm) eqn:E; [|reflexivity].
    assert (GM.state gm = GM.respawning) by (apply Hr; discriminate). congruence. }
  rewrite He in *. rewrite Hst in *. cbn [isEntity] in *.
  destruct (existsb Health.isDeath es).
  - right. unfold atDown, lifeOk, score. simpl.
    rewrite Hm, Hk by reflexivity. rewrite Hp, Hd, Hc, Ha, Hb'.
    repeat split; try assumption; try reflexivity; try discriminate; try congruence.
  - left. unfold atPlaying, lifeOk, score. simpl.
    rewrite Hm, Hs by (assumption || reflexivity). rewrite He, Hst, Hp, Hd, Hc.
    repeat split; try assumption; try reflexivity; try discriminate; try congruence.

Qed.

Lemma playerTakeDamage_life amount isHeadshot deathNow a b :
  triple (atPlaying a b) (GM.playerTakeDamage amount isHeadshot deathNow)
         (fun gm => atPlaying a b gm \/ atDown GM.thePlayer a (b + 1) gm) anyEvent.
Proof.
  intros gm H. split; [|apply Forall_any].
  unfold GM.playerTakeDamage, GM.bind. rewrite seq_fst. cbn [GM.modify fst].
  pose proof (takeDamage_kills amount isHeadshot (Player.health (GM.player gm))) as Hk.
  pose proof (takeDamage_spares amount isHeadshot (Player.health (GM.player gm))) as Hs.
  pose proof (takeDamage_maxHealth (Player.health (GM.player gm)) amount isHeadshot) as Hm.
  destruct (Health.takeDamage amount isHeadshot (Player.health (GM.player gm))) as [h' es].
  cbn [fst snd] in *.
  destruct H as [[M1 [M2 [Hr [Hp [Hb [Hd Hc]]]]]] [Hst [Ha Hb']]].
  assert (He : GM.respawningEntity gm = None).
  { destruct (GM.respawningEntity gm) eqn:E; [|reflexivity].
    assert (GM.state gm = GM.respawning) by (apply Hr; discriminate). congruence. }
  rewrite He in *. rewrite Hst in *. cbn [isEntity] in *.
  destruct (existsb Health.isDeath es).
  - right. unfold atDown, lifeOk, score. simpl.
    rewrite Hm, Hk by reflexivity. rewrite Hb, Ha, Hb'.
    repeat split; try assumption; try reflexivity; try discriminate; try congruence.
  - left. unfold atPlaying, lifeOk, score. simpl.
    rewrite Hm, Hs by (assumption || reflexivity). rewrite He, Hst, Hb, Hd, Hc.
    repeat split; try assumption; try reflexivity; try discriminate; try congruence.
Qed.

Lemma playerShooting_life {host : Host} f a b :
  triple (atPlaying a b) (GM.playerShooting f)
         (fun gm => atPlaying a b gm \/ atDown GM.theBot (a + 1) b gm) anyEvent.
Proof.
  unfold GM.playerShooting, GM.playerShootingWith, GM.when. apply triple_cond; [|apply triple_skip; tauto].
  apply triple_weaken with (P := atPlaying a b)
    (Q := fun gm => atPlaying a b gm \/ atDown GM.theBot (a + 1) b gm); [tauto | auto |].
  apply triple_seq with (M := atPlaying a b); [apply triple_modify; life_leaf|].
  apply triple_seq with (M := atPlaying a b); [apply triple_modify; life_leaf|].
  unfold GM.playerFire, GM.playerFireWith.
  apply triple_seq with (M := atPlaying a b); [apply preserves_emit; life_leaf|].
  apply triple_bind. intro r.
  apply triple_weaken with (P := atPlaying a b)
    (Q := fun gm => atPlaying a b gm \/ atDown GM.theBot (a + 1) b gm); [tauto | auto |].
  apply triple_seq with (M := atPlaying a b); [apply triple_modify; life_leaf|].
  destruct (snd r) as [| | |damage isHeadshot]; try (apply triple_skip; tauto).
  apply triple_seq with (M := fun gm => atPlaying a b gm \/ atDown GM.theBot (a + 1) b gm);
    [apply botTakeDamage_life|].
  preserve life_leaf.
Qed.

Lemma botShooting_life {host : Host} f a b :
  triple (fun gm => atPlaying a b gm \/ atDown GM.theBot (a + 1) b gm) (GM.botShooting f)
         (fun gm => atPlaying a b gm \/ atDown GM.theBot (a + 1) b gm
                    \/ atDown GM.thePlayer a (b + 1) gm) anyEvent.
Proof.
  unfold GM.botShooting, GM.botShootingWith, GM.when. apply triple_cond; [|apply triple_skip; tauto].
  apply triple_weaken with (P := atPlaying a b)
    (Q := fun gm => atPlaying a b gm \/ atDown GM.thePlayer a (b + 1) gm); [|tauto|].
  { intros gm [[H|H] Hc]; [exact H|]. exfalso.
    destruct H as [[_ [_ [_ [_ [Hb _]]]]] [_ [He _]]]. rewrite He in Hb.
    unfold GM.botMayShoot in Hc. rewrite Hb in Hc. cbn [isEntity negb andb] in Hc.
    rewrite andb_false_r in Hc. discriminate. }
  apply triple_cond; [|apply triple_skip; tauto].
  apply triple_weaken with (P := atPlaying a b)
    (Q := fun gm => atPlaying a b gm \/ atDown GM.thePlayer a (b + 1) gm); [tauto | auto |].
  apply triple_seq with (M := atPlaying a b); [apply triple_modify; life_leaf|].
  unfold GM.botFire, GM.botFireWith.
  apply triple_seq with (M := atPlaying a b); [apply preserves_emit; life_leaf|].
  apply triple_bind. intro r.
  apply triple_weaken with (P := atPlaying a b)
    (Q := fun gm => atPlaying a b gm \/ atDown GM.thePlayer a (b + 1) gm); [tauto | auto |].
  apply triple_seq with (M := atPlaying a b); [apply triple_modify; life_leaf|].
  destruct (snd r) as [| | |damage isHeadshot]; try (apply triple_skip; tauto).
  apply triple_seq with (M := fun gm => atPlaying a b gm \/ atDown GM.thePlayer a (b + 1) gm);
    [apply playerTakeDamage_life|].
  preserve life_leaf.
Qed.

Lemma updateEntities_life {host : Host} deltaTime f a b :
  preserves (atPlaying a b) anyEvent (GM.updateEntities deltaTime f).
Proof.
  unfold GM.updateEntities.
  apply preserves_seq; [apply preserves_emit; life_leaf|].
  apply preserves_seq.
  { apply preserves_modify. intros gm H. life_unfold.
    cbn [GM.player GM.bot GM.state GM.respawningEntity GM.playerKills GM.botKills
         GM.set_player].
    destruct (player_update_life deltaTime (GM.input f) (GM.groundNow f) (GM.groundHit f)
                (GM.player gm)) as [A [B C]].
    rewrite A, B, C. exact H. }
  apply preserves_seq; [apply preserves_emit; life_leaf|].
  apply preserves_modify. intros gm H. life_unfold.
  cbn [GM.player GM.bot GM.state GM.respawningEntity GM.playerKills GM.botKills GM.set_bot].
  rewrite bot_update_health. exact H.
Qed.

Lemma triple_modify_seq (P Q : GM.t -> Prop) E (f : GM.t -> GM.t) (a : GM.Action) :
  triple (fun gm1 => exists gm, P gm /\ gm1 = f gm) a Q E ->
  triple P (GM.seq (GM.modify f) a) Q E.
Proof.
  intro H. apply triple_seq with (M := fun gm1 => exists gm, P gm /\ gm1 = f gm);
    [|exact H].
  apply triple_modify. intros gm Hgm. exists gm. auto.
Qed.

Lemma endMatch_life a b :
  triple (atPlaying a b) (GM.seq GM.endMatch GM.returnFromLoop)
         (fun gm => lifeOk gm /\ score a b gm) anyEvent.
Proof.
  apply triple_seq with (M := fun gm => lifeOk gm /\ score a b gm); [|preserve life_leaf].
  unfold GM.endMatch. apply triple_modify_seq, triple_modify_seq.
  apply triple_weaken with (P := fun gm => lifeOk gm /\ score a b gm)
                           (Q := fun gm => lifeOk gm /\ score a b gm); [|auto|].
  - intros gm2 [gm1 [[gm [H ->]] ->]]. life_unfold. simpl.
    destruct H as [[M1 [M2 [Hr [Hp [Hb [Hd Hc]]]]]] [Hst [Ha Hb']]].
    rewrite Hst in *.
    repeat split; try assumption; try discriminate.
    + intro Hn. apply Hr in Hn. discriminate.
  - preserve life_leaf.
Qed.

Lemma playingFrame_life {host : Host} deltaTime f a b :
  triple (atPlaying a b) (GM.playingFrame deltaTime f)
         (fun gm => lifeOk gm /\ oneKillAtMost a b gm) anyEvent.
Proof.
  unfold GM.playingFrame.
  apply triple_seq with (M := atPlaying a b);
    [unfold GM.updateMatchTimer; apply triple_modify; life_leaf|].
  assert (Hend : forall c : GM.t -> bool,
             triple (fun gm => atPlaying a b gm /\ c gm = true)
                    (GM.seq GM.endMatch GM.returnFromLoop)
                    (fun gm => lifeOk gm /\ oneKillAtMost a b gm) anyEvent).
  { intro c. eapply triple_weaken; [| |apply (endMatch_life a b)].
    - simpl. tauto.
    - intros gm [H1 H2]. split; [exact H1 | left; exact H2]. }
  apply triple_cond; [apply Hend|].
  apply triple_cond.
  { eapply triple_weaken; [| |apply (Hend (fun _ => true))]; simpl; tauto. }
  apply triple_cond.
  { eapply triple_weaken; [| |apply (Hend (fun _ => true))]; simpl; tauto. }
  intros gm [[[H H1] H2] H3].
  assert (Ha : (a < GAME_CONSTANTS.WIN_CONDITION_KILLS)%Z).
  { destruct H as [_ [_ [<- _]]]. apply Z.leb_gt. exact H1. }
  assert (Hb : (b < GAME_CONSTANTS.WIN_CONDITION_KILLS)%Z).
  { destruct H as [_ [_ [_ <-]]]. apply Z.leb_gt. exact H2. }
  assert (Hin : triple (atPlaying a b)
                  (GM.seq (GM.updateEntities deltaTime f)
                     (GM.seq (GM.playerShooting f) (GM.seq (GM.botShooting f) GM.updateStats)))
                  (fun gm => atPlaying a b gm \/ atDown GM.theBot (a + 1) b gm
                             \/ atDown GM.thePlayer a (b + 1) gm) anyEvent).
  { apply triple_seq with (M := atPlaying a b); [apply updateEntities_life|].
    apply triple_seq with (M := fun gm => atPlaying a b gm \/ atDown GM.theBot (a + 1) b gm);
      [apply playerShooting_life|].
    apply triple_seq with (M := fun gm => atPlaying a b gm \/ atDown GM.theBot (a + 1) b gm
                                          \/ atDown GM.thePlayer a (b + 1) gm);
      [apply botShooting_life|].
    preserve life_leaf. }
  destruct (Hin gm H) as [Hq He]. split; [|exact He].
  destruct Hq as [Hq|[Hq|Hq]].
  - split; [apply Hq | left; apply Hq].
  - split; [apply Hq | right; auto].
  - split; [apply Hq | right; auto].
Qed.

Lemma handleEscape_life {host : Host} f a b :
  preserves (fun gm => lifeOk gm /\ score a b gm) anyEvent (GM.handleEscape f).
Proof.
  unfold GM.handleEscape. apply preserves_when. apply triple_bind. intro s.
  destruct s; try (apply triple_skip; tauto).
  - intros gm [[H [Ha Hb]] Hst]. split; [|apply Forall_any].
    life_unfold. simpl.
    destruct H as [M1 [M2 [Hr [Hp [Hb0 [Hd Hc]]]]]]. rewrite Hst in *.
    repeat split; try assumption; try discriminate.
    intro Hn. apply Hr in Hn. discriminate.
  - apply triple_emit. intros gm [H _]. split; [exact H | exact I].
Qed.

Lemma player_respawn_life spawnPoint p :
  0 < Health.maxHealth (Player.health p) ->
  Health.isDead (Player.health (Player.respawn spawnPoint p)) = false
  /\ Health.maxHealth (Player.health (Player.respawn spawnPoint p))
     = Health.maxHealth (Player.health p)
  /\ Player.isDead (Player.respawn spawnPoint p) = false
  /\ Player.canControl (Player.respawn spawnPoint p) = true.
Proof.
  intro H. destruct (reset_alive _ H) as [A B]. unfold Player.respawn. cbv zeta.
  cbn [Player.health Player.isDead Player.canControl Player.set_canControl Player.set_isDead
       Player.set_health Player.set_camera_rotation_x Player.set_camera_rotation_y
       Player.set_currentRotationX Player.set_currentRotationY Player.set_camera_position].
  auto.
Qed.

Lemma bot_respawn_life spawnPoint b :
  0 < Health.maxHealth (Bot.health b) ->
  Health.isDead (Bot.health (Bot.respawn spawnPoint b)) = false
  /\ Health.maxHealth (Bot.health (Bot.respawn spawnPoint b)) = Health.maxHealth (Bot.health b).
Proof.
  intro H. destruct (reset_alive _ H) as [A B]. unfold Bot.respawn. cbv zeta.
  cbn [Bot.health Bot.set_state Bot.set_lastShotTime Bot.set_health Bot.set_mesh].
  auto.
Qed.

Lemma respawningFrame_life {host : Host} deltaTime f a b :
  triple (fun gm => (lifeOk gm /\ score a b gm) /\ GM.state gm = GM.respawning)
         (GM.respawningFrame deltaTime f)
         (fun gm => lifeOk gm /\ score a b gm) anyEvent.
Proof.
  unfold GM.respawningFrame.
  apply triple_seq
    with (M := fun gm => (lifeOk gm /\ score a b gm) /\ GM.state gm = GM.respawning);
    [apply triple_modify; life_leaf|].
  unfold GM.when. apply triple_cond; [|apply triple_skip; tauto].
  intros gm [[[H [Ha Hb]] Hst] _]. split; [|apply Forall_any].
  destruct H as [M1 [M2 [Hr [Hp [Hb0 [Hd Hc]]]]]].
  rewrite seq_fst. unfold GM.bind.
  destruct (GM.respawningEntity gm) as [[|]|] eqn:E.
  - destruct (player_respawn_life GameScene.playerSpawn (GM.player gm) M1) as [R1 [R2 [R3 R4]]].
    life_unfold.
    cbn -[Player.respawn Bot.respawn Health.isDead].
    rewrite R1, R2, R3, R4. cbn [isEntity] in *.
    repeat split; try assumption; try reflexivity; try discriminate; try congruence.
  - destruct (bot_respawn_life GameScene.botSpawn (GM.bot gm) M2) as [R1 R2].
    life_unfold.
    cbn -[Player.respawn Bot.respawn Health.isDead].
    rewrite R1, R2. cbn [isEntity] in *. rewrite Hst in Hc.
    repeat split; try assumption; try reflexivity; try discriminate; try congruence.
  - exfalso. now apply Hr.
Qed.

Lemma loop_life {host : Host} f a b :
  triple (fun gm => lifeOk gm /\ score a b gm) (GM.loop f)
         (fun gm => lifeOk gm /\ oneKillAtMost a b gm) anyEvent.
Proof.
  unfold GM.loop.
  apply triple_cond;
    [apply triple_skip; intros gm [[H1 H2] _]; split; [exact H1 | left; exact H2]|].
  apply triple_bind. intro deltaTime.
  apply triple_weaken with (P := fun gm => lifeOk gm /\ score a b gm)
                           (Q := fun gm => lifeOk gm /\ oneKillAtMost a b gm); [tauto|auto|].
  apply triple_seq with (M := fun gm => lifeOk gm /\ score a b gm);
    [apply triple_modify; life_leaf|].
  apply triple_seq with (M := fun gm => lifeOk gm /\ score a b gm);
    [apply handleEscape_life|].
  apply triple_bind. intro s.
  destruct s;
    try (apply triple_skip; intros gm [[H1 H2] _]; split; [exact H1 | left; exact H2]).
  - eapply triple_weaken; [| |apply (playingFrame_life deltaTime f a b)].
    + intros gm [[H1 H2] H3]. split; [exact H1|]. split; [exact H3 | exact H2].
    + auto.
  - eapply triple_weaken; [| |apply (respawningFrame_life deltaTime f a b)].
    + auto.
    + intros gm [H1 H2]. split; [exact H1 | left; exact H2].
Qed.

Lemma startGame_life locked t1 t2 t3 a b :
  preserves (fun gm => lifeOk gm /\ score a b gm) anyEvent (GM.startGame locked t1 t2 t3).
Proof.
  intros gm [H Hs]. split; [|apply Forall_any].
  unfold GM.startGame, GM.bind. destruct (GM.state gm) eqn:Hst; try (split; assumption).
  destruct locked; [|split; assumption].
  life_unfold. simpl. rewrite Hst in H.
  destruct H as [M1 [M2 [Hr [Hp [Hb0 [Hd Hc]]]]]].
  repeat split; try assumption; try discriminate; try apply Hs.
  intro Hn. apply Hr in Hn. discriminate.
Qed.

Lemma unpause_life locked a b :
  preserves (fun gm => lifeOk gm /\ score a b gm) anyEvent (GM.unpause locked).
Proof.
  intros gm [H Hs]. split; [|apply Forall_any].
  unfold GM.unpause, GM.bind. destruct (GM.state gm) eqn:Hst; try (split; assumption).
  destruct locked; [|split; assumption].
  life_unfold. simpl. rewrite Hst in H.
  destruct H as [M1 [M2 [Hr [Hp [Hb0 [Hd Hc]]]]]].
  assert (He : GM.respawningEntity gm = None).
  { destruct (GM.respawningEntity gm) eqn:E; [|reflexivity].
    assert (GM.paused = GM.respawning) by (apply Hr; discriminate). discriminate. }
  rewrite He in *. cbn [isEntity] in *.
  repeat split; try assumption; try discriminate; try apply Hs; try congruence.
  rewrite Hd, Hp. reflexivity.
Qed.

Lemma restart_life t1 t2 gm :
  lifeOk gm -> lifeOk (fst (GM.restart t1 t2 gm)) /\ score 0 0 (fst (GM.restart t1 t2 gm)).
Proof.
  intros [M1 [M2 _]].
  destruct (player_respawn_life GameScene.playerSpawn (GM.player gm) M1) as [R1 [R2 [R3 R4]]].
  destruct (bot_respawn_life GameScene.botSpawn (GM.bot gm) M2) as [B1 B2].
  life_unfold. cbn -[Player.respawn Bot.respawn Health.isDead].
  rewrite R1, R2, R3, R4, B1, B2.
  repeat split; try assumption; try reflexivity; try discriminate; try congruence.
Qed.

Lemma step_life {host : Host} op a b :
  triple (fun gm => lifeOk gm /\ score a b gm) (GM.step op)
         (fun gm => lifeOk gm /\ (oneKillAtMost a b gm \/ score 0 0 gm)) anyEvent.
Proof.
  destruct op as [locked t1 t2 t3|locked|t1 t2|f]; cbn [GM.step].
  - eapply triple_weaken; [| |apply (startGame_life locked t1 t2 t3 a b)]; [auto|].
    intros gm [H1 H2]. split; [exact H1 | left; left; exact H2].
  - eapply triple_weaken; [| |apply (unpause_life locked a b)]; [auto|].
    intros gm [H1 H2]. split; [exact H1 | left; left; exact H2].
  - intros gm [H _]. split; [|apply Forall_any].
    destruct (restart_life t1 t2 gm H) as [H1 H2]. split; [exact H1 | right; exact H2].
  - eapply triple_weaken; [| |apply (loop_life f a b)]; [auto|].
    intros gm [H1 H2]. split; [exact H1 | left; exact H2].
Qed.

Lemma step_kills {host : Host} op gm :
  lifeOk gm -> killsOk gm ->
  lifeOk (fst (GM.step op gm)) /\ killsOk (fst (GM.step op gm)).
Proof.
  intros H K.
  destruct (step_life op (GM.playerKills gm) (GM.botKills gm) gm
              (conj H (conj eq_refl eq_refl))) as [[H1 H2] _].
  split; [exact H1|].
  unfold killsOk, oneKillAtMost, atDown, score, GAME_CONSTANTS.WIN_CONDITION_KILLS in *.
  destruct H2 as [[[-> ->]|[Ha [Hb [[_ [_ [_ [_ [-> ->]]]]]|[_ [_ [_ [_ [-> ->]]]]]]]]]|[-> ->]];
    lia.
Qed.

Lemma run_kills {host : Host} ops :
  forall gm, lifeOk gm -> killsOk gm ->
  lifeOk (fst (GM.run ops gm)) /\ killsOk (fst (GM.run ops gm)).
Proof.
  induction ops as [|op ops IH]; intros gm H K; [simpl; auto|].
  destruct (step_kills op gm H K) as [H1 K1]. simpl.
  destruct (GM.step op gm) as [gm1 e]. simpl in H1, K1.
  specialize (IH gm1 H1 K1). destruct (GM.run ops gm1) as [gm2 es]. exact IH.
Qed.

Lemma new_life t1 t2 t0 playerHead playerBody botMesh botHead :
  lifeOk (GM.new t1 t2 t0 playerHead playerBody botMesh botHead)
  /\ killsOk (GM.new t1 t2 t0 playerHead playerBody botMesh botHead).
Proof.
  unfold lifeOk, killsOk. simpl.
  repeat split; try reflexivity; try discriminate; try lia; try congruence.
Qed.

(** X18.  The state says who is alive.  After any operations on a manager
    fresh from its constructor: outside [respawning] both combatants are
    alive; in [respawning] exactly one of them is dead, and it is the entity
    the manager is respawning; and the player is in control exactly when it is
    alive and the match is neither paused nor over, so always in [playing]. *)
Theorem X18_the_state_tells_who_is_alive :
  forall (host : Host) (t1 t2 : Z) (t0 : Q) (playerHead playerBody botMesh botHead : nat)
         (ops : list GM.Op),
    let gm := fst (GM.run ops (GM.new t1 t2 t0 playerHead playerBody botMesh botHead)) in
    lifeOk gm
    /\ (GM.state gm <> GM.respawning ->
        Health.isDead (Player.health (GM.player gm)) = false
        /\ Health.isDead (Bot.health (GM.bot gm)) = false)
    /\ (GM.state gm = GM.respawning ->
        Health.isDead (Player.health (GM.player gm))
        = negb (Health.isDead (Bot.health (GM.bot gm))))
    /\ (GM.state gm = GM.playing -> Player.canControl (GM.player gm) = true).
Proof.
  intros host t1 t2 t0 playerHead playerBody botMesh botHead ops gm.
  destruct (new_life t1 t2 t0 playerHead playerBody botMesh botHead) as [H0 K0].
  destruct (run_kills ops _ H0 K0) as [H _]. fold gm in H.
  split; [exact H|].
  destruct H as [_ [_ [Hr [Hp [Hb [Hd Hc]]]]]].
  split; [|split].
  - intro Hn. destruct (GM.respawningEntity gm) as [e|] eqn:E.
    + elim Hn. apply Hr. discriminate.
    + split; assumption.
  - intro Hs. apply Hr in Hs. rewrite Hp, Hb.
    destruct (GM.respawningEntity gm) as [[|]|]; try reflexivity. now elim Hs.
  - intro Hs. rewrite Hs in Hc, Hr. rewrite Hc, Hd, Hp.
    destruct (GM.respawningEntity gm) as [e|] eqn:E; [|reflexivity].
    assert (Habs : GM.playing = GM.respawning) by (apply Hr; discriminate). discriminate.
Qed.

(** X19.  Each side has between 0 and 10 kills and the two sides never have
    10 together, after any operations on a manager fresh from its constructor:
    so a side that has reached the win condition is the one [getMatchWinner]
    names, and a match won on kills is never a tie. *)
Theorem X19_kills_stay_within_the_win_condition :
  forall (host : Host) (t1 t2 : Z) (t0 : Q) (playerHead playerBody botMesh botHead : nat)
         (ops : list GM.Op),
    let gm := fst (GM.run ops (GM.new t1 t2 t0 playerHead playerBody botMesh botHead)) in
    killsOk gm
    /\ (GM.playerKills gm = GAME_CONSTANTS.WIN_CONDITION_KILLS
        -> getMatchWinner gm = playerWins)
    /\ (GM.botKills gm = GAME_CONSTANTS.WIN_CONDITION_KILLS -> getMatchWinner gm = botWins).
Proof.
  intros host t1 t2 t0 playerHead playerBody botMesh botHead ops gm.
  destruct (new_life t1 t2 t0 playerHead playerBody botMesh botHead) as [H0 K0].
  destruct (run_kills ops _ H0 K0) as [_ K]. fold gm in K.
  split; [exact K|].
  unfold killsOk, getMatchWinner, GAME_CONSTANTS.WIN_CONDITION_KILLS in *.
  split; intro E.
  - assert (L : (GM.botKills gm <? GM.playerKills gm)%Z = true) by (apply Z.ltb_lt; lia).
    now rewrite L.
  - assert (L1 : (GM.botKills gm <? GM.playerKills gm)%Z = false) by (apply Z.ltb_ge; lia).
    assert (L2 : (GM.playerKills gm <? GM.botKills gm)%Z = true) by (apply Z.ltb_lt; lia).
    now rewrite L1, L2.
Qed.

(** X20.  One frame scores one kill at most.  On a manager whose state and
    lives agree, an animation frame either leaves both kill counts as they
    were, or adds one kill to one side; it does so only while both sides are
    below the win condition, and then the manager is [respawning] for the
    victim with the full respawn delay on its timer.  The state and the lives
    agree again after the frame. *)
Theorem X20_a_frame_scores_one_kill_at_most :
  forall (host : Host) (f : GM.Frame) (gm : GM.t),
    lifeOk gm ->
    lifeOk (fst (GM.loop f gm))
    /\ oneKillAtMost (GM.playerKills gm) (GM.botKills gm) (fst (GM.loop f gm)).
Proof.
  intros host f gm H.
  apply (loop_life f (GM.playerKills gm) (GM.botKills gm) gm).
  split; [exact H | split; reflexivity].
Qed.

(** X20 on a lethal headshot: the player's first kill. *)
Lemma X20_a_frame_scores_one_kill_at_most_witness :
  oneKillAtMost 0 0 (fst (GM.loop (host := sampleHost) (headshotFrame 6000) woundedManager))
  /\ GM.playerKills (fst (GM.loop (host := sampleHost) (headshotFrame 6000) woundedManager))
     = 1%Z
  /\ GM.state (fst (GM.loop (host := sampleHost) (headshotFrame 6000) woundedManager))
     = GM.respawning.
Proof.
  split; [|split; reflexivity].
  apply (X20_a_frame_scores_one_kill_at_most sampleHost (headshotFrame 6000) woundedManager).
  unfold lifeOk. simpl.
  repeat split; try reflexivity; try discriminate; try congruence.
Defined.

(** *** The statistics *)

Ltac mirror_leaf :=
  let gm := fresh "gm" in
  let H := fresh "H" in
  intros gm H;
  first [ exact I
        | unfold statsAgree, mirrorOk, freshOk in *; simpl in *; exact H ].

Lemma botTakeDamage_mirror amount isHeadshot :
  preserves mirrorOk anyEvent (GM.botTakeDamage amount isHeadshot).
Proof.
  intros gm H. split; [|apply Forall_any].
  unfold GM.botTakeDamage, GM.bind. rewrite seq_fst. cbn [GM.modify fst].
  destruct (Health.takeDamage amount isHeadshot (Bot.health (GM.bot gm))) as [h' es].
  cbn [fst snd]. unfold mirrorOk in *.
  destruct (existsb Health.isDeath es); simpl; intuition.
Qed.

Lemma playerTakeDamage_mirror amount isHeadshot deathNow :
  preserves mirrorOk anyEvent (GM.playerTakeDamage amount isHeadshot deathNow).
Proof.
  intros gm H. split; [|apply Forall_any].
  unfold GM.playerTakeDamage, GM.bind. rewrite seq_fst. cbn [GM.modify fst].
  destruct (Health.takeDamage amount isHeadshot (Player.health (GM.player gm))) as [h' es].
  cbn [fst snd]. unfold mirrorOk in *.
  destruct (existsb Health.isDeath es); simpl; [|intuition].
  destruct H as [H1 [H2 [H3 [H4 [H5 [H6 H7]]]]]].
  repeat split; try assumption; try lia.
  - rewrite length_app. simpl. lia.
  - intro E. destruct (GM.lifeDurations gm); discriminate.
Qed.

Lemma playerOnHit_mirror {host : Host} isHeadshot :
  preserves mirrorOk anyEvent (GM.playerOnHit isHeadshot).
Proof.
  intros gm H. split; [|apply Forall_any].
  unfold mirrorOk in *. destruct isHeadshot; simpl; intuition lia.
Qed.

Lemma playerShooting_mirror {host : Host} f :
  preserves mirrorOk anyEvent (GM.playerShooting f).
Proof.
  unfold GM.playerShooting, GM.playerShootingWith. apply preserves_when.
  apply triple_modify_seq, triple_modify_seq.
  apply triple_weaken with (P := mirrorOk) (Q := mirrorOk); [|auto|].
  { intros gm2 [gm1 [[gm [H ->]] ->]]. unfold mirrorOk in *. simpl. intuition lia. }
  unfold GM.playerFire, GM.playerFireWith.
  apply preserves_seq; [apply preserves_emit; mirror_leaf|].
  apply preserves_bind. intro r.
  apply preserves_seq; [apply preserves_modify; mirror_leaf|].
  destruct (snd r) as [| | |damage isHeadshot]; try apply preserves_skip.
  apply preserves_seq; [apply botTakeDamage_mirror | apply playerOnHit_mirror].
Qed.

Lemma botShooting_mirror {host : Host} f :
  preserves mirrorOk anyEvent (GM.botShooting f).
Proof.
  unfold GM.botShooting, GM.botShootingWith. apply preserves_when, preserves_when.
  apply preserves_seq; [apply preserves_modify; mirror_leaf|].
  unfold GM.botFire, GM.botFireWith.
  apply preserves_seq; [apply preserves_emit; mirror_leaf|].
  apply preserves_bind. intro r.
  apply preserves_seq; [apply preserves_modify; mirror_leaf|].
  destruct (snd r) as [| | |damage isHeadshot]; try apply preserves_skip.
  apply preserves_seq; [apply playerTakeDamage_mirror|].
  unfold GM.botOnHit. apply preserves_modify; mirror_leaf.
Qed.

Lemma updateStats_fst gm :
  fst (GM.updateStats gm)
  = let s := GameStats.set_botAccuracy
               (GM.accuracy (GM.botShotsHit gm) (GM.botShotsFired gm))
               (GameStats.set_playerAccuracy
                  (GM.accuracy (GM.playerShotsHit gm) (GM.playerShotsFired gm))
                  (GM.stats gm)) in
    if (0 <? List.length (GM.lifeDurations gm))%nat
    then GM.set_stats
           (GameStats.set_averageLifeDuration
              (fold_left Qplus (GM.lifeDurations gm) 0
               / inject_Z (Z.of_nat (List.length (GM.lifeDurations gm)))) s) gm
    else GM.set_stats s gm.
Proof.
  unfold GM.updateStats. rewrite !seq_fst. cbn [GM.modify fst]. unfold GM.when, GM.cond.
  cbn [GM.lifeDurations GM.set_stats].
  destruct (0 <? List.length (GM.lifeDurations gm))%nat; reflexivity.
Qed.

Lemma updateStats_fresh : triple mirrorOk GM.updateStats statsAgree anyEvent.
Proof.
  intros gm H. split; [|apply Forall_any].
  rewrite updateStats_fst. cbv zeta.
  unfold statsAgree, mirrorOk, freshOk, averageOf in *.
  destruct H as [H1 [H2 [H3 [H4 [H5 [H6 H7]]]]]].
  destruct (0 <? List.length (GM.lifeDurations gm))%nat eqn:E;
    cbn [GM.stats GM.set_stats GM.lifeDurations GM.playerShotsHit GM.playerShotsFired
         GM.botShotsHit GM.botShotsFired GM.playerKills GM.botKills
         GameStats.set_averageLifeDuration
         GameStats.set_botAccuracy GameStats.set_playerAccuracy GameStats.playerAccuracy
         GameStats.botAccuracy GameStats.playerKills GameStats.botKills GameStats.shotsFired
         GameStats.shotsHit GameStats.headshots GameStats.averageLifeDuration];
    rewrite E.
  - split; [|repeat split].
    split; [exact H1|]. split; [exact H2|]. split; [exact H3|]. split; [exact H4|].
    split; [exact H5|]. split; [exact H6|].
    intro El. rewrite El in E. discriminate.
  - split; [|repeat split].
    + split; [exact H1|]. split; [exact H2|]. split; [exact H3|]. split; [exact H4|].
      split; [exact H5|]. split; [exact H6|]. exact H7.
    + apply H7. destruct (GM.lifeDurations gm); [reflexivity | discriminate].
Qed.

Lemma endMatch_stats : preserves statsAgree anyEvent (GM.seq GM.endMatch GM.returnFromLoop).
Proof.
  apply preserves_seq; [|preserve mirror_leaf].
  unfold GM.endMatch.
  apply preserves_seq; [apply preserves_modify; mirror_leaf|].
  apply preserves_seq; [apply preserves_modify; mirror_leaf|].
  apply preserves_seq; [|preserve mirror_leaf].
  eapply triple_weaken; [| |apply updateStats_fresh]; [|auto].
  intros gm H. apply H.
Qed.

Lemma playingFrame_agree {host : Host} deltaTime f :
  preserves statsAgree anyEvent (GM.playingFrame deltaTime f).
Proof.
  unfold GM.playingFrame.
  apply preserves_seq; [unfold GM.updateMatchTimer; apply preserves_modify; mirror_leaf|].
  apply preserves_cond; [apply endMatch_stats|].
  apply preserves_cond; [apply endMatch_stats|].
  apply preserves_cond; [apply endMatch_stats|].
  apply triple_weaken with (P := mirrorOk) (Q := statsAgree);
    [intros gm H; apply H | auto |].
  apply triple_seq with (M := mirrorOk); [preserve mirror_leaf|].
  apply triple_seq with (M := mirrorOk); [apply playerShooting_mirror|].
  apply triple_seq with (M := mirrorOk); [apply botShooting_mirror|].
  apply updateStats_fresh.
Qed.

Lemma loop_agree {host : Host} f : preserves statsAgree anyEvent (GM.loop f).
Proof.
  unfold GM.loop. apply preserves_cond; [apply preserves_skip|].
  apply preserves_bind. intro deltaTime.
  apply preserves_seq; [apply preserves_modify; mirror_leaf|].
  apply preserves_seq; [preserve mirror_leaf|].
  apply preserves_bind. intro s.
  destruct s; try apply preserves_skip.
  - apply playingFrame_agree.
  - preserve mirror_leaf.
Qed.

Lemma step_agree {host : Host} op : preserves statsAgree anyEvent (GM.step op).
Proof.
  destruct op as [locked t1 t2 t3|locked|t1 t2|f]; cbn [GM.step].
  - preserve mirror_leaf.
  - preserve mirror_leaf.
  - intros gm _. split; [|apply Forall_any].
    unfold statsAgree, mirrorOk, freshOk. simpl.
    repeat split; try reflexivity; lia.
  - apply loop_agree.
Qed.

Lemma run_agree {host : Host} ops :
  forall gm, statsAgree gm -> statsAgree (fst (GM.run ops gm)).
Proof.
  induction ops as [|op ops IH]; intros gm H; [exact H|].
  destruct (step_agree op gm H) as [H1 _]. simpl.
  destruct (GM.step op gm) as [gm1 e]. simpl in H1.
  specialize (IH gm1 H1). destruct (GM.run ops gm1) as [gm2 es]. exact IH.
Qed.

(** X21.  The statistics agree with the counters.  After any operations on a
    manager fresh from its constructor, the kills, shots and hits in [stats]
    are those of the manager's own counters, the headshots are between 0 and
    the hits, one life duration is recorded per kill of the bot's, and the two
    accuracies and the average life duration are the values [updateStats]
    computes from the counters as they are now. *)
Theorem X21_the_statistics_agree_with_the_counters :
  forall (host : Host) (t1 t2 : Z) (t0 : Q) (playerHead playerBody botMesh botHead : nat)
         (ops : list GM.Op),
    let gm := fst (GM.run ops (GM.new t1 t2 t0 playerHead playerBody botMesh botHead)) in
    GameStats.playerKills (GM.stats gm) = GM.playerKills gm
    /\ GameStats.botKills (GM.stats gm) = GM.botKills gm
    /\ GameStats.shotsFired (GM.stats gm) = GM.playerShotsFired gm
    /\ GameStats.shotsHit (GM.stats gm) = GM.playerShotsHit gm
    /\ (0 <= GameStats.headshots (GM.stats gm) <= GM.playerShotsHit gm)%Z
    /\ Z.of_nat (List.length (GM.lifeDurations gm)) = GM.botKills gm
    /\ GameStats.playerAccuracy (GM.stats gm)
       = GM.accuracy (GM.playerShotsHit gm) (GM.playerShotsFired gm)
    /\ GameStats.botAccuracy (GM.stats gm)
       = GM.accuracy (GM.botShotsHit gm) (GM.botShotsFired gm)
    /\ GameStats.averageLifeDuration (GM.stats gm) = averageOf (GM.lifeDurations gm).
Proof.
  intros host t1 t2 t0 playerHead playerBody botMesh botHead ops gm.
  assert (H0 : statsAgree (GM.new t1 t2 t0 playerHead playerBody botMesh botHead)).
  { unfold statsAgree, mirrorOk, freshOk. simpl. repeat split; try reflexivity; lia. }
  pose proof (run_agree ops _ H0) as H. fold gm in H.
  destruct H as [[H1 [H2 [H3 [H4 [H5 [H6 H7]]]]]] [F1 [F2 F3]]].
  rewrite <- H4 at 1. repeat split; try assumption; lia.
Qed.

(** *** The state and its announcements *)

Lemma announced_app s e1 e2 : announced s (e1 ++ e2) = announced (announced s e1) e2.
Proof. unfold announced. apply fold_left_app. Qed.

Lemma quiet_skip : quiet GM.skip.
Proof. intro gm. split; [reflexivity | intro s; reflexivity]. Qed.

Lemma quiet_modify (f : GM.t -> GM.t) :
  (forall gm, GM.state (f gm) = GM.state gm) -> quiet (GM.modify f).
Proof. intros H gm. split; [apply H | intro s; reflexivity]. Qed.

Lemma quiet_emit (e : GM.t -> GM.Event) :
  (forall gm, notStateChange (e gm)) -> quiet (GM.emit e).
Proof.
  intros H gm. split; [reflexivity|]. intro s. specialize (H gm). simpl.
  destruct (e gm); try reflexivity. contradiction.
Qed.

Lemma quiet_seq (a b : GM.Action) : quiet a -> quiet b -> quiet (GM.seq a b).
Proof.
  intros Ha Hb gm. rewrite seq_fst, seq_snd.
  destruct (Ha gm) as [A1 A2]. destruct (Hb (fst (a gm))) as [B1 B2].
  split; [congruence|]. intro s. now rewrite announced_app, A2, B2.
Qed.

Lemma quiet_cond (c : GM.t -> bool) (a b : GM.Action) :
  quiet a -> quiet b -> quiet (GM.cond c a b).
Proof. intros Ha Hb gm. unfold GM.cond. destruct (c gm); [apply Ha | apply Hb]. Qed.

Lemma quiet_when (c : GM.t -> bool) (a : GM.Action) : quiet a -> quiet (GM.when c a).
Proof. intro H. apply quiet_cond; [exact H | apply quiet_skip]. Qed.

Lemma quiet_bind {A : Type} (r : GM.t -> A) (k : A -> GM.Action) :
  (forall x, quiet (k x)) -> quiet (GM.bind r k).
Proof. intros H gm. unfold GM.bind. apply H. Qed.

Lemma resync_notify : resync GM.notifyStateChange.
Proof. intros gm s. reflexivity. Qed.

Lemma resync_seq_r (a b : GM.Action) : resync b -> resync (GM.seq a b).
Proof. intros Hb gm s. rewrite seq_fst, seq_snd, announced_app. apply Hb. Qed.

Lemma resync_seq_l (a b : GM.Action) : resync a -> quiet b -> resync (GM.seq a b).
Proof.
  intros Ha Hb gm s. rewrite seq_fst, seq_snd, announced_app.
  destruct (Hb (fst (a gm))) as [B1 B2]. now rewrite B2, B1.
Qed.

Lemma insync_of_quiet (a : GM.Action) : quiet a -> insync a.
Proof. intros H gm. destruct (H gm) as [A1 A2]. now rewrite A2, A1. Qed.

Lemma insync_of_resync (a : GM.Action) : resync a -> insync a.
Proof. intros H gm. apply H. Qed.

Lemma insync_seq (a b : GM.Action) : insync a -> insync b -> insync (GM.seq a b).
Proof.
  intros Ha Hb gm. rewrite seq_fst, seq_snd, announced_app, Ha. apply Hb.
Qed.

Lemma insync_cond (c : GM.t -> bool) (a b : GM.Action) :
  insync a -> insync b -> insync (GM.cond c a b).
Proof. intros Ha Hb gm. unfold GM.cond. destruct (c gm); [apply Ha | apply Hb]. Qed.

Lemma insync_bind {A : Type} (r : GM.t -> A) (k : A -> GM.Action) :
  (forall x, insync (k x)) -> insync (GM.bind r k).
Proof. intros H gm. unfold GM.bind. apply H. Qed.

Ltac quiet_step :=
  lazymatch goal with
  | |- quiet (GM.seq _ _) => apply quiet_seq
  | |- quiet (GM.when _ _) => apply quiet_when
  | |- quiet (GM.cond _ _ _) => apply quiet_cond
  | |- quiet (GM.bind _ _) => apply quiet_bind; intro
  | |- quiet (GM.modify _) => apply quiet_modify; intro; reflexivity
  | |- quiet (GM.emit _) => apply quiet_emit; intro; exact I
  | |- quiet GM.skip => apply quiet_skip
  | |- quiet (match ?x with _ => _ end) => destruct x
  | |- quiet ?a => let h := head_of a in unfold h
  end.

Ltac resync_step :=
  lazymatch goal with
  | |- resync GM.notifyStateChange => apply resync_notify
  | |- resync (GM.seq _ _) =>
    first [ apply resync_seq_r; solve [repeat resync_step]
          | apply resync_seq_l; [solve [repeat resync_step] | solve [repeat quiet_step]] ]
  | |- resync (GM.modify _) => fail
  | |- resync (GM.emit _) => fail
  | |- resync GM.skip => fail
  | |- resync (GM.cond _ _ _) => fail
  | |- resync (GM.bind _ _) => fail
  | |- resync ?a => let h := head_of a in unfold h
  end.

Ltac insync_step :=
  first
    [ apply insync_of_quiet; solve [repeat quiet_step]
    | apply insync_of_resync; solve [repeat resync_step]
    | lazymatch goal with
      | |- insync (GM.seq _ _) => apply insync_seq
      | |- insync (GM.when _ _) => apply insync_cond
      | |- insync (GM.cond _ _ _) => apply insync_cond
      | |- insync (GM.bind _ _) => apply insync_bind; intro
      | |- insync (match ?x with _ => _ end) => destruct x
      | |- insync ?a => let h := head_of a in unfold h
      end ].

Lemma step_insync {host : Host} op : insync (GM.step op).
Proof. destruct op; cbn [GM.step]; repeat insync_step. Qed.

Lemma run_insync {host : Host} ops :
  forall gm, announced (GM.state gm) (List.concat (snd (GM.run ops gm)))
             = GM.state (fst (GM.run ops gm)).
Proof.
  induction ops as [|op ops IH]; intro gm; [reflexivity|].
  simpl. pose proof (step_insync op gm) as H1.
  destruct (GM.step op gm) as [gm1 e]. simpl in H1.
  specialize (IH gm1). destruct (GM.run ops gm1) as [gm2 es]. simpl in *.
  now rewrite announced_app, H1.
Qed.

(** X22.  Every change of state is announced.  Whatever the operations and
    whatever manager they start from, the state last handed to the
    state-change callbacks is the state of the manager; when none was handed
    over, the state is the one the operations started in.  Each single
    operation has the same property. *)
Theorem X22_the_state_last_announced_is_the_state :
  forall (host : Host) (ops : list GM.Op) (gm : GM.t),
    announced (GM.state gm) (List.concat (snd (GM.run ops gm))) = GM.state (fst (GM.run ops gm))
    /\ forall op, announced (GM.state gm) (snd (GM.step op gm)) = GM.state (fst (GM.step op gm)).
Proof.
  intros host ops gm. split; [apply run_insync|]. intro op. apply step_insync.
Qed.

(** *** Pause and resume *)

Lemma run_cons_fst {host : Host} op ops gm :
  fst (GM.run (op :: ops) gm) = fst (GM.run ops (fst (GM.step op gm))).
Proof.
  simpl. destruct (GM.step op gm) as [gm1 e]. simpl. now destruct (GM.run ops gm1).
Qed.

Lemma run_app_fst {host : Host} ops1 ops2 :
  forall gm, fst (GM.run (ops1 ++ ops2) gm) = fst (GM.run ops2 (fst (GM.run ops1 gm))).
Proof.
  induction ops1 as [|op ops1 IH]; intro gm; [reflexivity|].
  rewrite <- app_comm_cons, !run_cons_fst. apply IH.
Qed.

Lemma last_cons {A : Type} (a d : A) (l : list A) : last (a :: l) d = last l a.
Proof.
  revert a d. induction l as [|b l IH]; intros a d; [reflexivity|].
  change (last (a :: b :: l) d) with (last (b :: l) d). now rewrite (IH b d), (IH b a).
Qed.

Lemma loop_paused {host : Host} f gm :
  GM.loopScheduled gm = true -> GM.state gm = GM.paused ->
  fst (GM.loop f gm) = GM.set_lastTime (GM.currentTime f) gm.
Proof.
  intros Hl Hs. rewrite loop_fst, Hl. cbn [negb]. cbv zeta.
  assert (E : fst (GM.handleEscape f (GM.set_lastTime (GM.currentTime f) gm))
              = GM.set_lastTime (GM.currentTime f) gm).
  { unfold GM.handleEscape, GM.when, GM.cond, GM.bind.
    destruct (InputManager.isKeyPressed _ _); [|reflexivity].
    cbn [GM.state GM.set_lastTime]. rewrite Hs. reflexivity. }
  rewrite E. cbn [GM.state GM.set_lastTime]. now rewrite Hs.
Qed.

Lemma run_paused {host : Host} fs ops :
  forall gm, GM.loopScheduled gm = true -> GM.state gm = GM.paused ->
  fst (GM.run (map GM.AnimationFrame fs ++ ops) gm)
  = fst (GM.run ops (GM.set_lastTime (last (map GM.currentTime fs) (GM.lastTime gm)) gm)).
Proof.
  induction fs as [|f fs IH]; intros gm Hl Hs.
  - simpl. now destruct gm.
  - cbn [map app]. rewrite run_cons_fst. cbn [GM.step]. rewrite (loop_paused f gm Hl Hs).
    rewrite IH by assumption. rewrite last_cons. reflexivity.
Qed.

(** X23.  A pause and a resume give the match back as it was.  From a manager
    that is [playing] with the player in control, a frame with the pause key
    down, any number of frames after it and a resume whose pointer lock is
    granted end in the manager they started from, but for the time of the last
    frame the loop remembers; with the lock refused the state stays
    [paused]. *)
Theorem X23_pause_and_resume_give_the_match_back :
  forall (host : Host) (gm : GM.t) (f : GM.Frame) (fs : list GM.Frame),
    GM.loopScheduled gm = true ->
    GM.state gm = GM.playing ->
    Player.canControl (GM.player gm) = true ->
    InputManager.isKeyPressed (GM.input f) "escape" = true ->
    fst (GM.run (GM.AnimationFrame f :: map GM.AnimationFrame fs ++ [GM.Unpause true]) gm)
    = GM.set_lastTime (last (map GM.currentTime fs) (GM.currentTime f)) gm
    /\ GM.state
         (fst (GM.run (GM.AnimationFrame f :: map GM.AnimationFrame fs ++ [GM.Unpause false])
                      gm))
       = GM.paused.
Proof.
  intros host gm f fs Hl Hs Hc He.
  rewrite !run_cons_fst. cbn [GM.step]. rewrite (loop_on_escape f gm Hl Hs He).
  rewrite !run_paused by (first [exact Hl | reflexivity]).
  split.
  - destruct gm as [player bot pw bw state mst mtr pk bk rt re stats lst gst ld psf psh bsf bsh
                    lt ls].
    destruct player. simpl in *. subst. reflexivity.
  - reflexivity.
Qed.

(** X23 on a pause at 6 s with two frames before the resume. *)
Lemma X23_pause_and_resume_give_the_match_back_witness :
  fst (GM.run (host := sampleHost)
         (GM.AnimationFrame (frameAt 6000 escapeKey)
          :: map GM.AnimationFrame [frameAt 6016 noKeys; frameAt 9000 escapeKey]
             ++ [GM.Unpause true])
         startedManager)
  = GM.set_lastTime 9000 startedManager.
Proof.
  apply (X23_pause_and_resume_give_the_match_back sampleHost startedManager
           (frameAt 6000 escapeKey) [frameAt 6016 noKeys; frameAt 9000 escapeKey]);
    reflexivity.
Defined.

(** *** The end of a respawn *)

Lemma Math_min_cap (a b : Q) : b <= a -> Math_min a b == b.
Proof.
  intro H. unfold Math_min. destruct (Qle_bool a b) eqn:E; [|reflexivity].
  apply Qle_bool_iff in E. lra.
Qed.

Lemma slow_step (t t' : Q) : 100 <= t' - t -> Math_min ((t' - t) / 1000) 0.1 == 0.1.
Proof.
  intro H. apply Math_min_cap. unfold Qdiv. change (/ 1000) with (1 # 1000). lra.
Qed.

Lemma slowFrames_app (fs1 fs2 : list GM.Frame) :
  forall t, slowFrames t (fs1 ++ fs2) ->
  slowFrames t fs1 /\ slowFrames (last (map GM.currentTime fs1) t) fs2.
Proof.
  induction fs1 as [|f fs1 IH]; intros t H; [simpl; auto|].
  destruct H as [H1 H2]. destruct (IH _ H2) as [A B].
  cbn [map]. rewrite last_cons. simpl. auto.
Qed.

Lemma loop_respawned {host : Host} f gm :
  GM.loopScheduled gm = true -> GM.state gm = GM.respawning ->
  GM.respawnTimer gm - Math_min ((GM.currentTime f - GM.lastTime gm) / 1000) 0.1 <= 0 ->
  GM.state (fst (GM.loop f gm)) = GM.playing
  /\ GM.respawningEntity (fst (GM.loop f gm)) = None.
Proof.
  intros Hl Hs Ht. rewrite loop_fst, Hl. cbn [negb]. cbv zeta.
  rewrite handleEscape_elsewhere
    by (cbn [GM.state GM.set_lastTime]; rewrite Hs; discriminate).
  cbn [fst GM.state GM.set_lastTime]. rewrite Hs.
  unfold GM.respawningFrame. rewrite seq_fst. cbn [GM.modify fst].
  unfold GM.when, GM.cond. cbn [GM.respawnTimer GM.set_respawnTimer GM.set_lastTime].
  apply Qle_bool_iff in Ht. rewrite Ht. rewrite seq_fst. split; reflexivity.
Qed.

Lemma slow_respawning {host : Host} fs :
  forall gm (k : nat),
    lifeOk gm -> GM.loopScheduled gm = true -> GM.state gm = GM.respawning ->
    GM.respawnTimer gm == 2 - 0.1 * inject_Z (Z.of_nat k) ->
    slowFrames (GM.lastTime gm) fs -> (k + List.length fs <= 19)%nat ->
    lifeOk (fst (GM.run (map GM.AnimationFrame fs) gm))
    /\ GM.loopScheduled (fst (GM.run (map GM.AnimationFrame fs) gm)) = true
    /\ GM.state (fst (GM.run (map GM.AnimationFrame fs) gm)) = GM.respawning
    /\ GM.respawnTimer (fst (GM.run (map GM.AnimationFrame fs) gm))
       == 2 - 0.1 * inject_Z (Z.of_nat (k + List.length fs))
    /\ GM.lastTime (fst (GM.run (map GM.AnimationFrame fs) gm))
       = last (map GM.currentTime fs) (GM.lastTime gm).
Proof.
  induction fs as [|f fs IH]; intros gm k H Hl Hs Ht Hslow Hk.
  - simpl. rewrite Nat.add_0_r. auto.
  - destruct Hslow as [H1 H2]. cbn [List.length] in Hk.
    pose proof (slow_step _ _ H1) as Hd.
    assert (Hk' : inject_Z (Z.of_nat k) <= 18)
      by (change 18 with (inject_Z 18); rewrite <- Zle_Qle; lia).
    cbn [map]. rewrite run_cons_fst. cbn [GM.step].
    rewrite loop_respawning by (try assumption; rewrite Hd, Ht; lra).
    cbn [fst].
    destruct (IH (GM.set_respawnTimer
                    (GM.respawnTimer gm
                     - Math_min ((GM.currentTime f - GM.lastTime gm) / 1000) 0.1)
                    (GM.set_lastTime (GM.currentTime f) gm)) (S k))
      as [A [B [C [D E]]]]; try assumption.
    + cbn [GM.respawnTimer GM.set_respawnTimer]. rewrite Hd, Ht.
      rewrite Nat2Z.inj_succ, <- Z.add_1_r, inject_Z_plus. change (inject_Z 1) with 1. lra.
    + lia.
    + rewrite last_cons. cbn [List.length]. rewrite <- plus_n_Sm.
      split; [exact A|]. split; [exact B|]. split; [exact C|]. split; [exact D | exact E].
Qed.

(** X24.  A respawn is over on the twentieth slow frame.  From a manager
    whose state and lives agree, [respawning] with the full delay on its
    timer, frames that come at least 100 ms apart leave it [respawning]
    through the nineteenth, and on the twentieth the state is [playing]
    again, no entity is respawning, and both combatants are alive. *)
Theorem X24_a_respawn_is_over_on_the_twentieth_slow_frame :
  forall (host : Host) (gm : GM.t) (fs : list GM.Frame) (f : GM.Frame),
    lifeOk gm ->
    GM.loopScheduled gm = true ->
    GM.state gm = GM.respawning ->
    GM.respawnTimer gm == GAME_CONSTANTS.RESPAWN_DELAY ->
    List.length fs = 19%nat ->
    slowFrames (GM.lastTime gm) (fs ++ [f]) ->
    GM.state (fst (GM.run (map GM.AnimationFrame fs) gm)) = GM.respawning
    /\ GM.state (fst (GM.run (map GM.AnimationFrame (fs ++ [f])) gm)) = GM.playing
    /\ GM.respawningEntity (fst (GM.run (map GM.AnimationFrame (fs ++ [f])) gm)) = None
    /\ Health.isDead
         (Player.health (GM.player (fst (GM.run (map GM.AnimationFrame (fs ++ [f])) gm))))
       = false
    /\ Health.isDead
         (Bot.health (GM.bot (fst (GM.run (map GM.AnimationFrame (fs ++ [f])) gm))))
       = false.
Proof.
  intros host gm fs f H Hl Hs Ht Hn Hslow.
  destruct (slowFrames_app fs [f] _ Hslow) as [S1 [S2 _]].
  destruct (slow_respawning fs gm 0 H Hl Hs) as [A [B [C [D E]]]]; try assumption.
  { rewrite Ht. reflexivity. }
  { rewrite Hn. lia. }
  split; [exact C|].
  rewrite map_app, run_app_fst. cbn [map]. rewrite run_cons_fst. cbn [GM.run GM.step fst].
  set (gm19 := fst (GM.run (map GM.AnimationFrame fs) gm)) in *.
  rewrite <- E in S2. pose proof (slow_step _ _ S2) as Hd.
  destruct (loop_respawned f gm19 B C) as [P1 P2].
  { rewrite Hd, D, Hn. cbn [Nat.add]. change (inject_Z (Z.of_nat 19)) with 19. lra. }
  destruct (loop_life f (GM.playerKills gm19) (GM.botKills gm19) gm19
              (conj A (conj eq_refl eq_refl))) as [[L _] _].
  destruct L as [_ [_ [_ [Lp [Lb _]]]]]. rewrite P2 in Lp, Lb.
  repeat split; assumption.
Qed.

(** X24 on twenty frames 100 ms apart after the bot was killed. *)
Lemma X24_a_respawn_is_over_on_the_twentieth_slow_frame_witness :
  GM.state (fst (GM.run (host := sampleHost) (map GM.AnimationFrame nineteenFrames)
                        killedManager))
  = GM.respawning
  /\ GM.state (fst (GM.run (host := sampleHost)
                      (map GM.AnimationFrame (nineteenFrames ++ [frameAt 8000 noKeys]))
                      killedManager))
     = GM.playing.
Proof.
  pose proof (X24_a_respawn_is_over_on_the_twentieth_slow_frame sampleHost killedManager
                nineteenFrames (frameAt 8000 noKeys)) as H.
  destruct H as [A [B _]].
  - unfold lifeOk. vm_compute.
    repeat split; try reflexivity; try discriminate; try congruence.
  - vm_compute. reflexivity.
  - vm_compute. reflexivity.
  - vm_compute. reflexivity.
  - vm_compute. reflexivity.
  - vm_compute. repeat split; discriminate.
  - split; [exact A | exact B].
Defined.

(** *** The screens *)

Lemma visibleAfter_announced shows events :
  forall s, visibleAfter shows (shows s) events = shows (announced s events).
Proof.
  induction events as [|e events IH]; intro s; [reflexivity|].
  destruct e; apply IH.
Qed.

(** X25.  The screens follow the state.  After any operations on a manager
    fresh from its constructor, with the screens' callbacks registered from
    the start, the pause screen is visible exactly when the manager is
    [paused] and the end screen exactly when it is [matchEnded]. *)
Theorem X25_the_screens_show_the_state :
  forall (host : Host) (t1 t2 : Z) (t0 : Q) (playerHead playerBody botMesh botHead : nat)
         (ops : list GM.Op),
    let r := GM.run ops (GM.new t1 t2 t0 playerHead playerBody botMesh botHead) in
    (PauseScreen_visible (List.concat (snd r)) = true <-> GM.state (fst r) = GM.paused)
    /\ (EndScreen_visible (List.concat (snd r)) = true <-> GM.state (fst r) = GM.matchEnded).
Proof.
  intros host t1 t2 t0 playerHead playerBody botMesh botHead ops r.
  pose proof (run_insync ops (GM.new t1 t2 t0 playerHead playerBody botMesh botHead)) as H.
  fold r in H. change (GM.state (GM.new t1 t2 t0 playerHead playerBody botMesh botHead))
    with GM.waiting in H.
  unfold PauseScreen_visible, EndScreen_visible.
  change false with (isPaused GM.waiting) at 1.
  change false with (isMatchEnded GM.waiting).
  rewrite !visibleAfter_announced, H.
  split; destruct (GM.state (fst r)); simpl; split; congruence.
Qed.

(** ** The HUD *)

Lemma length_append (s1 s2 : string) :
  String.length (s1 ++ s2) = (String.length s1 + String.length s2)%nat.
Proof. induction s1 as [|c s1 IH]; simpl; [reflexivity | now rewrite IH]. Qed.

Lemma append_inj_tail (s1 : string) :
  forall s2 t1 t2 : string,
    String.length t1 = String.length t2 -> (s1 ++ t1 = s2 ++ t2)%string ->
    s1 = s2 /\ t1 = t2.
Proof.
  induction s1 as [|c s1 IH]; intros [|c' s2] t1 t2 Hl H; simpl in H.
  - auto.
  - apply (f_equal String.length) in H. simpl in H. rewrite length_append in H. lia.
  - apply (f_equal String.length) in H. simpl in H. rewrite length_append in H. lia.
  - injection H as -> H. destruct (IH s2 t1 t2 Hl H) as [-> ->]. auto.
Qed.

Lemma toString_inj (a b : Z) : HUD.toString a = HUD.toString b -> a = b.
Proof.
  unfold HUD.toString. intro H.
  assert (Hn : forall z, Z.to_int z <> Decimal.Pos Decimal.Nil
                         /\ Z.to_int z <> Decimal.Neg Decimal.Nil).
  { intros [|p|p]; simpl; split; try discriminate; intro E; injection E;
      apply DecimalPos.Unsigned.to_uint_nonnil. }
  apply (f_equal DecimalString.NilZero.int_of_string) in H.
  rewrite !DecimalString.NilZero.isi in H by apply Hn.
  injection H. apply DecimalZ.to_int_inj.
Qed.

Lemma In_sixty (z : Z) : (0 <= z < 60)%Z -> In z sixty.
Proof.
  intro H. unfold sixty. apply in_map_iff. exists (Z.to_nat z).
  split; [lia|]. apply in_seq. lia.
Qed.

Lemma secs_two_digits (z : Z) :
  (0 <= z < 60)%Z -> String.length (HUD.padStart 2 "0"%char (HUD.toString z)) = 2%nat.
Proof.
  intro H.
  assert (A : forallb (fun z => Nat.eqb (String.length (HUD.padStart 2 "0"%char (HUD.toString z))) 2)
                      sixty = true) by (vm_compute; reflexivity).
  rewrite forallb_forall in A. apply Nat.eqb_eq. apply A. now apply In_sixty.
Qed.

Lemma secs_inj (a b : Z) :
  (0 <= a < 60)%Z -> (0 <= b < 60)%Z ->
  HUD.padStart 2 "0"%char (HUD.toString a) = HUD.padStart 2 "0"%char (HUD.toString b) -> a = b.
Proof.
  intros Ha Hb H.
  assert (A : forallb (fun a => forallb (fun b =>
                implb (String.eqb (HUD.padStart 2 "0"%char (HUD.toString a))
                                  (HUD.padStart 2 "0"%char (HUD.toString b)))
                      (Z.eqb a b)) sixty) sixty = true) by (vm_compute; reflexivity).
  rewrite forallb_forall in A. specialize (A a (In_sixty a Ha)).
  rewrite forallb_forall in A. specialize (A b (In_sixty b Hb)).
  apply String.eqb_eq in H. rewrite H in A. simpl in A. now apply Z.eqb_eq.
Qed.

(** X26.  The timer of the HUD is unambiguous.  For whole seconds from 0 up,
    [formatTime] writes the minutes, a colon and the seconds on exactly two
    digits, so the text is four characters long below ten minutes, and two
    different times never give the same text. *)
Theorem X26_formatTime_tells_times_apart :
  forall a b : Z,
    (0 <= a)%Z -> (0 <= b)%Z -> a <> b ->
    HUD.formatTime a <> HUD.formatTime b
    /\ String.length (HUD.formatTime a)
       = (String.length (HUD.toString (a / 60)) + 3)%nat
    /\ ((a < 600)%Z -> String.length (HUD.formatTime a) = 4%nat).
Proof.
  intros a b Ha Hb Hab.
  assert (Ra : (0 <= Z.rem a 60 < 60)%Z) by (rewrite Z.rem_mod_nonneg by lia; apply Z.mod_pos_bound; lia).
  assert (Rb : (0 <= Z.rem b 60 < 60)%Z) by (rewrite Z.rem_mod_nonneg by lia; apply Z.mod_pos_bound; lia).
  assert (L : String.length (HUD.formatTime a)
              = (String.length (HUD.toString (a / 60)) + 3)%nat).
  { unfold HUD.formatTime. cbv zeta. rewrite !length_append, secs_two_digits by exact Ra.
    reflexivity. }
  split; [|split; [exact L|]].
  - unfold HUD.formatTime. cbv zeta. intro H.
    apply append_inj_tail in H.
    + destruct H as [H1 H2]. apply toString_inj in H1.
      apply append_inj_tail with (s1 := ":"%string) (s2 := ":"%string) in H2;
        [|now rewrite !secs_two_digits].
      destruct H2 as [_ H2]. apply secs_inj in H2; try assumption.
      apply Hab. rewrite (Z.quot_rem' a 60), (Z.quot_rem' b 60).
      rewrite !Z.quot_div_nonneg by lia. now rewrite H1, H2.
    + rewrite !length_append, !secs_two_digits by assumption. reflexivity.
  - intro H6. rewrite L.
    assert (Hm : (0 <= a / 60 < 10)%Z)
      by (split; [apply Z.div_pos; lia | apply Z.div_lt_upper_bound; lia]).
    assert (A : forallb (fun m => Nat.eqb (String.length (HUD.toString m)) 1)
                        (map Z.of_nat (seq 0 10)) = true) by (vm_compute; reflexivity).
    rewrite forallb_forall in A.
    assert (Hin : In (a / 60)%Z (map Z.of_nat (seq 0 10))).
    { apply in_map_iff. exists (Z.to_nat (a / 60)). split; [lia|]. apply in_seq. lia. }
    apply A in Hin. apply Nat.eqb_eq in Hin. now rewrite Hin.
Qed.

(** X26 on the last second of a minute and the first of the next. *)
Lemma X26_formatTime_tells_times_apart_witness :
  HUD.formatTime 59 <> HUD.formatTime 60
  /\ HUD.formatTime 59 = "0:59"%string
  /\ HUD.formatTime 60 = "1:00"%string.
Proof.
  split; [|split; reflexivity].
  apply (X26_formatTime_tells_times_apart 59 60); lia.
Defined.
